(** * Helgo place pipeline: normalisation, merge and enrichment

    Shallow embedding of the Python scripts that build and enrich the
    places dataset (scripts/build_places_osm.py,
    scripts/build_places_zurich_api.py, scripts/enrich_places_wikidata.py,
    scripts/embed_places_qwen.py, scripts/embed_places_openai_batch.py,
    scripts/generate_descriptions.py, scripts/generate_descriptions_batch.py).

    Python dictionaries are finite maps, sets are finite sets, and Python
    truthiness of a string-or-None value is [truthy]. Where a script reads
    a key with [dict.get], a missing key and a key that holds [null] are
    both [None : option _]. The records of the sources are typed by the
    shape the scripts read them in: a key holds a value of its JSON type
    or is missing. Where the OSM script tells a key that holds [null] from
    a missing one (the membership tests of [element_center], the [tags] of
    an element), the module [OsmJson] gives the same functions on elements
    with [null], and the typed functions are their restriction. *)

From Stdlib Require Import ZArith QArith Ascii String List Bool Lia.
From stdpp Require Import base option list gmap strings pretty.

Open Scope string_scope.

(** ** Python string primitives used by the scripts

    A text is the sequence of bytes of its UTF-8 encoding. Case folding,
    white space and digits are those of ASCII; the bytes of a character
    outside ASCII are left as they are and belong to none of the classes. *)
Module Py.

(** Truthiness of an optional string: [None] and [""] are falsy. *)
Definition truthy (v : option string) : bool :=
  match v with
  | Some (String _ _) => true
  | _ => false
  end.

(** [a or b] on optional strings. *)
Definition or_ (a b : option string) : option string :=
  if truthy a then a else b.

Definition code (c : ascii) : nat := nat_of_ascii c.

Definition is_upper (c : ascii) : bool := (65 <=? code c)%nat && (code c <=? 90)%nat.
Definition is_lower (c : ascii) : bool := (97 <=? code c)%nat && (code c <=? 122)%nat.
Definition is_digit (c : ascii) : bool := (48 <=? code c)%nat && (code c <=? 57)%nat.

(** Membership in the character class [a-zA-Z0-9]. *)
Definition is_alnum (c : ascii) : bool := is_lower c || is_upper c || is_digit c.

(** Characters removed by [str.strip()] with no argument (the ASCII ones:
    tab, line feed, vertical tab, form feed, carriage return, the four
    separators 0x1c-0x1f and space). Python also removes the white space
    outside ASCII (U+00A0, U+2009 and the like), which is left in place
    here: [strip] is [str.strip] on ASCII text. *)
Definition is_space (c : ascii) : bool :=
  ((9 <=? code c)%nat && (code c <=? 13)%nat)
  || ((28 <=? code c)%nat && (code c <=? 32)%nat).

Definition lower_char (c : ascii) : ascii :=
  if is_upper c then ascii_of_nat (code c + 32) else c.

(** [str.lower()]: letters A-Z are folded, every other byte of the UTF-8
    encoding is kept. This is [str.lower] on ASCII text. Outside ASCII
    Python folds further letters; two of them give ASCII letters (U+212A
    gives k, U+0130 gives i followed by U+0307), which is not modelled. *)
Fixpoint lower (s : string) : string :=
  match s with
  | EmptyString => EmptyString
  | String c r => String (lower_char c) (lower r)
  end.

Fixpoint lstrip_with (p : ascii -> bool) (s : string) : string :=
  match s with
  | EmptyString => EmptyString
  | String c r => if p c then lstrip_with p r else s
  end.

Fixpoint rstrip_with (p : ascii -> bool) (s : string) : string :=
  match s with
  | EmptyString => EmptyString
  | String c r =>
      match rstrip_with p r with
      | EmptyString => if p c then EmptyString else String c EmptyString
      | r' => String c r'
      end
  end.

Definition strip_with (p : ascii -> bool) (s : string) : string :=
  rstrip_with p (lstrip_with p s).

(** [s.strip()] *)
Definition strip (s : string) : string := strip_with is_space s.

(** [s.strip(c)] for a one-character argument. *)
Definition strip_char (c : ascii) (s : string) : string :=
  strip_with (Ascii.eqb c) s.

(** [sep.join(parts)] *)
Fixpoint join (sep : string) (parts : list string) : string :=
  match parts with
  | [] => ""
  | [p] => p
  | p :: rest => p ++ sep ++ join sep rest
  end.

(** [needle in hay] for strings. *)
Fixpoint contains (needle hay : string) : bool :=
  String.prefix needle hay
  || match hay with
     | EmptyString => false
     | String _ r => contains needle r
     end.

(** [re.split(r"[;,]", s)]: the pieces between the separators, empty
    pieces included. *)
Fixpoint split_on (p : ascii -> bool) (s : string) : list string :=
  match s with
  | EmptyString => [""]
  | String c r =>
      if p c then "" :: split_on p r
      else match split_on p r with
           | [] => [String c ""]
           | w :: ws => String c w :: ws
           end
  end.

(** Every character of [s] satisfies [p]. *)
Fixpoint all_chars (p : ascii -> bool) (s : string) : bool :=
  match s with
  | EmptyString => true
  | String c r => p c && all_chars p r
  end.

(** [s.isdigit()] on ASCII text: non-empty and digits only (Python also
    accepts the digits outside ASCII). *)
Definition isdigit (s : string) : bool :=
  match s with
  | EmptyString => false
  | _ => all_chars is_digit s
  end.

(** [re.sub(r"[^a-zA-Z0-9]+", rep, s)]: every maximal run of characters
    outside [a-zA-Z0-9] is replaced by one copy of [rep]. The flag records
    that the previous character already belonged to the current run. *)
Fixpoint sub_non_alnum_from (in_run : bool) (rep : ascii) (s : string) : string :=
  match s with
  | EmptyString => EmptyString
  | String c r =>
      if is_alnum c then String c (sub_non_alnum_from false rep r)
      else if in_run then sub_non_alnum_from true rep r
      else String rep (sub_non_alnum_from true rep r)
  end.

Definition sub_non_alnum (rep : ascii) (s : string) : string :=
  sub_non_alnum_from false rep s.

End Py.

(** ** The canonical place entity

    One JSON object of the dataset, with numbers under "lat" and "lon". A
    key that is missing and a key that holds [null] are both [None]: the
    scripts read these fields with [dict.get], which does not tell the two
    apart. The one exception is "description" inside the prompts of the
    two description scripts, read with the default [""]: there [None] is
    the key holding [null], which is how both build scripts write a place
    without a description. *)
Module Place.

Record t := mk {
  id : string;
  name : string;
  category : string;
  lat : Q;
  lon : Q;
  tags : list string;
  address : option string;
  website : option string;
  phone : option string;
  photoUrl : option string;
  mapsUrl : string;
  indoorOutdoor : string;
  durationMins : Z;
  bestTimeOfDay : string;
  description : option string;
  area : option string;
  aiDescription : option string;
  embedding : option (list Q)
}.

End Place.

(** [place[key] = value] for the keys the passes assign. *)
Definition set_tags (p : Place.t) (v : list string) : Place.t :=
  Place.mk (Place.id p) (Place.name p) (Place.category p) (Place.lat p) (Place.lon p)
    v (Place.address p) (Place.website p) (Place.phone p) (Place.photoUrl p)
    (Place.mapsUrl p) (Place.indoorOutdoor p) (Place.durationMins p)
    (Place.bestTimeOfDay p) (Place.description p) (Place.area p)
    (Place.aiDescription p) (Place.embedding p).

Definition set_address (p : Place.t) (v : option string) : Place.t :=
  Place.mk (Place.id p) (Place.name p) (Place.category p) (Place.lat p) (Place.lon p)
    (Place.tags p) v (Place.website p) (Place.phone p) (Place.photoUrl p)
    (Place.mapsUrl p) (Place.indoorOutdoor p) (Place.durationMins p)
    (Place.bestTimeOfDay p) (Place.description p) (Place.area p)
    (Place.aiDescription p) (Place.embedding p).

Definition set_website (p : Place.t) (v : option string) : Place.t :=
  Place.mk (Place.id p) (Place.name p) (Place.category p) (Place.lat p) (Place.lon p)
    (Place.tags p) (Place.address p) v (Place.phone p) (Place.photoUrl p)
    (Place.mapsUrl p) (Place.indoorOutdoor p) (Place.durationMins p)
    (Place.bestTimeOfDay p) (Place.description p) (Place.area p)
    (Place.aiDescription p) (Place.embedding p).

Definition set_phone (p : Place.t) (v : option string) : Place.t :=
  Place.mk (Place.id p) (Place.name p) (Place.category p) (Place.lat p) (Place.lon p)
    (Place.tags p) (Place.address p) (Place.website p) v (Place.photoUrl p)
    (Place.mapsUrl p) (Place.indoorOutdoor p) (Place.durationMins p)
    (Place.bestTimeOfDay p) (Place.description p) (Place.area p)
    (Place.aiDescription p) (Place.embedding p).

Definition set_photoUrl (p : Place.t) (v : option string) : Place.t :=
  Place.mk (Place.id p) (Place.name p) (Place.category p) (Place.lat p) (Place.lon p)
    (Place.tags p) (Place.address p) (Place.website p) (Place.phone p) v
    (Place.mapsUrl p) (Place.indoorOutdoor p) (Place.durationMins p)
    (Place.bestTimeOfDay p) (Place.description p) (Place.area p)
    (Place.aiDescription p) (Place.embedding p).

Definition set_aiDescription (p : Place.t) (v : option string) : Place.t :=
  Place.mk (Place.id p) (Place.name p) (Place.category p) (Place.lat p) (Place.lon p)
    (Place.tags p) (Place.address p) (Place.website p) (Place.phone p) (Place.photoUrl p)
    (Place.mapsUrl p) (Place.indoorOutdoor p) (Place.durationMins p)
    (Place.bestTimeOfDay p) (Place.description p) (Place.area p)
    v (Place.embedding p).

Definition set_embedding (p : Place.t) (v : option (list Q)) : Place.t :=
  Place.mk (Place.id p) (Place.name p) (Place.category p) (Place.lat p) (Place.lon p)
    (Place.tags p) (Place.address p) (Place.website p) (Place.phone p) (Place.photoUrl p)
    (Place.mapsUrl p) (Place.indoorOutdoor p) (Place.durationMins p)
    (Place.bestTimeOfDay p) (Place.description p) (Place.area p)
    (Place.aiDescription p) v.

(** The four scalar fields governed by the fill-only rule. *)
Inductive scalar_field := Address | Website | Phone | PhotoUrl.

Definition get_field (f : scalar_field) (p : Place.t) : option string :=
  match f with
  | Address => Place.address p
  | Website => Place.website p
  | Phone => Place.phone p
  | PhotoUrl => Place.photoUrl p
  end.

(** The tag allow-list; both build scripts declare the same set. *)
Definition ALLOWED_TAGS : gset string :=
  list_to_set
    ["cozy"; "hip"; "lake"; "oldtown"; "quiet"; "touristy"; "romantic";
     "cheap"; "view"; "photo"; "park"; "green"; "narrow"; "bridge"; "city";
     "street"; "mexican"; "italian"; "sushi"; "burger"; "asian"; "swiss";
     "brunch"; "coffee"; "cocktails"; "beer"; "wine"; "vegan"; "historic"].

Definition allowed (tag : string) : bool := bool_decide (tag ∈ ALLOWED_TAGS).

(** The per-category defaults copied into a new place. *)
Record defaults := mk_defaults {
  d_indoorOutdoor : string;
  d_durationMins : Z;
  d_bestTimeOfDay : string
}.

(** ** scripts/build_places_osm.py *)
Module Osm.

(** The keys of [CATEGORY_QUERIES], which are also the keys of
    [CATEGORY_DEFAULTS], [CATEGORY_TAGS] and [per_category]. *)
Inductive category :=
  | restaurant | cafe | bar | museum | market | park | viewpoint | walk.

#[global] Instance category_eq_dec : EqDecision category.
Proof. solve_decision. Defined.

Definition category_name (c : category) : string :=
  match c with
  | restaurant => "restaurant"
  | cafe => "cafe"
  | bar => "bar"
  | museum => "museum"
  | market => "market"
  | park => "park"
  | viewpoint => "viewpoint"
  | walk => "walk"
  end.

Definition CATEGORY_DEFAULTS (c : category) : defaults :=
  match c with
  | restaurant => mk_defaults "indoor" 90 "night"
  | cafe => mk_defaults "indoor" 60 "morning"
  | bar => mk_defaults "indoor" 90 "night"
  | museum => mk_defaults "indoor" 60 "afternoon"
  | market => mk_defaults "indoor" 45 "morning"
  | park => mk_defaults "outdoor" 75 "afternoon"
  | viewpoint => mk_defaults "outdoor" 45 "sunset"
  | walk => mk_defaults "outdoor" 75 "afternoon"
  end.

Definition CUISINE_MAP : gmap string string :=
  list_to_map
    [("mexican", "mexican"); ("tex-mex", "mexican");
     ("latin_american", "mexican"); ("latin-american", "mexican");
     ("italian", "italian"); ("sushi", "sushi"); ("japanese", "sushi");
     ("asian", "asian"); ("thai", "asian"); ("vietnamese", "asian");
     ("chinese", "asian"); ("korean", "asian"); ("burger", "burger");
     ("swiss", "swiss"); ("vegan", "vegan"); ("vegetarian", "vegan");
     ("coffee", "coffee"); ("cafe", "coffee"); ("brunch", "brunch")].

Definition CATEGORY_TAGS (c : category) : list string :=
  match c with
  | restaurant => []
  | cafe => ["coffee"]
  | bar => ["beer"; "cocktails"]
  | museum => ["historic"]
  | market => ["city"]
  | park => ["park"; "green"]
  | viewpoint => ["view"; "photo"]
  | walk => ["view"; "photo"; "street"]
  end.

(** One element of the Overpass answer, in the shape the script reads it:
    [e_lat], [e_lon], [e_center] and [e_tags] are the keys "lat", "lon",
    "center" and "tags", each missing ([None]) or holding a number or a
    dictionary. An element with [null] under one of these keys is not of
    this type; [OsmJson.element] has it. *)
Record element := mk_element {
  e_type : string;
  e_id : Z;
  e_lat : option Q;
  e_lon : option Q;
  e_center : option (gmap string Q);
  e_tags : option (gmap string string)
}.

(** [element.get("tags", {})]: the dictionary under "tags", the default
    for an element without the key. ([OsmJson.tags_of] has the element
    whose key holds [null].) *)
Definition tags_of (e : element) : gmap string string :=
  default ∅ (e_tags e).

(** [slugify(text)] *)
Definition slugify (text : string) : string :=
  let slug := Py.strip_char "-" (Py.sub_non_alnum "-" (Py.lower (Py.strip text))) in
  match slug with
  | EmptyString => "place"
  | _ => slug
  end.

(** [build_address(tags)] *)
Definition build_address (tags : gmap string string) : option string :=
  let parts :=
    [tags !! "addr:street"; tags !! "addr:housenumber";
     tags !! "addr:postcode"; tags !! "addr:city"] in
  let cleaned := omap (fun part => if Py.truthy part then part else None) parts in
  match cleaned with
  | [] => None
  | [only] => Some only
  | first :: second :: rest =>
      if Py.isdigit second
      then Some (Py.join ", " ((first ++ " " ++ second) :: rest))
      else Some (Py.join ", " cleaned)
  end.

(** [extract_cuisine_tags(tags)] *)
Definition extract_cuisine_tags (tags : gmap string string) : list string :=
  let cuisine := default "" (tags !! "cuisine") in
  match cuisine with
  | EmptyString => []
  | _ =>
      let values := Py.split_on (fun c => Ascii.eqb c ";" || Ascii.eqb c ",") (Py.lower cuisine) in
      omap (fun value =>
              match Py.strip value with
              | EmptyString => None
              | v => match CUISINE_MAP !! v with
                     | Some mapped_tag =>
                         if Py.truthy (Some mapped_tag) then Some mapped_tag else None
                     | None => None
                     end
              end) values
  end.

(** [element_center(element)] *)
Definition element_center (e : element) : option (Q * Q) :=
  match e_lat e, e_lon e with
  | Some la, Some lo => Some (la, lo)
  | _, _ =>
      match e_center e with
      | Some center =>
          if bool_decide (center ≠ ∅)
          then match center !! "lat", center !! "lon" with
               | Some la, Some lo => Some (la, lo)
               | _, _ => None
               end
          else None
      | None => None
      end
  end.

(** [clamp_tags(tags)] *)
Definition clamp_tags (tags : list string) : list string :=
  List.filter allowed tags.

Section Build.

(** Python's text for a float inside an f-string; only the map link uses it. *)
Variable float_repr : Q -> string.

(** [maps_url(lat, lon)] *)
Definition maps_url (lat lon : Q) : string :=
  "https://maps.google.com/?q=" ++ float_repr lat ++ "," ++ float_repr lon.

(** [build_place(element, category)] *)
Definition build_place (e : element) (c : category) : option Place.t :=
  match element_center e with
  | None => None
  | Some (lat, lon) =>
      let tags := tags_of e in
      let name := tags !! "name" in
      match name with
      | Some (String a r as name) =>
          let address := build_address tags in
          let cuisine_tags := extract_cuisine_tags tags in
          let combined_tags := clamp_tags (CATEGORY_TAGS c ++ cuisine_tags) in
          let place_id :=
            "osm-" ++ e_type e ++ "-" ++ pretty (e_id e) ++ "-" ++ slugify name in
          let website := Py.or_ (tags !! "website") (tags !! "contact:website") in
          let phone := Py.or_ (tags !! "phone") (tags !! "contact:phone") in
          Some (Place.mk place_id name (category_name c) lat lon combined_tags
                  address website phone None (maps_url lat lon)
                  (d_indoorOutdoor (CATEGORY_DEFAULTS c))
                  (d_durationMins (CATEGORY_DEFAULTS c))
                  (d_bestTimeOfDay (CATEGORY_DEFAULTS c))
                  (tags !! "description")
                  (Py.or_ (tags !! "addr:suburb") (tags !! "addr:neighbourhood"))
                  None None)
      | _ => None
      end
  end.

(** The [if]/[elif] chain at the head of the loop body of [build_places]. *)
Definition classify (e : element) : option category :=
  let tags := tags_of e in
  if bool_decide (tags !! "amenity" = Some "restaurant") then Some restaurant
  else if bool_decide (tags !! "amenity" = Some "cafe") then Some cafe
  else if bool_decide (tags !! "amenity" = Some "bar")
          || bool_decide (tags !! "amenity" = Some "pub") then Some bar
  else if bool_decide (tags !! "tourism" = Some "museum") then Some museum
  else if bool_decide (tags !! "amenity" = Some "marketplace") then Some market
  else if bool_decide (tags !! "leisure" = Some "park") then Some park
  else if bool_decide (tags !! "tourism" = Some "viewpoint") then Some viewpoint
  else if bool_decide (tags !! "route" = Some "hiking")
          || bool_decide (tags !! "route" = Some "foot")
          || bool_decide (tags !! "route" = Some "walking")
          || bool_decide (tags !! "route" = Some "trail") then Some walk
  else None.

(** The loop state of [build_places]: the list built so far, the set of
    ids already emitted, and the per-category counters. *)
Record build_state := mk_state {
  places : list Place.t;
  seen : gset string;
  per_category : category -> Z
}.

Definition initial : build_state :=
  mk_state [] ∅ (fun _ => 0%Z).

Definition bump (per : category -> Z) (c : category) : category -> Z :=
  fun c' => if decide (c' = c) then (per c' + 1)%Z else per c'.

(** One iteration of the loop, over the normaliser it calls. *)
Definition build_step_with (normalise : element -> category -> option Place.t)
    (limit_per_category : Z) (st : build_state) (e : element) : build_state :=
  match classify e with
  | None => st
  | Some c =>
      if (limit_per_category <=? per_category st c)%Z then st
      else
        match normalise e c with
        | None => st
        | Some place =>
            if bool_decide (Place.id place ∈ seen st) then st
            else mk_state (places st ++ [place])
                          ({[Place.id place]} ∪ seen st)
                          (bump (per_category st) c)
        end
  end.

Definition build_step := build_step_with build_place.

Definition build_loop (limit_per_category : Z) (st : build_state)
    (elements : list element) : build_state :=
  fold_left (build_step limit_per_category) elements st.

(** [build_places(elements, limit_per_category)] *)
Definition build_places (elements : list element) (limit_per_category : Z)
    : list Place.t :=
  places (build_loop limit_per_category initial elements).

End Build.

End Osm.

(** ** scripts/build_places_osm.py on elements with null

    [element_center] tests the keys "lat" and "lon" with [in], and
    [build_place] and [build_places] call [get] on the value of "tags":
    for these a key that holds [null] is not a missing key. This module
    gives [element_center] and [build_place] on elements whose keys are
    missing, hold [null], or hold a value, with the dictionary
    [build_place] returns as a finite map of JSON values. *)
Module OsmJson.

(** What a dictionary has under a key. *)
Inductive entry (A : Type) :=
  | Missing
  | Null
  | Value (a : A).

Arguments Missing {A}.
Arguments Null {A}.
Arguments Value {A} a.

(** [key in dictionary] *)
Definition present {A : Type} (x : entry A) : bool :=
  match x with
  | Missing => false
  | _ => true
  end.

(** [dictionary[key]] for a key that is present: the value, [None] for
    [null]. *)
Definition item {A : Type} (x : entry A) : option A :=
  match x with
  | Value a => Some a
  | _ => None
  end.

(** One element. The values of a "center" dictionary are numbers or
    [null]. *)
Record element := mk_element {
  r_type : string;
  r_id : Z;
  r_lat : entry Q;
  r_lon : entry Q;
  r_center : entry (gmap string (option Q));
  r_tags : entry (gmap string string)
}.

(** The values of the dictionary [build_place] returns. *)
Inductive json :=
  | JNull
  | JNum (q : Q)
  | JInt (z : Z)
  | JStr (s : string)
  | JStrings (l : list string).

Definition number (v : option Q) : json :=
  match v with
  | Some q => JNum q
  | None => JNull
  end.

Definition text (v : option string) : json :=
  match v with
  | Some s => JStr s
  | None => JNull
  end.

(** A call that returns a value or raises. *)
Inductive outcome (A : Type) :=
  | Raises
  | Returns (a : A).

Arguments Raises {A}.
Arguments Returns {A} a.

(** [element_center(element)]: a pair is returned as soon as both keys are
    present, whatever they hold. *)
Definition element_center (r : element) : option (option Q * option Q) :=
  if present (r_lat r) && present (r_lon r)
  then Some (item (r_lat r), item (r_lon r))
  else
    match r_center r with
    | Value center =>
        if bool_decide (center ≠ ∅)
        then match center !! "lat", center !! "lon" with
             | Some la, Some lo => Some (la, lo)
             | _, _ => None
             end
        else None
    | _ => None
    end.

(** [element.get("tags", {})]: the default stands in for a missing key
    only; [None] is the value [null], on which [get] raises. *)
Definition tags_of (r : element) : option (gmap string string) :=
  match r_tags r with
  | Missing => Some ∅
  | Null => None
  | Value tags => Some tags
  end.

Section Build.

Variable float_repr : Q -> string.

(** The text of a coordinate inside the f-string of [maps_url]. *)
Definition coordinate_repr (v : option Q) : string :=
  match v with
  | Some q => float_repr q
  | None => "None"
  end.

(** [maps_url(lat, lon)] *)
Definition maps_url (lat lon : option Q) : string :=
  "https://maps.google.com/?q=" ++ coordinate_repr lat ++ "," ++ coordinate_repr lon.

(** [build_place(element, category)] *)
Definition build_place (r : element) (c : Osm.category)
    : outcome (option (gmap string json)) :=
  match element_center r with
  | None => Returns None
  | Some (lat, lon) =>
      match tags_of r with
      | None => Raises
      | Some tags =>
          match tags !! "name" with
          | Some (String _ _ as name) =>
              let address := Osm.build_address tags in
              let cuisine_tags := Osm.extract_cuisine_tags tags in
              let combined_tags :=
                Osm.clamp_tags (Osm.CATEGORY_TAGS c ++ cuisine_tags) in
              let place_id :=
                "osm-" ++ r_type r ++ "-" ++ pretty (r_id r) ++ "-"
                ++ Osm.slugify name in
              let website := Py.or_ (tags !! "website") (tags !! "contact:website") in
              let phone := Py.or_ (tags !! "phone") (tags !! "contact:phone") in
              Returns
                (Some
                   (list_to_map
                      [("id", JStr place_id);
                       ("name", JStr name);
                       ("category", JStr (Osm.category_name c));
                       ("lat", number lat);
                       ("lon", number lon);
                       ("tags", JStrings combined_tags);
                       ("address", text address);
                       ("website", text website);
                       ("phone", text phone);
                       ("mapsUrl", JStr (maps_url lat lon));
                       ("indoorOutdoor",
                        JStr (d_indoorOutdoor (Osm.CATEGORY_DEFAULTS c)));
                       ("durationMins",
                        JInt (d_durationMins (Osm.CATEGORY_DEFAULTS c)));
                       ("bestTimeOfDay",
                        JStr (d_bestTimeOfDay (Osm.CATEGORY_DEFAULTS c)));
                       ("description", text (tags !! "description"));
                       ("area",
                        text (Py.or_ (tags !! "addr:suburb")
                                     (tags !! "addr:neighbourhood")))]))
          | _ => Returns None
          end
      end
  end.

(** The [if]/[elif] chain at the head of the loop body of [build_places],
    on the dictionary [tags]. *)
Definition classify (tags : gmap string string) : option Osm.category :=
  if bool_decide (tags !! "amenity" = Some "restaurant") then Some Osm.restaurant
  else if bool_decide (tags !! "amenity" = Some "cafe") then Some Osm.cafe
  else if bool_decide (tags !! "amenity" = Some "bar")
          || bool_decide (tags !! "amenity" = Some "pub") then Some Osm.bar
  else if bool_decide (tags !! "tourism" = Some "museum") then Some Osm.museum
  else if bool_decide (tags !! "amenity" = Some "marketplace") then Some Osm.market
  else if bool_decide (tags !! "leisure" = Some "park") then Some Osm.park
  else if bool_decide (tags !! "tourism" = Some "viewpoint") then Some Osm.viewpoint
  else if bool_decide (tags !! "route" = Some "hiking")
          || bool_decide (tags !! "route" = Some "foot")
          || bool_decide (tags !! "route" = Some "walking")
          || bool_decide (tags !! "route" = Some "trail") then Some Osm.walk
  else None.

(** The loop state of [build_places]: the dictionaries built so far, the
    set of ids already emitted, and the per-category counters. *)
Record build_state := mk_state {
  places : list (gmap string json);
  seen : gset string;
  per_category : Osm.category -> Z
}.

Definition initial : build_state :=
  mk_state [] ∅ (fun _ => 0%Z).

(** One iteration of the loop. [tags.get("amenity")] is the first call on
    the value of "tags" and raises when that value is [null]. The
    dictionary of [build_place] has a string under "id". *)
Definition build_step (limit_per_category : Z) (st : build_state) (r : element)
    : outcome build_state :=
  match tags_of r with
  | None => Raises
  | Some tags =>
      match classify tags with
      | None => Returns st
      | Some c =>
          if (limit_per_category <=? per_category st c)%Z then Returns st
          else
            match build_place r c with
            | Raises => Raises
            | Returns None => Returns st
            | Returns (Some place) =>
                match place !! "id" with
                | Some (JStr place_id) =>
                    if bool_decide (place_id ∈ seen st) then Returns st
                    else Returns
                           (mk_state (places st ++ [place])
                              ({[place_id]} ∪ seen st)
                              (Osm.bump (per_category st) c))
                | _ => Raises
                end
            end
      end
  end.

(** The loop: an iteration that raises ends it. *)
Fixpoint build_loop (limit_per_category : Z) (st : build_state)
    (elements : list element) : outcome build_state :=
  match elements with
  | [] => Returns st
  | r :: rest =>
      match build_step limit_per_category st r with
      | Raises => Raises
      | Returns st' => build_loop limit_per_category st' rest
      end
  end.

(** [build_places(elements, limit_per_category)] *)
Definition build_places (elements : list element) (limit_per_category : Z)
    : outcome (list (gmap string json)) :=
  match build_loop limit_per_category initial elements with
  | Raises => Raises
  | Returns st => Returns (places st)
  end.

End Build.

(** The dictionary of a place of the first pass: the fifteen keys
    [build_place] writes. *)
Definition place_dict (p : Place.t) : gmap string json :=
  list_to_map
    [("id", JStr (Place.id p));
     ("name", JStr (Place.name p));
     ("category", JStr (Place.category p));
     ("lat", JNum (Place.lat p));
     ("lon", JNum (Place.lon p));
     ("tags", JStrings (Place.tags p));
     ("address", text (Place.address p));
     ("website", text (Place.website p));
     ("phone", text (Place.phone p));
     ("mapsUrl", JStr (Place.mapsUrl p));
     ("indoorOutdoor", JStr (Place.indoorOutdoor p));
     ("durationMins", JInt (Place.durationMins p));
     ("bestTimeOfDay", JStr (Place.bestTimeOfDay p));
     ("description", text (Place.description p));
     ("area", text (Place.area p))].

(** An element in the shape the script reads it, as an element of this
    module: no key holds [null]. *)
Definition of_option {A : Type} (v : option A) : entry A :=
  match v with
  | Some a => Value a
  | None => Missing
  end.

Definition of_typed (e : Osm.element) : element :=
  mk_element (Osm.e_type e) (Osm.e_id e)
    (of_option (Osm.e_lat e)) (of_option (Osm.e_lon e))
    (of_option (fmap (M := gmap string) Some <$> Osm.e_center e))
    (of_option (Osm.e_tags e)).

End OsmJson.

(** ** scripts/build_places_zurich_api.py *)
Module Zurich.

(** The closed taxonomy: the keys of [CATEGORY_DEFAULTS]. *)
Inductive category :=
  | restaurant | cafe | bar | museum | market | park | viewpoint | walk
  | activity | shopping | sport | wellness | accommodation | event
  | sightseeing.

#[global] Instance category_eq_dec : EqDecision category.
Proof. solve_decision. Defined.

Definition category_name (c : category) : string :=
  match c with
  | restaurant => "restaurant"
  | cafe => "cafe"
  | bar => "bar"
  | museum => "museum"
  | market => "market"
  | park => "park"
  | viewpoint => "viewpoint"
  | walk => "walk"
  | activity => "activity"
  | shopping => "shopping"
  | sport => "sport"
  | wellness => "wellness"
  | accommodation => "accommodation"
  | event => "event"
  | sightseeing => "sightseeing"
  end.

Definition CATEGORY_DEFAULTS (c : category) : defaults :=
  match c with
  | restaurant => mk_defaults "indoor" 90 "night"
  | cafe => mk_defaults "indoor" 60 "morning"
  | bar => mk_defaults "indoor" 90 "night"
  | museum => mk_defaults "indoor" 60 "afternoon"
  | market => mk_defaults "indoor" 60 "morning"
  | park => mk_defaults "outdoor" 75 "afternoon"
  | viewpoint => mk_defaults "outdoor" 45 "sunset"
  | walk => mk_defaults "outdoor" 75 "afternoon"
  | activity => mk_defaults "mixed" 90 "afternoon"
  | shopping => mk_defaults "indoor" 60 "afternoon"
  | sport => mk_defaults "mixed" 90 "afternoon"
  | wellness => mk_defaults "indoor" 90 "afternoon"
  | accommodation => mk_defaults "indoor" 120 "night"
  | event => mk_defaults "mixed" 120 "night"
  | sightseeing => mk_defaults "outdoor" 60 "afternoon"
  end.

(** A value handed to [text_value]: a language-keyed dictionary, a plain
    string, or anything else ([None] for a missing key included). *)
Inductive text :=
  | TextDict (d : gmap string string)
  | TextStr (s : string)
  | TextOther.

(** [text_value(value)] *)
Definition text_value (value : text) : option string :=
  match value with
  | TextDict d => Py.or_ (Py.or_ (d !! "en") (d !! "de")) (d !! "default")
  | TextStr s => Some s
  | TextOther => None
  end.

(** The position of the first [>] of a string. *)
Fixpoint close_index (s : string) : option nat :=
  match s with
  | EmptyString => None
  | String c r => if Ascii.eqb c ">" then Some 0%nat else S <$> close_index r
  end.

(** [re.sub(r"<[^>]+>", "", s)]; [skip] counts the characters of a tag
    that are still to be dropped. *)
Fixpoint remove_tags_from (skip : nat) (s : string) : string :=
  match s with
  | EmptyString => EmptyString
  | String c r =>
      match skip with
      | S k => remove_tags_from k r
      | O =>
          if Ascii.eqb c "<"
          then match close_index r with
               | Some (S j) => remove_tags_from (S (S j)) r
               | _ => String c (remove_tags_from O r)
               end
          else String c (remove_tags_from O r)
      end
  end.

Definition remove_tags (s : string) : string := remove_tags_from O s.

#[local] Set Warnings "-register-all".

(** The value of an "image" or "photo" key. [ImageDict url] is a
    dictionary whose "url" entry is the string [url], if it has one. *)
Inductive image :=
  | ImageStr (s : string)
  | ImageDict (url : option string)
  | ImageList (items : list image)
  | ImageOther.

(** [extract_image_url(image)] *)
Fixpoint extract_image_url (img : image) : option string :=
  match img with
  | ImageStr s => Some s
  | ImageDict url => url
  | ImageList (first :: _) => extract_image_url first
  | ImageList [] => None
  | ImageOther => None
  end.

(** The value of the "address" key: a dictionary, a truthy value of
    another type, or a falsy one ([None] for a missing key included). *)
Inductive address_value :=
  | AddressDict (d : gmap string string)
  | AddressTruthy
  | AddressFalsy.

(** [obj.get("address") or {}]; [None] stands for a value that is not a
    dictionary. *)
Definition address_or_empty (a : address_value) : option (gmap string string) :=
  match a with
  | AddressDict d => Some d
  | AddressTruthy => None
  | AddressFalsy => Some ∅
  end.

(** [isinstance(obj.get("address"), dict)] with the dictionary at hand. *)
Definition address_dict (a : address_value) : option (gmap string string) :=
  match a with
  | AddressDict d => Some d
  | _ => None
  end.

(** [build_address(address)]; the argument is [None] when the value is
    not a dictionary. *)
Definition build_address (address : option (gmap string string)) : option string :=
  match address with
  | None => None
  | Some address =>
      let parts :=
        [address !! "streetAddress"; address !! "postalCode";
         address !! "addressLocality"] in
      Some (Py.join ", "
              (omap (fun part => if Py.truthy part then part else None) parts))
  end.

(** The value of the "@type" key. *)
Inductive type_value :=
  | TypeStr (s : string)
  | TypeList (l : list string)
  | TypeOther.

(** One object of the open-data answer, with the keys [main] reads. The
    field [o_category] lists the keys of the "category" dictionary in
    order (none when the key is missing or the dictionary is empty). *)
Record obj := mk_obj {
  o_identifier : option string;
  o_id : option string;
  o_geoCoordinates : option (gmap string Q);
  o_geo : option (gmap string Q);
  o_name : text;
  o_headline : text;
  o_title : option string;
  o_category : list string;
  o_type : type_value;
  o_disambiguatingDescription : text;
  o_description : text;
  o_textTeaser : text;
  o_titleTeaser : text;
  o_address : address_value;
  o_url : option string;
  o_telephone : option string;
  o_image : image;
  o_photo : image
}.

(** [has_any(values)] inside [category_from_type]. *)
Definition has_any (lower_categories values : list string) : bool :=
  existsb (fun cat => existsb (fun value => Py.contains value cat) values)
    lower_categories.

Definition mem (x : string) (l : list string) : bool := bool_decide (x ∈ l).

(** [category_from_type(types, categories)] *)
Definition category_from_type (types categories : list string) : category :=
  let lower_categories := map Py.lower categories in
  let has_any := has_any lower_categories in
  if has_any ["hotel"; "accommodation"; "hostel"; "lodging"] then accommodation
  else if has_any ["event"; "festival"; "concert"; "show"; "theatre"; "theater";
                   "exhibition"; "performance"] then event
  else if has_any ["restaurant"; "gastronomy"; "dinner"; "lunch"; "breakfast";
                   "meal"; "cuisine"] then restaurant
  else if has_any ["cafe"; "coffee"; "tea room"; "coffee house"] then cafe
  else if has_any ["bar"; "pub"; "nightlife"; "club"; "disco"; "cocktail";
                   "lounge"] then bar
  else if has_any ["museum"; "gallery"] then museum
  else if has_any ["market"] then market
  else if has_any ["park"; "garden"; "nature"; "water"; "lake"; "river"] then park
  else if has_any ["view"; "panorama"; "lookout"; "vantage"] then viewpoint
  else if has_any ["walk"; "hiking"; "trail"; "route"] then walk
  else if has_any ["shopping"; "shop"; "boutique"; "mall"; "store"] then shopping
  else if has_any ["sport"; "fitness"; "gym"; "swimming"; "climbing"; "ice rink";
                   "tennis"] then sport
  else if has_any ["wellness"; "spa"; "sauna"; "massage"; "bath"] then wellness
  else if has_any ["sight"; "sightseeing"; "attraction"; "landmark"; "historic"]
       then sightseeing
  else if mem "restaurant" types then restaurant
  else if mem "cafeorcoffeeshop" types then cafe
  else if mem "barorpub" types || mem "bar" types then bar
  else if mem "museum" types then museum
  else if mem "hotel" types || mem "lodgingbusiness" types || mem "hostel" types
       then accommodation
  else activity.

(** The tags one label appends, in the order of the [if] statements of
    [tags_from_categories]. *)
Definition label_tags (value : string) : list string :=
  let has k := Py.contains k value in
  let on (b : bool) (ts : list string) := if b then ts else [] in
  on (has "gastro" || has "restaurant") ["city"]
  ++ on (has "mexic" || has "tex-mex" || has "latin") ["mexican"]
  ++ on (has "ital") ["italian"]
  ++ on (has "sushi" || has "japan") ["sushi"]
  ++ on (has "asian" || has "thai" || has "korean" || has "chinese") ["asian"]
  ++ on (has "burger") ["burger"]
  ++ on (has "american") ["burger"]
  ++ on (has "swiss") ["swiss"]
  ++ on (has "vegan" || has "vegetarian") ["vegan"]
  ++ on (has "coffee" || has "cafe") ["coffee"]
  ++ on (has "brunch") ["brunch"]
  ++ on (has "bar" || has "cocktail" || has "nightlife") ["cocktails"]
  ++ on (has "wine") ["wine"]
  ++ on (has "beer" || has "brew") ["beer"]
  ++ on (has "park" || has "garden") ["park"; "green"]
  ++ on (has "view" || has "panorama") ["view"; "photo"]
  ++ on (has "historic" || has "heritage") ["historic"]
  ++ on (has "quiet") ["quiet"]
  ++ on (has "romantic") ["romantic"]
  ++ on (has "lake" || has "river" || has "water") ["lake"]
  ++ on (has "old town" || has "oldtown") ["oldtown"].

(** [tags_from_categories(categories)] *)
Definition tags_from_categories (categories : list string) : list string :=
  let tags := flat_map (fun category => label_tags (Py.lower category)) categories in
  List.filter allowed tags.

(** [list({*existing, *tags})]: the elements of the union, in the order
    the set enumerates them. *)
Definition union_tags (existing tags : list string) : list string :=
  elements (list_to_set existing ∪ list_to_set tags : gset string).

(** [geo.get(key)] for [geo = obj.get("geoCoordinates") or obj.get("geo") or {}]. *)
Definition geo_of (o : obj) : gmap string Q :=
  match o_geoCoordinates o with
  | Some g => if bool_decide (g ≠ ∅) then g else default ∅ (o_geo o)
  | None => default ∅ (o_geo o)
  end.

(** The [@type] normalisation in [main]. *)
Definition type_list_of (types : type_value) : list string :=
  match types with
  | TypeStr s => [Py.lower s]
  | TypeList l => map Py.lower l
  | TypeOther => []
  end.

Section Main.

(** Python's text for a float inside an f-string, and [html.unescape]. *)
Variable float_repr : Q -> string.
Variable html_unescape : string -> string.

(** [maps_url(lat, lon)] *)
Definition maps_url (lat lon : Q) : string :=
  "https://maps.google.com/?q=" ++ float_repr lat ++ "," ++ float_repr lon.

(** [strip_html(value)] *)
Definition strip_html (value : option string) : option string :=
  match value with
  | Some (String _ _ as v) => Some (Py.strip (html_unescape (remove_tags v)))
  | _ => None
  end.

(** The expressions [main] assigns to [identifier], [name], [description],
    [website], [phone] and [photo_url]. *)
Definition identifier_of (o : obj) : option string :=
  Py.or_ (o_identifier o) (o_id o).

Definition name_of (o : obj) : option string :=
  Py.or_ (Py.or_ (text_value (o_name o)) (text_value (o_headline o))) (o_title o).

Definition description_of (o : obj) : option string :=
  strip_html
    (Py.or_ (Py.or_ (Py.or_ (text_value (o_disambiguatingDescription o))
                            (text_value (o_description o)))
                    (text_value (o_textTeaser o)))
            (text_value (o_titleTeaser o))).

Definition website_of (o : obj) : option string :=
  if Py.truthy (o_url o) then o_url o
  else match address_dict (o_address o) with
       | Some d => d !! "url"
       | None => o_url o
       end.

Definition phone_of (o : obj) : option string :=
  if Py.truthy (o_telephone o) then o_telephone o
  else match address_dict (o_address o) with
       | Some d => d !! "telephone"
       | None => o_telephone o
       end.

Definition photo_url_of (o : obj) : option string :=
  Py.or_ (extract_image_url (o_image o)) (extract_image_url (o_photo o)).

(** The dictionary stored for an identifier seen for the first time. *)
Definition new_place (identifier name : string) (lat lon : Q) (o : obj) : Place.t :=
  let place_category :=
    category_from_type (type_list_of (o_type o)) (o_category o) in
  let defaults := CATEGORY_DEFAULTS place_category in
  Place.mk ("zurich-" ++ identifier) name (category_name place_category) lat lon
    (tags_from_categories (o_category o))
    (build_address (address_or_empty (o_address o)))
    (website_of o) (phone_of o) (photo_url_of o) (maps_url lat lon)
    (d_indoorOutdoor defaults) (d_durationMins defaults) (d_bestTimeOfDay defaults)
    (description_of o) None None None.

(** The [else] branch: the updates made to the dictionary already stored
    for the identifier. *)
Definition merge_existing (existing : Place.t) (tags : list string)
    (photo_url address website phone : option string) : Place.t :=
  let e1 := set_tags existing (union_tags (Place.tags existing) tags) in
  let e2 :=
    if negb (Py.truthy (Place.photoUrl e1)) && Py.truthy photo_url
    then set_photoUrl e1 photo_url else e1 in
  let e3 :=
    if negb (Py.truthy (Place.address e2)) && Py.truthy address
    then set_address e2 address else e2 in
  let e4 :=
    if negb (Py.truthy (Place.website e3)) && Py.truthy website
    then set_website e3 website else e3 in
  if negb (Py.truthy (Place.phone e4)) && Py.truthy phone
  then set_phone e4 phone else e4.

(** The body of the inner loop of [main]: [places_by_id] before and after
    one object. *)
Definition main_step (places_by_id : gmap string Place.t) (o : obj)
    : gmap string Place.t :=
  match identifier_of o with
  | Some (String _ _ as identifier) =>
      let geo := geo_of o in
      match geo !! "latitude", geo !! "longitude" with
      | Some lat, Some lon =>
          match name_of o with
          | Some (String _ _ as name) =>
              match places_by_id !! identifier with
              | None =>
                  <[identifier := new_place identifier name lat lon o]> places_by_id
              | Some existing =>
                  <[identifier :=
                      merge_existing existing (tags_from_categories (o_category o))
                        (photo_url_of o)
                        (build_address (address_or_empty (o_address o)))
                        (website_of o) (phone_of o)]>
                    places_by_id
              end
          | _ => places_by_id
          end
      | _, _ => places_by_id
      end
  | _ => places_by_id
  end.

(** The two nested loops of [main] over the objects fetched for each
    category, from an initial [places_by_id]. *)
Definition main_loop (places_by_id : gmap string Place.t) (objects : list obj)
    : gmap string Place.t :=
  fold_left main_step objects places_by_id.

(** [places_by_id] at the end of [main], which starts from an empty
    dictionary. *)
Definition main (batches : list (list obj)) : gmap string Place.t :=
  main_loop ∅ (concat batches).

End Main.

End Zurich.

(** ** scripts/enrich_places_wikidata.py *)
Module Wikidata.

(** The [value] found under [mainsnak.datavalue] of a claim entry: a
    string, a dictionary (read for its "latitude" and "longitude"), or
    nothing usable. *)
Inductive claim_value :=
  | ValueStr (s : string)
  | ValueDict (latitude longitude : option Q)
  | ValueOther.

(** [entity.get("claims", {})]: property id to claim entries. *)
Abbreviation claims := (gmap string (list claim_value)).

(** [get_claim_value(claims, pid)] *)
Definition get_claim_value (cl : claims) (pid : string) : option string :=
  match cl !! pid with
  | Some (ValueStr value :: _) => Some value
  | _ => None
  end.

(** [get_coords(claims)] *)
Definition get_coords (cl : claims) : option (option Q * option Q) :=
  match cl !! "P625" with
  | Some (ValueDict latitude longitude :: _) => Some (latitude, longitude)
  | _ => None
  end.

Section Enrich.

(** The collaborators: the great-circle distance in kilometres (floating
    point trigonometry, kept abstract), the entity search, the entity
    fetch, and the image lookup. *)
Variable haversine_km : Q -> Q -> Q -> Q -> Q.
Variable search_wikidata : string -> list string.
Variable get_entity : string -> claims.
Variable get_image_url : string -> option string.

(** One iteration of the loop of [best_entity] on [(best, best_dist)]. *)
Definition best_step (place : Place.t) (max_km : Q)
    (acc : option (claims * Q)) (candidate : string) : option (claims * Q) :=
  let entity := get_entity candidate in
  match get_coords entity with
  | Some (Some la, Some lo) =>
      let dist := haversine_km (Place.lat place) (Place.lon place) la lo in
      if negb (Qle_bool dist max_km) then acc
      else match acc with
           | None => Some (entity, dist)
           | Some (_, best_dist) =>
               if negb (Qle_bool best_dist dist) then Some (entity, dist) else acc
           end
  | _ => acc
  end.

(** [best_entity(place, candidates, max_km)] *)
Definition best_entity (place : Place.t) (candidates : list string) (max_km : Q)
    : option claims :=
  fst <$> fold_left (best_step place max_km) candidates None.

Definition needs (place : Place.t) : bool :=
  existsb (fun field => negb (Py.truthy field))
    [Place.photoUrl place; Place.address place; Place.website place;
     Place.phone place].

(** The four [if not place.get(field)] blocks of [enrich_place], each on
    the place and the [updated] flag. *)
Definition fill_website (cl : claims) (st : Place.t * bool) : Place.t * bool :=
  if negb (Py.truthy (Place.website st.1))
  then match get_claim_value cl "P856" with
       | Some (String _ _ as website) => (set_website st.1 (Some website), true)
       | _ => st
       end
  else st.

Definition fill_phone (cl : claims) (st : Place.t * bool) : Place.t * bool :=
  if negb (Py.truthy (Place.phone st.1))
  then match get_claim_value cl "P1329" with
       | Some (String _ _ as phone) => (set_phone st.1 (Some phone), true)
       | _ => st
       end
  else st.

Definition fill_address (cl : claims) (st : Place.t * bool) : Place.t * bool :=
  if negb (Py.truthy (Place.address st.1))
  then match Py.or_ (get_claim_value cl "P969") (get_claim_value cl "P6375") with
       | Some (String _ _ as address) => (set_address st.1 (Some address), true)
       | _ => st
       end
  else st.

Definition fill_photoUrl (cl : claims) (st : Place.t * bool) : Place.t * bool :=
  if negb (Py.truthy (Place.photoUrl st.1))
  then match get_claim_value cl "P18" with
       | Some (String _ _ as image) =>
           match get_image_url image with
           | Some (String _ _ as image_url) =>
               (set_photoUrl st.1 (Some image_url), true)
           | _ => st
           end
       | _ => st
       end
  else st.

(** [enrich_place(place, max_km, sleep_s)]: the place after the call and
    the boolean it returns. An entity picked by [best_entity] carries a
    "P625" claim, so the test [if not entity] only catches [None]. *)
Definition enrich_place (place : Place.t) (max_km : Q) : Place.t * bool :=
  if negb (needs place) then (place, false)
  else
    match search_wikidata (Place.name place) with
    | [] => (place, false)
    | candidates =>
        match best_entity place candidates max_km with
        | None => (place, false)
        | Some cl =>
            fill_photoUrl cl
              (fill_address cl (fill_phone cl (fill_website cl (place, false))))
        end
    end.

(** The loop of [main]: the places after the pass and the [updated]
    counter, starting from [scanned] places already visited. *)
Fixpoint enrich_loop (max_km : Q) (limit scanned : Z) (places : list Place.t)
    : list Place.t * Z :=
  match places with
  | [] => ([], 0%Z)
  | place :: rest =>
      if (limit <=? scanned)%Z then (places, 0%Z)
      else
        let '(place', updated) := enrich_place place max_km in
        let '(rest', n) := enrich_loop max_km limit (scanned + 1)%Z rest in
        (place' :: rest', if updated then (n + 1)%Z else n)
  end.

End Enrich.

End Wikidata.

(** ** The passes that attach generated text and vectors *)
Module Attach.

Definition has_id (custom_id : string) (place : Place.t) : bool :=
  bool_decide (Place.id place = custom_id).

(** [place_map[custom_id][key] = value], where [place_map] is
    [{place["id"]: place for place in places}]: the dictionary keeps, for
    an id, the last place of the list that carries it, and the assignment
    changes that object inside the list. *)
Fixpoint assign_by_id (custom_id : string) (write : Place.t -> Place.t)
    (places : list Place.t) : list Place.t :=
  match places with
  | [] => []
  | place :: rest =>
      if existsb (has_id custom_id) rest
      then place :: assign_by_id custom_id write rest
      else if has_id custom_id place then write place :: rest
      else place :: rest
  end.

(** [custom_id in place_map] *)
Definition in_place_map (custom_id : string) (places : list Place.t) : bool :=
  existsb (has_id custom_id) places.

(** [build_description(place)] of embed_places_qwen.py and [build_text(place)]
    of embed_places_openai_batch.py (the same body). *)
Definition build_description (place : Place.t) : string :=
  let name := Some (Place.name place) in
  let category := Some (Place.category place) in
  let tags := Some (Py.join ", " (Place.tags place)) in
  let desc := Py.or_ (Place.aiDescription place) (Place.description place) in
  let parts := [name; category; tags; desc] in
  Py.join " | " (omap (fun part => if Py.truthy part then part else None) parts).

(** *** scripts/embed_places_qwen.py *)
Section Qwen.

Variable embed_text : string -> list Q.

(** The body of the loop of [main]. *)
Definition qwen_step (place : Place.t) : Place.t :=
  let ai_description := build_description place in
  let embedding := embed_text ai_description in
  set_embedding (set_aiDescription place (Some ai_description)) (Some embedding).

(** The loop of [main] over [payload["places"]]. *)
Definition qwen_main (places : list Place.t) : list Place.t :=
  map qwen_step places.

End Qwen.

(** *** scripts/embed_places_openai_batch.py *)

(** One line of the results file: its "custom_id" and the body picked
    from "response.body" or "body" ([None] when there is none or it is
    empty), given as the list under the key "data", each item with its
    "embedding" entry. *)
Record embedding_record := mk_embedding_record {
  er_custom_id : option string;
  er_body : option (list (option (list Q)))
}.

(** [extract_embedding_from_response(body)] *)
Definition extract_embedding_from_response (data : list (option (list Q)))
    : option (list Q) :=
  match data with
  | first :: _ => first
  | [] => None
  end.

Definition embedding_step (places : list Place.t) (record : embedding_record)
    : list Place.t :=
  match er_custom_id record, er_body record with
  | Some (String _ _ as custom_id), Some body =>
      match extract_embedding_from_response body with
      | Some ((_ :: _) as embedding) =>
          if in_place_map custom_id places
          then assign_by_id custom_id (fun p => set_embedding p (Some embedding)) places
          else places
      | _ => places
      end
  | _, _ => places
  end.

(** [merge_results] of embed_places_openai_batch.py: [payload["places"]]
    as written back. *)
Definition embedding_merge_results (places : list Place.t)
    (results : list embedding_record) : list Place.t :=
  fold_left embedding_step results places.

(** *** scripts/generate_descriptions_batch.py *)

Record content := mk_content {
  c_type : option string;
  c_text : option string
}.

Record item := mk_item {
  i_type : option string;
  i_content : list content
}.

(** A response body: "output_text", the "output" list, and, when the key
    "choices" is present, what [body["choices"][0]["message"]["content"]]
    gives ([None] when the access raises). *)
Record body := mk_body {
  b_output_text : option string;
  b_output : list item;
  b_choices : option (option string)
}.

Definition content_text (c : content) : option string :=
  if (bool_decide (c_type c = Some "output_text") || bool_decide (c_type c = Some "text"))
     && Py.truthy (c_text c)
  then c_text c else None.

Definition item_text (i : item) : option string :=
  if bool_decide (i_type i = Some "message")
  then list_find (fun c => is_Some (content_text c)) (i_content i)
         ≫= (fun '(_, c) => content_text c)
  else None.

(** [extract_text_from_response(body)] *)
Definition extract_text_from_response (b : body) : option string :=
  if Py.truthy (b_output_text b) then b_output_text b
  else
    match list_find (fun i => is_Some (item_text i)) (b_output b) with
    | Some (_, i) => item_text i
    | None =>
        match b_choices b with
        | Some r => r
        | None => None
        end
    end.

(** One line of the results file, as for the embeddings. *)
Record description_record := mk_description_record {
  dr_custom_id : option string;
  dr_body : option body
}.

Definition description_step (places : list Place.t) (record : description_record)
    : list Place.t :=
  match dr_custom_id record, dr_body record with
  | Some (String _ _ as custom_id), Some b =>
      match extract_text_from_response b with
      | Some (String _ _ as text) =>
          if in_place_map custom_id places
          then assign_by_id custom_id
                 (fun p => set_aiDescription p (Some (Py.strip text))) places
          else places
      | _ => places
      end
  | _, _ => places
  end.

(** [merge_results] of generate_descriptions_batch.py. *)
Definition description_merge_results (places : list Place.t)
    (results : list description_record) : list Place.t :=
  fold_left description_step results places.

(** *** scripts/generate_descriptions.py *)
Section Local.

(** The text the local model returns for a prompt. *)
Variable generate_description : string -> string.

Definition or_none (v : option string) : string := default "None" v.

(** [build_prompt(place)]; a description of [None] is the key holding
    [null], as both build scripts write it, which the f-string prints as
    None. *)
Definition build_prompt (place : Place.t) : string :=
  "Write a compact, vivid, single-sentence description for a Zurich place."
  ++ String (ascii_of_nat 10) ("Name: " ++ Place.name place)
  ++ String (ascii_of_nat 10) ("Category: " ++ Place.category place)
  ++ String (ascii_of_nat 10) ("Tags: " ++ Py.join ", " (Place.tags place))
  ++ String (ascii_of_nat 10) ("Notes: " ++ or_none (Place.description place))
  ++ String (ascii_of_nat 10) "Tone: helpful, travel-guide style.".

(** The loop of [main]. *)
Definition generate_main (places : list Place.t) : list Place.t :=
  map (fun place =>
         set_aiDescription place (Some (generate_description (build_prompt place))))
      places.

End Local.

End Attach.

(** ** Vocabulary of the statements *)

(** The bytes of the UTF-8 text "Café & Bar!!" (the accented letter is the
    two bytes 0xC3 0xA9). *)
Definition cafe_and_bar : string :=
  "Caf" ++ String (ascii_of_nat 195) (String (ascii_of_nat 169) " & Bar!!").

Definition first_char (s : string) : option ascii :=
  match s with
  | EmptyString => None
  | String c _ => Some c
  end.

Fixpoint last_char (s : string) : option ascii :=
  match s with
  | EmptyString => None
  | String c EmptyString => Some c
  | String _ r => last_char r
  end.

(** Two neighbouring occurrences of [c] somewhere in [s]. *)
Fixpoint adjacent (c : ascii) (s : string) : bool :=
  match s with
  | String a (String b _ as r) => (Ascii.eqb a c && Ascii.eqb b c) || adjacent c r
  | _ => false
  end.

(** The characters a slug is made of: [a-z], [0-9] and the hyphen. *)
Definition slug_char (c : ascii) : bool :=
  Py.is_lower c || Py.is_digit c || Ascii.eqb c "-".

(** The keyword rule set of the classifier, in priority order, as the
    specification describes it: trigger keywords and the category they
    yield. *)
Definition KEYWORD_RULES : list (list string * Zurich.category) :=
  [ (["hotel"; "accommodation"; "hostel"; "lodging"], Zurich.accommodation);
    (["event"; "festival"; "concert"; "show"; "theatre"; "theater"; "exhibition";
      "performance"], Zurich.event);
    (["restaurant"; "gastronomy"; "dinner"; "lunch"; "breakfast"; "meal";
      "cuisine"], Zurich.restaurant);
    (["cafe"; "coffee"; "tea room"; "coffee house"], Zurich.cafe);
    (["bar"; "pub"; "nightlife"; "club"; "disco"; "cocktail"; "lounge"], Zurich.bar);
    (["museum"; "gallery"], Zurich.museum);
    (["market"], Zurich.market);
    (["park"; "garden"; "nature"; "water"; "lake"; "river"], Zurich.park);
    (["view"; "panorama"; "lookout"; "vantage"], Zurich.viewpoint);
    (["walk"; "hiking"; "trail"; "route"], Zurich.walk);
    (["shopping"; "shop"; "boutique"; "mall"; "store"], Zurich.shopping);
    (["sport"; "fitness"; "gym"; "swimming"; "climbing"; "ice rink"; "tennis"],
     Zurich.sport);
    (["wellness"; "spa"; "sauna"; "massage"; "bath"], Zurich.wellness);
    (["sight"; "sightseeing"; "attraction"; "landmark"; "historic"],
     Zurich.sightseeing) ].

(** The controlled-vocabulary rule set: type codes and the category they
    yield. *)
Definition TYPE_RULES : list (list string * Zurich.category) :=
  [ (["restaurant"], Zurich.restaurant);
    (["cafeorcoffeeshop"], Zurich.cafe);
    (["barorpub"; "bar"], Zurich.bar);
    (["museum"], Zurich.museum);
    (["hotel"; "lodgingbusiness"; "hostel"], Zurich.accommodation) ].

Definition keyword_match (categories : list string) (rule : list string * Zurich.category)
    : bool :=
  Zurich.has_any (map Py.lower categories) (fst rule).

Definition type_match (types : list string) (rule : list string * Zurich.category)
    : bool :=
  existsb (fun code => Zurich.mem code types) (fst rule).

(** The classifier as the specification words it: the first keyword rule
    that matches wins; the type-code rules are consulted only when no
    keyword rule matched; the fallback is [activity]. *)
Definition classify_by_rules (types categories : list string) : Zurich.category :=
  match find (keyword_match categories) KEYWORD_RULES with
  | Some rule => snd rule
  | None =>
      match find (type_match types) TYPE_RULES with
      | Some rule => snd rule
      | None => Zurich.activity
      end
  end.

(** Every tag of a list belongs to the allow-list. *)
Definition tags_allowed (tags : list string) : Prop :=
  Forall (fun tag => tag ∈ ALLOWED_TAGS) tags.

(** An OSM element that has not both keys "lat" and "lon" and whose
    "center", if it is a dictionary, has not both keys; and one whose
    dictionary of tags has no non-empty name. *)
Definition osm_no_key_pair (r : OsmJson.element) : Prop :=
  (OsmJson.r_lat r = OsmJson.Missing \/ OsmJson.r_lon r = OsmJson.Missing)
  /\ forall center,
       OsmJson.r_center r = OsmJson.Value center ->
       center !! "lat" = None \/ center !! "lon" = None.

Definition osm_no_name (r : OsmJson.element) : Prop :=
  forall tags,
    OsmJson.tags_of r = Some tags -> Py.truthy (tags !! "name") = false.

(** The loop state of the typed [build_places] as a loop state over
    dictionaries. *)
Definition state_dicts (st : Osm.build_state) : OsmJson.build_state :=
  OsmJson.mk_state (map OsmJson.place_dict (Osm.places st)) (Osm.seen st)
    (Osm.per_category st).

(** The number under a key of a "center" dictionary, if the key holds
    one. *)
Definition number_at (center : gmap string (option Q)) (key : string) : option Q :=
  center !! key ≫= id.

(** An OSM element from which no pair of numbers can be read: not under
    "lat" and "lon", and not under the same keys of "center". *)
Definition osm_no_number_pair (r : OsmJson.element) : Prop :=
  (OsmJson.item (OsmJson.r_lat r) = None \/ OsmJson.item (OsmJson.r_lon r) = None)
  /\ forall center,
       OsmJson.r_center r = OsmJson.Value center ->
       number_at center "lat" = None \/ number_at center "lon" = None.

(** An object of the Zurich answer with no latitude/longitude pair in
    "geoCoordinates" or "geo", and one with no non-empty name, headline or
    title. *)
Definition zurich_no_coordinates (o : Zurich.obj) : Prop :=
  (forall g, Zurich.o_geoCoordinates o = Some g ->
             g !! "latitude" = None \/ g !! "longitude" = None)
  /\ (forall g, Zurich.o_geo o = Some g ->
                g !! "latitude" = None \/ g !! "longitude" = None).

Definition zurich_no_name (o : Zurich.obj) : Prop :=
  Py.truthy (Zurich.text_value (Zurich.o_name o)) = false
  /\ Py.truthy (Zurich.text_value (Zurich.o_headline o)) = false
  /\ Py.truthy (Zurich.o_title o) = false.

(** A place with no optional field, and an entity with coordinates and a
    website. *)
Definition bare_place : Place.t :=
  Place.mk "osm-node-1-kafi" "Kafi" "cafe" (4737 # 100) (8545 # 1000) ["coffee"]
    None None None None "https://maps.google.com/?q=47.37,8.545" "indoor" 60
    "morning" None None None None.

Definition far_entity : Wikidata.claims :=
  list_to_map
    [("P625", [Wikidata.ValueDict (Some (474 # 10)) (Some (86 # 10))]);
     ("P856", [Wikidata.ValueStr "http://example.org"])].

(** The number of places of a list that carry the name of a category. *)
Definition count_category (c : Osm.category) (places : list Place.t) : Z :=
  Z.of_nat
    (length
       (List.filter (fun p => bool_decide (Place.category p = Osm.category_name c))
          places)).

(** A cafe whose cuisine is "coffee", a second cafe, and an element that
    has coordinates and a category but no name. *)
Definition coffee_cafe : Osm.element :=
  Osm.mk_element "node" 1 (Some (47 # 1)) (Some (8 # 1)) None
    (Some (list_to_map [("amenity", "cafe"); ("name", "Kafi"); ("cuisine", "coffee")])).

Definition second_cafe : Osm.element :=
  Osm.mk_element "node" 2 (Some (47 # 1)) (Some (8 # 1)) None
    (Some (list_to_map [("amenity", "cafe"); ("name", "Bohne")])).

Definition nameless_cafe : Osm.element :=
  Osm.mk_element "node" 3 (Some (47 # 1)) (Some (8 # 1)) None
    (Some (list_to_map [("amenity", "cafe")])).

(** A cafe whose keys "lat" and "lon" hold [null], the dictionary
    [build_place] makes of it, and an element whose key "tags" holds
    [null]. *)
Definition null_coordinates_cafe : OsmJson.element :=
  OsmJson.mk_element "node" 4 OsmJson.Null OsmJson.Null OsmJson.Missing
    (OsmJson.Value (list_to_map [("amenity", "cafe"); ("name", "Kafi")])).

Definition null_coordinates_place : gmap string OsmJson.json :=
  list_to_map
    [("id", OsmJson.JStr "osm-node-4-kafi");
     ("name", OsmJson.JStr "Kafi");
     ("category", OsmJson.JStr "cafe");
     ("lat", OsmJson.JNull);
     ("lon", OsmJson.JNull);
     ("tags", OsmJson.JStrings ["coffee"]);
     ("address", OsmJson.JNull);
     ("website", OsmJson.JNull);
     ("phone", OsmJson.JNull);
     ("mapsUrl", OsmJson.JStr "https://maps.google.com/?q=None,None");
     ("indoorOutdoor", OsmJson.JStr "indoor");
     ("durationMins", OsmJson.JInt 60);
     ("bestTimeOfDay", OsmJson.JStr "morning");
     ("description", OsmJson.JNull);
     ("area", OsmJson.JNull)].

Definition null_tags_element : OsmJson.element :=
  OsmJson.mk_element "node" 5 OsmJson.Missing OsmJson.Missing OsmJson.Missing
    OsmJson.Null.

(** A stored place whose website is "http://old", and an object with the
    same identifier that offers another website. *)
Definition old_place : Place.t :=
  Place.mk "zurich-x1" "Kronenhalle" "restaurant" (4737 # 100) (8545 # 1000) []
    None (Some "http://old") None None "https://maps.google.com/?q=47.37,8.545"
    "indoor" 90 "night" None None None None.

Definition kronenhalle_again : Zurich.obj :=
  Zurich.mk_obj (Some "x1") None
    (Some (list_to_map [("latitude", 4737 # 100); ("longitude", 8545 # 1000)])) None
    (Zurich.TextStr "Kronenhalle") Zurich.TextOther None ["Restaurants"]
    Zurich.TypeOther Zurich.TextOther Zurich.TextOther Zurich.TextOther
    Zurich.TextOther Zurich.AddressFalsy (Some "http://new") (Some "+41 44 000")
    Zurich.ImageOther Zurich.ImageOther.

(** An object of the open-data answer that has no "address" key. *)
Definition kronenhalle : Zurich.obj :=
  Zurich.mk_obj (Some "x1") None
    (Some (list_to_map [("latitude", 4737 # 100); ("longitude", 8545 # 1000)])) None
    (Zurich.TextStr "Kronenhalle") Zurich.TextOther None [] Zurich.TypeOther
    Zurich.TextOther Zurich.TextOther Zurich.TextOther Zurich.TextOther
    Zurich.AddressFalsy None None Zurich.ImageOther Zurich.ImageOther.

(** The restaurant of the first end-to-end scenario: amenity, name and
    coordinates, no address key. *)
Definition kronenhalle_element : Osm.element :=
  Osm.mk_element "node" 240 (Some (4737 # 100)) (Some (8545 # 1000)) None
    (Some (list_to_map [("amenity", "restaurant"); ("name", "Kronenhalle")])).

(** A pair of places of which the second kept what [view] shows and
    every non-empty scalar field of the first. *)
Definition kept {A : Type} (view : Place.t -> A) (p p' : Place.t) : Prop :=
  view p' = view p
  /\ forall f, Py.truthy (get_field f p) = true -> get_field f p' = get_field f p.

(** The counters of the loop count the places of the list, category by
    category, and never pass the limit. *)
Definition counted (limit : Z) (st : Osm.build_state) : Prop :=
  forall c, Osm.per_category st c = count_category c (Osm.places st)
            /\ (count_category c (Osm.places st) <= limit)%Z.

(** ** The request files of the batch scripts *)
Module Batch.

(** One line of the file [build_jsonl] of embed_places_openai_batch.py
    writes: "custom_id", "method", "url" and the "model" and "input" of
    the body. *)
Record embedding_request := mk_embedding_request {
  eq_custom_id : string;
  eq_method : string;
  eq_url : string;
  eq_model : string;
  eq_input : string
}.

(** [build_jsonl(input_path, jsonl_path)] of embed_places_openai_batch.py:
    the list [lines]. *)
Definition embedding_build_jsonl (places : list Place.t) : list embedding_request :=
  map (fun place =>
         mk_embedding_request (Place.id place) "POST" "/v1/embeddings"
           "text-embedding-3-small" (Attach.build_description place))
      places.

(** [build_input_text(place)] of generate_descriptions_batch.py; a
    description of [None] is the key holding [null], as both build scripts
    write it, which the f-string prints as None. *)
Definition build_input_text (place : Place.t) : string :=
  "Name: " ++ Place.name place
  ++ String (ascii_of_nat 10) ("Category: " ++ Place.category place)
  ++ String (ascii_of_nat 10) ("Tags: " ++ Py.join ", " (Place.tags place))
  ++ String (ascii_of_nat 10) ("Notes: " ++ Attach.or_none (Place.description place)).

(** One line of the file [build_jsonl] of generate_descriptions_batch.py
    writes. *)
Record description_request := mk_description_request {
  dq_custom_id : string;
  dq_method : string;
  dq_url : string;
  dq_model : string;
  dq_instructions : string;
  dq_input : string;
  dq_max_output_tokens : Z
}.

Definition SYSTEM_INSTRUCTIONS : string :=
  "Write a compact, vivid, single-sentence description for a Zurich place. "
  ++ "Tone: helpful, travel-guide style.".

(** [build_jsonl(input_path, jsonl_path)] of generate_descriptions_batch.py. *)
Definition description_build_jsonl (places : list Place.t)
    : list description_request :=
  map (fun place =>
         mk_description_request (Place.id place) "POST" "/v1/responses" "gpt-5.2"
           SYSTEM_INSTRUCTIONS (build_input_text place) 50)
      places.

End Batch.

(** ** Further vocabulary *)

(** What the first pass makes of one element, the cap and the set of seen
    ids left aside: the place [build_place] gives for the category the
    element is filed under. *)
Definition normalised (float_repr : Q -> string) (e : Osm.element) : option Place.t :=
  match Osm.classify e with
  | Some c => Osm.build_place float_repr e c
  | None => None
  end.

(** The four address parts [build_address] of the OSM script reads. *)
Definition osm_address_parts (tags : gmap string string) : list (option string) :=
  [tags !! "addr:street"; tags !! "addr:housenumber"; tags !! "addr:postcode";
   tags !! "addr:city"].

(** A text shaped like a slug: made of [a-z], [0-9] and hyphens, without
    neighbouring hyphens and without a hyphen at either end. *)
Definition slug_shaped (s : string) : Prop :=
  Py.all_chars slug_char s = true
  /\ adjacent "-" s = false
  /\ first_char s <> Some "-"%char
  /\ last_char s <> Some "-"%char.

(** An ASCII character that is neither a letter nor a digit. *)
Definition non_alnum (c : ascii) : bool :=
  (Py.code c <? 128)%nat && negb (Py.is_alnum c).

(** A text of ASCII characters only: every byte is below 128. *)
Definition ascii_only (s : string) : bool :=
  Py.all_chars (fun c => (Py.code c <? 128)%nat) s.

(** No [<] of the text opens a tag, that is, is followed by one or more
    characters other than [>] and then a [>]. *)
Fixpoint tag_free (s : string) : bool :=
  match s with
  | EmptyString => true
  | String c r =>
      (if Ascii.eqb c "<"
       then match Zurich.close_index r with
            | Some (S _) => false
            | _ => true
            end
       else true)
      && tag_free r
  end.

(** The key under which the Zurich loop files an object, when the object
    passes the three tests (identifier, coordinates, name). *)
Definition accepted_key (o : Zurich.obj) : option string :=
  match Zurich.identifier_of o with
  | Some (String _ _ as identifier) =>
      match Zurich.geo_of o !! "latitude", Zurich.geo_of o !! "longitude" with
      | Some _, Some _ =>
          if Py.truthy (Zurich.name_of o) then Some identifier else None
      | _, _ => None
      end
  | _ => None
  end.

(** The value a merge offers for a scalar field. *)
Definition incoming_field (f : scalar_field)
    (photo_url address website phone : option string) : option string :=
  match f with
  | Address => address
  | Website => website
  | Phone => phone
  | PhotoUrl => photo_url
  end.

(** A place with the five keys the Zurich merge may assign blanked: what
    is left is what the merge never touches. *)
Definition frozen (p : Place.t) : Place.t :=
  set_tags (set_phone (set_website (set_address (set_photoUrl p None) None) None) None) [].

(** The great-circle distance from a place to a candidate entity, when the
    entity has both coordinates. *)
Definition candidate_distance (haversine_km : Q -> Q -> Q -> Q -> Q)
    (place : Place.t) (cl : Wikidata.claims) : option Q :=
  match Wikidata.get_coords cl with
  | Some (Some la, Some lo) =>
      Some (haversine_km (Place.lat place) (Place.lon place) la lo)
  | _ => None
  end.

(** The vector a results line makes [merge_results] write, if any. *)
Definition record_embedding (r : Attach.embedding_record) : option (string * list Q) :=
  match Attach.er_custom_id r, Attach.er_body r with
  | Some (String _ _ as custom_id), Some body =>
      match Attach.extract_embedding_from_response body with
      | Some ((_ :: _) as embedding) => Some (custom_id, embedding)
      | _ => None
      end
  | _, _ => None
  end.

(** The results line that answers a request with the vector [embed] gives
    for its input. *)
Definition answer (embed : string -> list Q) (rq : Batch.embedding_request)
    : Attach.embedding_record :=
  Attach.mk_embedding_record (Some (Batch.eq_custom_id rq))
    (Some [Some (embed (Batch.eq_input rq))]).

(** ** Vocabulary of the enrichment *)

#[global] Instance scalar_field_eq_dec : EqDecision scalar_field.
Proof. solve_decision. Defined.

(** [place[field] = value] for a scalar field. *)
Definition set_field (f : scalar_field) (p : Place.t) (v : option string) : Place.t :=
  match f with
  | Address => set_address p v
  | Website => set_website p v
  | Phone => set_phone p v
  | PhotoUrl => set_photoUrl p v
  end.

(** The fields in the order in which [enrich_place] visits them. *)
Definition enrich_fields : list scalar_field := [Website; Phone; Address; PhotoUrl].

(** The non-empty value an entity offers for a field: the official
    website (P856), the phone number (P1329), the street address (P969,
    else P6375), the URL the image lookup finds for the image (P18). *)
Definition offered (get_image_url : string -> option string) (f : scalar_field)
    (cl : Wikidata.claims) : option string :=
  match f with
  | Website =>
      match Wikidata.get_claim_value cl "P856" with
      | Some (String _ _ as v) => Some v
      | _ => None
      end
  | Phone =>
      match Wikidata.get_claim_value cl "P1329" with
      | Some (String _ _ as v) => Some v
      | _ => None
      end
  | Address =>
      match Py.or_ (Wikidata.get_claim_value cl "P969")
                   (Wikidata.get_claim_value cl "P6375") with
      | Some (String _ _ as v) => Some v
      | _ => None
      end
  | PhotoUrl =>
      match Wikidata.get_claim_value cl "P18" with
      | Some (String _ _ as image) =>
          match get_image_url image with
          | Some (String _ _ as v) => Some v
          | _ => None
          end
      | _ => None
      end
  end.

(** The field is empty in the place and the entity offers a value. *)
Definition gain (get_image_url : string -> option string) (cl : Wikidata.claims)
    (p : Place.t) (f : scalar_field) : bool :=
  negb (Py.truthy (get_field f p)) && bool_decide (is_Some (offered get_image_url f cl)).

(** One [if not place.get(field)] block, for any of the four fields. *)
Definition fill_field (get_image_url : string -> option string) (cl : Wikidata.claims)
    (st : Place.t * bool) (f : scalar_field) : Place.t * bool :=
  if negb (Py.truthy (get_field f st.1))
  then match offered get_image_url f cl with
       | Some v => (set_field f st.1 (Some v), true)
       | None => st
       end
  else st.

(** The entity chosen for a place, when the place still lacks a field and
    the search returns candidates. *)
Definition chosen_entity (haversine_km : Q -> Q -> Q -> Q -> Q)
    (search_wikidata : string -> list string) (get_entity : string -> Wikidata.claims)
    (place : Place.t) (max_km : Q) : option Wikidata.claims :=
  if Wikidata.needs place
  then Wikidata.best_entity haversine_km get_entity place
         (search_wikidata (Place.name place)) max_km
  else None.

(** Three entities told apart by their latitude, and a distance that reads
    the latitude of the candidate as kilometres. *)
Definition entity_at (latitude : Q) (website : string) : Wikidata.claims :=
  list_to_map
    [("P625", [Wikidata.ValueDict (Some latitude) (Some (8 # 1))]);
     ("P856", [Wikidata.ValueStr website])].

Definition three_entities (c : string) : Wikidata.claims :=
  if String.eqb c "Q1" then entity_at (3 # 1) "http://one.example"
  else if String.eqb c "Q2" then entity_at (1 # 1) "http://two.example"
  else entity_at (1 # 2) "http://three.example".

Definition latitude_as_km (lat1 lon1 lat2 lon2 : Q) : Q := lat2.

(** What the loop of [best_entity] has established after the candidates
    [seen]: with no entity held, every candidate seen that has coordinates
    is beyond the radius; with an entity held, it is the entity of a
    candidate seen, within the radius, and no candidate seen within the
    radius is nearer. *)
Definition nearest_within (haversine_km : Q -> Q -> Q -> Q -> Q)
    (get_entity : string -> Wikidata.claims) (place : Place.t) (max_km : Q)
    (seen : list string) (acc : option (Wikidata.claims * Q)) : Prop :=
  match acc with
  | None =>
      forall c d,
        c ∈ seen ->
        candidate_distance haversine_km place (get_entity c) = Some d ->
        (max_km < d)%Q
  | Some (cl, best) =>
      (exists c, c ∈ seen /\ get_entity c = cl)
      /\ candidate_distance haversine_km place cl = Some best
      /\ (best <= max_km)%Q
      /\ forall c d,
           c ∈ seen ->
           candidate_distance haversine_km place (get_entity c) = Some d ->
           (d <= max_km)%Q -> (best <= d)%Q
  end.

(** ** Vocabulary of the attach passes *)

(** The text a results line makes the description [merge_results] write,
    if any. *)
Definition record_description (r : Attach.description_record)
    : option (string * string) :=
  match Attach.dr_custom_id r, Attach.dr_body r with
  | Some (String _ _ as custom_id), Some b =>
      match Attach.extract_text_from_response b with
      | Some (String _ _ as text) => Some (custom_id, Py.strip text)
      | _ => None
      end
  | _, _ => None
  end.

(** The results line that answers a description request, under its
    custom id, with the text [reply] gives for that id, as
    "output_text". *)
Definition reply_line (reply : string -> string) (rq : Batch.description_request)
    : Attach.description_record :=
  Attach.mk_description_record (Some (Batch.dq_custom_id rq))
    (Some (Attach.mk_body (Some (reply (Batch.dq_custom_id rq))) [] None)).

(** A second place that carries the id of [bare_place]. *)
Definition bare_twin : Place.t :=
  Place.mk "osm-node-1-kafi" "Kafi am See" "cafe" (4736 # 100) (8546 # 1000) []
    None None None None "https://maps.google.com/?q=47.36,8.546" "indoor" 60
    "morning" None None None None.

(** ** Vocabulary of the derived fields *)

(** A place as the OSM pass creates it: a non-empty name, one of the eight
    categories with the defaults of that category, and the map link of
    its coordinates. *)
Definition osm_consistent (float_repr : Q -> string) (p : Place.t) : Prop :=
  Place.name p <> ""
  /\ Place.mapsUrl p = Osm.maps_url float_repr (Place.lat p) (Place.lon p)
  /\ exists c : Osm.category,
       Place.category p = Osm.category_name c
       /\ Place.indoorOutdoor p = d_indoorOutdoor (Osm.CATEGORY_DEFAULTS c)
       /\ Place.durationMins p = d_durationMins (Osm.CATEGORY_DEFAULTS c)
       /\ Place.bestTimeOfDay p = d_bestTimeOfDay (Osm.CATEGORY_DEFAULTS c).

(** The same for the Zurich loop and its taxonomy of fifteen categories. *)
Definition zurich_consistent (float_repr : Q -> string) (p : Place.t) : Prop :=
  Place.name p <> ""
  /\ Place.mapsUrl p = Zurich.maps_url float_repr (Place.lat p) (Place.lon p)
  /\ exists c : Zurich.category,
       Place.category p = Zurich.category_name c
       /\ Place.indoorOutdoor p = d_indoorOutdoor (Zurich.CATEGORY_DEFAULTS c)
       /\ Place.durationMins p = d_durationMins (Zurich.CATEGORY_DEFAULTS c)
       /\ Place.bestTimeOfDay p = d_bestTimeOfDay (Zurich.CATEGORY_DEFAULTS c).

(** * Properties *)

(** ** Slugification *)

Lemma lower_char_not_upper (c : ascii) : Py.is_upper (Py.lower_char c) = false.
Proof. destruct c as [[] [] [] [] [] [] [] []]; vm_compute; reflexivity. Qed.

Lemma alnum_lower_slug_char (c : ascii) :
  Py.is_alnum (Py.lower_char c) = true -> slug_char (Py.lower_char c) = true.
Proof.
  unfold Py.is_alnum, slug_char. rewrite lower_char_not_upper.
  destruct (Py.is_lower _), (Py.is_digit _); simpl; intros H;
    solve [reflexivity | discriminate H].
Qed.

Lemma alnum_not_hyphen (c : ascii) : Py.is_alnum c = true -> Ascii.eqb c "-" = false.
Proof.
  destruct (Ascii.eqb_spec c "-") as [->|]; [vm_compute; congruence | reflexivity].
Qed.

Lemma sub_lower_slug_chars (b : bool) (s : string) :
  Py.all_chars slug_char (Py.sub_non_alnum_from b "-" (Py.lower s)) = true.
Proof.
  revert b. induction s as [|c r IH]; intros b; simpl; [reflexivity|].
  destruct (Py.is_alnum (Py.lower_char c)) eqn:E; simpl.
  - rewrite alnum_lower_slug_char, IH; auto.
  - destruct b; simpl; rewrite IH; reflexivity.
Qed.

(** After the substitution no two hyphens are neighbours, and the text
    does not start with a hyphen when a run is already open. *)
Lemma sub_no_adjacent (s : string) (b : bool) :
  adjacent "-" (Py.sub_non_alnum_from b "-" s) = false
  /\ (b = true -> first_char (Py.sub_non_alnum_from b "-" s) <> Some "-"%char).
Proof.
  revert b. induction s as [|c r IH]; intros b; simpl.
  - split; [reflexivity | discriminate].
  - destruct (Py.is_alnum c) eqn:E.
    + pose proof (alnum_not_hyphen c E) as Hc.
      destruct (IH false) as [IH1 _]. split.
      * simpl. destruct (Py.sub_non_alnum_from false "-" r); [reflexivity|].
        rewrite Hc. simpl. exact IH1.
      * intros _. simpl. intros [= ->]. vm_compute in E. discriminate.
    + destruct (IH true) as [IH1 IH2]. destruct b.
      * split; [exact IH1 | intros _; apply IH2; reflexivity].
      * split; [| discriminate].
        simpl. destruct (Py.sub_non_alnum_from true "-" r) as [|a r'] eqn:Er;
          [reflexivity|].
        simpl in IH2. destruct (Ascii.eqb_spec a "-") as [->|Hne].
        -- exfalso. apply IH2; reflexivity.
        -- simpl. exact IH1.
Qed.

Section Strip.

Variable p : ascii -> bool.

Lemma lstrip_all_chars (q : ascii -> bool) (s : string) :
  Py.all_chars q s = true -> Py.all_chars q (Py.lstrip_with p s) = true.
Proof.
  induction s as [|c r IH]; simpl; [auto|].
  intros H. apply andb_prop in H as [Hc Hr].
  destruct (p c); [auto | simpl; rewrite Hc, Hr; reflexivity].
Qed.

Lemma rstrip_all_chars (q : ascii -> bool) (s : string) :
  Py.all_chars q s = true -> Py.all_chars q (Py.rstrip_with p s) = true.
Proof.
  induction s as [|c r IH]; simpl; [auto|].
  intros H. apply andb_prop in H as [Hc Hr]. specialize (IH Hr).
  destruct (Py.rstrip_with p r).
  - destruct (p c); simpl; [reflexivity | rewrite Hc; reflexivity].
  - simpl in *. rewrite Hc. exact IH.
Qed.

Lemma lstrip_first (s : string) (c : ascii) :
  first_char (Py.lstrip_with p s) = Some c -> p c = false.
Proof.
  induction s as [|a r IH]; simpl; [discriminate|].
  destruct (p a) eqn:E; [exact IH | simpl; intros [= <-]; exact E].
Qed.

Lemma rstrip_first (s : string) (c : ascii) :
  first_char (Py.rstrip_with p s) = Some c -> first_char s = Some c.
Proof.
  destruct s as [|a r]; simpl; [discriminate|].
  destruct (Py.rstrip_with p r); [destruct (p a)|]; simpl; auto; discriminate.
Qed.

Lemma rstrip_last (s : string) (c : ascii) :
  last_char (Py.rstrip_with p s) = Some c -> p c = false.
Proof.
  induction s as [|a r IH]; simpl; [discriminate|].
  destruct (Py.rstrip_with p r) as [|b r'] eqn:E.
  - destruct (p a) eqn:Ea; simpl; [discriminate | intros [= <-]; exact Ea].
  - simpl. simpl in IH. exact IH.
Qed.

Lemma lstrip_adjacent (c : ascii) (s : string) :
  adjacent c s = false -> adjacent c (Py.lstrip_with p s) = false.
Proof.
  induction s as [|a r IH]; [auto|].
  intros H. cbn [Py.lstrip_with]. destruct (p a); [|exact H].
  apply IH. simpl in H. destruct r; [reflexivity|].
  apply orb_false_elim in H as [_ H]. exact H.
Qed.

Lemma rstrip_adjacent (c : ascii) (s : string) :
  adjacent c s = false -> adjacent c (Py.rstrip_with p s) = false.
Proof.
  induction s as [|a r IH]; [auto|].
  intros H. cbn [Py.rstrip_with].
  assert (Hr : adjacent c r = false).
  { simpl in H. destruct r; [reflexivity|].
    apply orb_false_elim in H as [_ H]. exact H. }
  specialize (IH Hr).
  destruct (Py.rstrip_with p r) as [|b r'] eqn:E.
  - destruct (p a); reflexivity.
  - cbn [adjacent]. cbn [adjacent] in IH.
    pose proof (rstrip_first r b) as Hb. rewrite E in Hb.
    specialize (Hb eq_refl). destruct r as [|b0 r0]; [discriminate|].
    simpl in Hb. injection Hb as ->.
    cbn [adjacent] in H. apply orb_false_elim in H as [H _].
    rewrite H. simpl. exact IH.
Qed.

End Strip.

(** C7, counterexample: the code does not turn "Café & Bar!!" into
    "cafe-bar"; the accented letter is outside [a-zA-Z0-9] and is part of
    the first separator run. *)
Lemma slugify_cafe_is_not_cafe_bar : Osm.slugify cafe_and_bar <> "cafe-bar".
Proof. vm_compute. discriminate. Qed.

(** C7, as amended: slugification of "Café & Bar!!" yields exactly
    "caf-bar"; and for every name the slug consists of lower-case ASCII
    letters, digits and hyphens only, has no two neighbouring hyphens
    (every run of other characters became a single hyphen), and neither
    starts nor ends with a hyphen. *)
Theorem slugify_cafe_and_bar :
  Osm.slugify cafe_and_bar = "caf-bar"
  /\ forall text : string,
       Py.all_chars slug_char (Osm.slugify text) = true
       /\ adjacent "-" (Osm.slugify text) = false
       /\ first_char (Osm.slugify text) <> Some "-"%char
       /\ last_char (Osm.slugify text) <> Some "-"%char.
Proof.
  split; [vm_compute; reflexivity|].
  intros text. unfold Osm.slugify.
  set (u := Py.sub_non_alnum "-" (Py.lower (Py.strip text))).
  assert (Hall : Py.all_chars slug_char (Py.strip_char "-" u) = true).
  { apply rstrip_all_chars, lstrip_all_chars, sub_lower_slug_chars. }
  assert (Hadj : adjacent "-" (Py.strip_char "-" u) = false).
  { apply rstrip_adjacent, lstrip_adjacent, sub_no_adjacent. }
  assert (Hfirst : first_char (Py.strip_char "-" u) <> Some "-"%char).
  { intros H. apply rstrip_first, lstrip_first in H. vm_compute in H. discriminate. }
  assert (Hlast : last_char (Py.strip_char "-" u) <> Some "-"%char).
  { intros H. apply rstrip_last in H. vm_compute in H. discriminate. }
  destruct (Py.strip_char "-" u) eqn:E.
  - repeat split; vm_compute; congruence.
  - auto.
Qed.

(** ** The category classifier *)

(** C3: the classifier is a total function into the taxonomy and equals
    the rule-table reading of the specification: the keyword rules are
    tried in their fixed order and the first match wins, the type-code
    rules are tried only when no keyword rule matched, and when both fail
    the result is the fallback category [activity]. *)
Theorem category_from_type_by_rules (types categories : list string) :
  Zurich.category_from_type types categories = classify_by_rules types categories.
Proof.
  unfold Zurich.category_from_type, classify_by_rules, KEYWORD_RULES, TYPE_RULES.
  unfold keyword_match, type_match.
  cbn [find fst snd existsb].
  repeat match goal with
         | |- context [Zurich.has_any ?cats ?values] =>
             destruct (Zurich.has_any cats values); [reflexivity|]
         end.
  repeat match goal with
         | |- context [Zurich.mem ?code types] => destruct (Zurich.mem code types)
         end; reflexivity.
Qed.

(** ** Tags stay inside the allow-list *)

Lemma allowed_elem_of (tag : string) : allowed tag = true <-> tag ∈ ALLOWED_TAGS.
Proof. unfold allowed. apply bool_decide_eq_true. Qed.

Lemma clamp_tags_allowed (tags : list string) : tags_allowed (Osm.clamp_tags tags).
Proof.
  unfold tags_allowed, Osm.clamp_tags.
  induction tags as [|t r IH]; simpl; [constructor|].
  destruct (allowed t) eqn:E; [constructor; [apply allowed_elem_of, E | exact IH] | exact IH].
Qed.

Lemma clamp_tags_elem_of (tags : list string) (t : string) :
  t ∈ Osm.clamp_tags tags <-> t ∈ tags /\ t ∈ ALLOWED_TAGS.
Proof.
  unfold Osm.clamp_tags. rewrite !list_elem_of_In, filter_In, allowed_elem_of.
  reflexivity.
Qed.

Lemma cuisine_map_allowed (k v : string) :
  Osm.CUISINE_MAP !! k = Some v -> v ∈ ALLOWED_TAGS.
Proof.
  intros H. apply elem_of_list_to_map_2 in H.
  repeat (apply elem_of_cons in H as [[= -> ->]|H];
          [apply allowed_elem_of; vm_compute; reflexivity|]).
  apply elem_of_nil in H. destruct H.
Qed.

Lemma extract_cuisine_tags_allowed (tags : gmap string string) :
  tags_allowed (Osm.extract_cuisine_tags tags).
Proof.
  unfold tags_allowed, Osm.extract_cuisine_tags.
  destruct (default "" (tags !! "cuisine")); [constructor|].
  apply Forall_forall. intros t Ht. apply list_elem_of_omap in Ht as (value & _ & Hv).
  destruct (Py.strip value); [discriminate|].
  destruct (Osm.CUISINE_MAP !! _) as [m|] eqn:E; [|discriminate].
  destruct (Py.truthy (Some m)); [|discriminate].
  injection Hv as <-. eapply cuisine_map_allowed, E.
Qed.

Lemma tags_from_categories_allowed (categories : list string) :
  tags_allowed (Zurich.tags_from_categories categories).
Proof. apply clamp_tags_allowed. Qed.

Lemma union_tags_elem_of (existing tags : list string) (t : string) :
  t ∈ Zurich.union_tags existing tags <-> t ∈ existing \/ t ∈ tags.
Proof. unfold Zurich.union_tags. rewrite elem_of_elements. set_solver. Qed.

Lemma union_tags_NoDup (existing tags : list string) :
  NoDup (Zurich.union_tags existing tags).
Proof. apply NoDup_elements. Qed.

Lemma union_tags_allowed (existing tags : list string) :
  tags_allowed existing -> tags_allowed tags ->
  tags_allowed (Zurich.union_tags existing tags).
Proof.
  unfold tags_allowed. rewrite !Forall_forall. intros H1 H2 t Ht.
  apply union_tags_elem_of in Ht as [Ht|Ht]; auto.
Qed.

(** The merge into an existing place: the tags are the set union, a scalar
    field that was non-empty keeps its value, and no other key changes. *)
Lemma merge_existing_tags (existing : Place.t) (tags : list string)
    (photo_url address website phone : option string) :
  Place.tags (Zurich.merge_existing existing tags photo_url address website phone)
  = Zurich.union_tags (Place.tags existing) tags.
Proof.
  unfold Zurich.merge_existing.
  repeat match goal with
         | |- context [if ?b then _ else _] => destruct b
         end; reflexivity.
Qed.

Lemma merge_existing_fill_only (existing : Place.t) (tags : list string)
    (photo_url address website phone : option string) (f : scalar_field) :
  Py.truthy (get_field f existing) = true ->
  get_field f (Zurich.merge_existing existing tags photo_url address website phone)
  = get_field f existing.
Proof.
  unfold Zurich.merge_existing. destruct existing, f; simpl; intros Hf.
  all: repeat match goal with
         | |- context [if ?b then _ else _] => destruct b eqn:?
         end; simpl in *; try reflexivity.
  all: rewrite ?Hf in *; simpl in *; congruence.
Qed.

(** What one step of the Zurich loop does to the entry stored under a key:
    it is left alone, or it is merged with the incoming object. *)
Lemma main_step_entry (float_repr : Q -> string) (html_unescape : string -> string)
    (st : gmap string Place.t) (o : Zurich.obj) (k : string) (p : Place.t) :
  st !! k = Some p ->
  Zurich.main_step float_repr html_unescape st o !! k = Some p
  \/ Zurich.main_step float_repr html_unescape st o !! k
     = Some (Zurich.merge_existing p
               (Zurich.tags_from_categories (Zurich.o_category o))
               (Zurich.photo_url_of o)
               (Zurich.build_address (Zurich.address_or_empty (Zurich.o_address o)))
               (Zurich.website_of o) (Zurich.phone_of o)).
Proof.
  intros Hk. unfold Zurich.main_step.
  destruct (Zurich.identifier_of o) as [[|a identifier]|]; auto.
  destruct (Zurich.geo_of o !! "latitude"); auto.
  destruct (Zurich.geo_of o !! "longitude"); auto.
  destruct (Zurich.name_of o) as [[|b name]|]; auto.
  destruct (decide (String a identifier = k)) as [<-|Hne].
  - rewrite Hk, lookup_insert_eq. right. reflexivity.
  - destruct (st !! String a identifier); rewrite lookup_insert_ne by assumption; auto.
Qed.

(** The fields of a place built from an OSM element. *)
Lemma build_place_fields (float_repr : Q -> string) (e : Osm.element)
    (c : Osm.category) (place : Place.t) :
  Osm.build_place float_repr e c = Some place ->
  Place.category place = Osm.category_name c
  /\ Place.tags place
     = Osm.clamp_tags (Osm.CATEGORY_TAGS c ++ Osm.extract_cuisine_tags (Osm.tags_of e))
  /\ Place.address place = Osm.build_address (Osm.tags_of e).
Proof.
  unfold Osm.build_place.
  destruct (Osm.element_center e) as [[la lo]|]; [|discriminate].
  destruct (Osm.tags_of e !! "name") as [[|a r]|]; try discriminate.
  intros [= <-]. auto.
Qed.

(** A property of the places that every normalised place has holds for
    the whole list the first pass builds. *)
Lemma build_loop_Forall (float_repr : Q -> string) (P : Place.t -> Prop)
    (limit : Z) (elements : list Osm.element) (st : Osm.build_state) :
  (forall e c place, Osm.build_place float_repr e c = Some place -> P place) ->
  Forall P (Osm.places st) ->
  Forall P (Osm.places (Osm.build_loop float_repr limit st elements)).
Proof.
  intros HP. revert st. unfold Osm.build_loop.
  induction elements as [|e rest IH]; intros st Hst; simpl; [exact Hst|].
  apply IH. unfold Osm.build_step, Osm.build_step_with.
  destruct (Osm.classify e) as [c|]; [|exact Hst].
  destruct (limit <=? Osm.per_category st c)%Z; [exact Hst|].
  destruct (Osm.build_place float_repr e c) as [place|] eqn:E; [|exact Hst].
  destruct (bool_decide (Place.id place ∈ Osm.seen st)); [exact Hst|].
  simpl. apply Forall_app. split; [exact Hst|].
  constructor; [eapply HP, E | constructor].
Qed.

Lemma main_step_tags_allowed (float_repr : Q -> string) (html_unescape : string -> string)
    (st : gmap string Place.t) (o : Zurich.obj) :
  map_Forall (fun _ p => tags_allowed (Place.tags p)) st ->
  map_Forall (fun _ p => tags_allowed (Place.tags p))
    (Zurich.main_step float_repr html_unescape st o).
Proof.
  intros Hst. unfold Zurich.main_step.
  destruct (Zurich.identifier_of o) as [[|a identifier]|]; auto.
  destruct (Zurich.geo_of o !! "latitude"); auto.
  destruct (Zurich.geo_of o !! "longitude"); auto.
  destruct (Zurich.name_of o) as [[|b name]|]; auto.
  destruct (st !! String a identifier) as [existing|] eqn:E.
  - apply map_Forall_insert_2; [|exact Hst].
    rewrite merge_existing_tags. apply union_tags_allowed.
    + exact (Hst _ _ E).
    + apply tags_from_categories_allowed.
  - apply map_Forall_insert_2; [|exact Hst]. apply tags_from_categories_allowed.
Qed.

Lemma main_loop_tags_allowed (float_repr : Q -> string) (html_unescape : string -> string)
    (objects : list Zurich.obj) (st : gmap string Place.t) :
  map_Forall (fun _ p => tags_allowed (Place.tags p)) st ->
  map_Forall (fun _ p => tags_allowed (Place.tags p))
    (Zurich.main_loop float_repr html_unescape st objects).
Proof.
  revert st. unfold Zurich.main_loop.
  induction objects as [|o rest IH]; intros st Hst; simpl; [exact Hst|].
  apply IH, main_step_tags_allowed, Hst.
Qed.

(** C2: every tag produced by tag extraction (the clamp over category
    defaults and cuisine tags, the cuisine-token mapping, the keyword scan
    of category labels) is in the allow-list; the clamp keeps exactly the
    listed tags that are allowed and drops the others; and every tag of
    every place of the first-pass list and of the merged collection is in
    the allow-list. *)
Theorem tags_within_allow_list :
  (forall tags : list string, tags_allowed (Osm.clamp_tags tags))
  /\ (forall (tags : list string) (t : string),
        t ∈ Osm.clamp_tags tags <-> t ∈ tags /\ t ∈ ALLOWED_TAGS)
  /\ (forall tags : gmap string string, tags_allowed (Osm.extract_cuisine_tags tags))
  /\ (forall categories : list string,
        tags_allowed (Zurich.tags_from_categories categories))
  /\ (forall float_repr elements limit,
        Forall (fun p => tags_allowed (Place.tags p))
          (Osm.build_places float_repr elements limit))
  /\ (forall float_repr html_unescape batches,
        map_Forall (fun _ p => tags_allowed (Place.tags p))
          (Zurich.main float_repr html_unescape batches)).
Proof.
  split; [exact clamp_tags_allowed|].
  split; [exact clamp_tags_elem_of|].
  split; [exact extract_cuisine_tags_allowed|].
  split; [exact tags_from_categories_allowed|].
  split.
  - intros float_repr elements limit. unfold Osm.build_places.
    apply build_loop_Forall; [|constructor].
    intros e c place H. apply build_place_fields in H as (_ & -> & _).
    apply clamp_tags_allowed.
  - intros float_repr html_unescape batches. unfold Zurich.main.
    apply main_loop_tags_allowed, map_Forall_empty.
Qed.

(** ** Duplicates in the extracted tags *)

(** C5, counterexample: the normalised cafe carries "coffee" twice (once
    from the category defaults, once from the cuisine), and two labels
    that trigger the same keyword give the tag twice. *)
Lemma extracted_tags_repeat :
  (Place.tags <$> Osm.build_place (fun _ => "") coffee_cafe Osm.cafe)
    = Some ["coffee"; "coffee"]
  /\ ~ NoDup (Osm.clamp_tags
                (Osm.CATEGORY_TAGS Osm.cafe
                 ++ Osm.extract_cuisine_tags (Osm.tags_of coffee_cafe)))
  /\ ~ NoDup (Zurich.tags_from_categories ["Italian food"; "Italian wine"]).
Proof.
  split; [vm_compute; reflexivity|].
  split; intros H; vm_compute in H; apply NoDup_cons in H as [H _];
    apply H; left.
Qed.

(** C5, as amended: the tag extractors restrict to the allow-list without
    de-duplicating: the result for category defaults followed by cuisine
    tags is the concatenation of the two clamped lists, and the result for
    several category labels is the concatenation of the per-label results,
    so a tag contributed twice appears twice. A duplicate-free tag list is
    produced where a record is merged into a place that is already
    stored: the merged tags are the set union of the stored and the
    incoming tags, each once. *)
Theorem tags_deduplicated_on_merge_only :
  (forall defaults cuisine_tags : list string,
      Osm.clamp_tags (defaults ++ cuisine_tags)
      = (Osm.clamp_tags defaults ++ Osm.clamp_tags cuisine_tags)%list)
  /\ (forall labels more : list string,
        Zurich.tags_from_categories (labels ++ more)
        = (Zurich.tags_from_categories labels
           ++ Zurich.tags_from_categories more)%list)
  /\ (forall existing tags photo_url address website phone,
        let merged :=
          Place.tags
            (Zurich.merge_existing existing tags photo_url address website phone) in
        NoDup merged
        /\ forall t, t ∈ merged <-> t ∈ Place.tags existing \/ t ∈ tags).
Proof.
  split; [|split].
  - intros. unfold Osm.clamp_tags. apply List.filter_app.
  - intros. unfold Zurich.tags_from_categories.
    rewrite flat_map_app. apply List.filter_app.
  - intros. subst merged. rewrite merge_existing_tags.
    split; [apply union_tags_NoDup | apply union_tags_elem_of].
Qed.

(** ** The address of a record without address parts *)

Lemma osm_build_address_absent (tags : gmap string string) :
  tags !! "addr:street" = None -> tags !! "addr:housenumber" = None ->
  tags !! "addr:postcode" = None -> tags !! "addr:city" = None ->
  Osm.build_address tags = None.
Proof. unfold Osm.build_address. intros -> -> -> ->. reflexivity. Qed.

(** C8: on the OSM path a record without address parts gets no address,
    but on the Zurich path [build_address] joins the empty list of parts,
    and the place stored for an object without an "address" key carries
    the empty string as its address. *)
Theorem zurich_address_is_empty_string :
  Zurich.build_address (Some ∅) = Some ""
  /\ (Place.address
        <$> (Zurich.main (fun _ => "") (fun s => s) [[kronenhalle]] !! "x1"))
     = Some (Some "")
  /\ Osm.build_address ∅ = None.
Proof. repeat split; vm_compute; reflexivity. Qed.

(** ** Frames of the passes

    A view of a place that the setters used by a pass do not change is not
    changed by the pass. *)

Lemma merge_existing_view {A : Type} (view : Place.t -> A) (existing : Place.t)
    (tags : list string) (photo_url address website phone : option string) :
  (forall p v, view (set_tags p v) = view p) ->
  (forall p v, view (set_photoUrl p v) = view p) ->
  (forall p v, view (set_address p v) = view p) ->
  (forall p v, view (set_website p v) = view p) ->
  (forall p v, view (set_phone p v) = view p) ->
  view (Zurich.merge_existing existing tags photo_url address website phone)
  = view existing.
Proof.
  intros Ht Hp Ha Hw Hph. unfold Zurich.merge_existing.
  repeat match goal with
         | |- context [if ?b then _ else _] => destruct b
         end; rewrite ?Hph, ?Hw, ?Ha, ?Hp, ?Ht; reflexivity.
Qed.

Section EnrichFacts.

Variable haversine_km : Q -> Q -> Q -> Q -> Q.
Variable search_wikidata : string -> list string.
Variable get_entity : string -> Wikidata.claims.
Variable get_image_url : string -> option string.

Local Abbreviation enrich_place :=
  (Wikidata.enrich_place haversine_km search_wikidata get_entity get_image_url).
Local Abbreviation enrich_loop :=
  (Wikidata.enrich_loop haversine_km search_wikidata get_entity get_image_url).

Lemma kept_refl {A : Type} (view : Place.t -> A) (p : Place.t) : kept view p p.
Proof. split; auto. Qed.

Lemma kept_trans {A : Type} (view : Place.t -> A) (p q r : Place.t) :
  kept view p q -> kept view q r -> kept view p r.
Proof.
  intros [H1 H2] [H3 H4]. split; [congruence|].
  intros f Hf. rewrite <- (H2 f Hf). apply H4. rewrite (H2 f Hf). exact Hf.
Qed.

Section Fill.

Context {A : Type} (view : Place.t -> A).
Hypothesis view_photoUrl : forall p v, view (set_photoUrl p v) = view p.
Hypothesis view_address : forall p v, view (set_address p v) = view p.
Hypothesis view_website : forall p v, view (set_website p v) = view p.
Hypothesis view_phone : forall p v, view (set_phone p v) = view p.

Lemma fill_website_kept cl st : kept view st.1 (Wikidata.fill_website cl st).1.
Proof.
  unfold Wikidata.fill_website.
  destruct (Py.truthy (Place.website st.1)) eqn:E; simpl; [apply kept_refl|].
  destruct (Wikidata.get_claim_value cl "P856") as [[|a w]|]; try apply kept_refl.
  split; [apply view_website|]. destruct st as [[] u]; simpl in *.
  intros []; simpl; congruence.
Qed.

Lemma fill_phone_kept cl st : kept view st.1 (Wikidata.fill_phone cl st).1.
Proof.
  unfold Wikidata.fill_phone.
  destruct (Py.truthy (Place.phone st.1)) eqn:E; simpl; [apply kept_refl|].
  destruct (Wikidata.get_claim_value cl "P1329") as [[|a w]|]; try apply kept_refl.
  split; [apply view_phone|]. destruct st as [[] u]; simpl in *.
  intros []; simpl; congruence.
Qed.

Lemma fill_address_kept cl st : kept view st.1 (Wikidata.fill_address cl st).1.
Proof.
  unfold Wikidata.fill_address.
  destruct (Py.truthy (Place.address st.1)) eqn:E; simpl; [apply kept_refl|].
  destruct (Py.or_ _ _) as [[|a w]|]; try apply kept_refl.
  split; [apply view_address|]. destruct st as [[] u]; simpl in *.
  intros []; simpl; congruence.
Qed.

Lemma fill_photoUrl_kept cl st :
  kept view st.1 (Wikidata.fill_photoUrl get_image_url cl st).1.
Proof.
  unfold Wikidata.fill_photoUrl.
  destruct (Py.truthy (Place.photoUrl st.1)) eqn:E; simpl; [apply kept_refl|].
  destruct (Wikidata.get_claim_value cl "P18") as [[|a w]|]; try apply kept_refl.
  destruct (get_image_url _) as [[|b u]|]; try apply kept_refl.
  split; [apply view_photoUrl|]. destruct st as [[] ?]; simpl in *.
  intros []; simpl; congruence.
Qed.

Lemma enrich_place_kept (place : Place.t) (max_km : Q) :
  kept view place (enrich_place place max_km).1.
Proof.
  unfold Wikidata.enrich_place.
  destruct (negb (Wikidata.needs place)); [apply kept_refl|].
  destruct (search_wikidata (Place.name place)) as [|c cs]; [apply kept_refl|].
  destruct (Wikidata.best_entity _ _ _ _ _) as [cl|]; [|apply kept_refl].
  eapply kept_trans; [|apply fill_photoUrl_kept].
  eapply kept_trans; [|apply fill_address_kept].
  eapply kept_trans; [|apply fill_phone_kept].
  apply (fill_website_kept cl (place, false)).
Qed.

End Fill.

Lemma enrich_place_fill_only (f : scalar_field) (place : Place.t) (max_km : Q) :
  Py.truthy (get_field f place) = true ->
  get_field f (enrich_place place max_km).1 = get_field f place.
Proof.
  intros Hf.
  destruct (enrich_place_kept (fun _ => tt) (fun _ _ => eq_refl) (fun _ _ => eq_refl)
              (fun _ _ => eq_refl) (fun _ _ => eq_refl) place max_km) as [_ H].
  apply H, Hf.
Qed.

Lemma enrich_loop_fill_only (f : scalar_field) (max_km : Q) (limit : Z)
    (places : list Place.t) (scanned : Z) :
  Forall2 (fun p p' => Py.truthy (get_field f p) = true ->
                       get_field f p' = get_field f p)
    places (enrich_loop max_km limit scanned places).1.
Proof.
  revert scanned.
  induction places as [|p rest IH]; intros scanned; simpl; [constructor|].
  destruct (limit <=? scanned)%Z; simpl.
  - apply Forall2_same_length_lookup_2; [reflexivity|].
    intros i x y Hx Hy _. congruence.
  - specialize (IH (scanned + 1)%Z).
    pose proof (enrich_place_fill_only f p max_km) as Hp.
    destruct (Wikidata.enrich_place _ _ _ _ p max_km) as [p' u].
    destruct (Wikidata.enrich_loop _ _ _ _ max_km limit (scanned + 1) rest) as [rest' n].
    simpl in *. constructor; assumption.
Qed.

End EnrichFacts.

Lemma assign_by_id_view {A : Type} (view : Place.t -> A) (custom_id : string)
    (write : Place.t -> Place.t) (places : list Place.t) :
  (forall p, view (write p) = view p) ->
  map view (Attach.assign_by_id custom_id write places) = map view places.
Proof.
  intros Hw. induction places as [|p rest IH]; simpl; [reflexivity|].
  destruct (existsb _ rest); simpl; [rewrite IH; reflexivity|].
  destruct (Attach.has_id custom_id p); simpl; [rewrite Hw|]; reflexivity.
Qed.

Lemma embedding_merge_results_view {A : Type} (view : Place.t -> A)
    (results : list Attach.embedding_record) (places : list Place.t) :
  (forall p v, view (set_embedding p v) = view p) ->
  map view (Attach.embedding_merge_results places results) = map view places.
Proof.
  intros Hv. unfold Attach.embedding_merge_results. revert places.
  induction results as [|r rest IH]; intros places; simpl; [reflexivity|].
  rewrite IH. unfold Attach.embedding_step.
  repeat case_match; try reflexivity.
  apply assign_by_id_view. intros p. apply Hv.
Qed.

Lemma description_merge_results_view {A : Type} (view : Place.t -> A)
    (results : list Attach.description_record) (places : list Place.t) :
  (forall p v, view (set_aiDescription p v) = view p) ->
  map view (Attach.description_merge_results places results) = map view places.
Proof.
  intros Hv. unfold Attach.description_merge_results. revert places.
  induction results as [|r rest IH]; intros places; simpl; [reflexivity|].
  rewrite IH. unfold Attach.description_step.
  repeat case_match; try reflexivity.
  apply assign_by_id_view. intros p. apply Hv.
Qed.

(** ** Fill-only scalar fields *)

Lemma main_loop_fill_only (float_repr : Q -> string) (html_unescape : string -> string)
    (f : scalar_field) (objects : list Zurich.obj) (st : gmap string Place.t)
    (k : string) (p : Place.t) :
  st !! k = Some p ->
  Py.truthy (get_field f p) = true ->
  exists p',
    Zurich.main_loop float_repr html_unescape st objects !! k = Some p'
    /\ get_field f p' = get_field f p.
Proof.
  unfold Zurich.main_loop. revert st p.
  induction objects as [|o rest IH]; intros st p Hk Hf; simpl.
  - exists p. auto.
  - destruct (main_step_entry float_repr html_unescape st o k p Hk) as [H|H].
    + apply (IH _ _ H Hf).
    + pose proof (merge_existing_fill_only p
                    (Zurich.tags_from_categories (Zurich.o_category o))
                    (Zurich.photo_url_of o)
                    (Zurich.build_address
                       (Zurich.address_or_empty (Zurich.o_address o)))
                    (Zurich.website_of o) (Zurich.phone_of o) f Hf) as Hm.
      destruct (IH _ _ H) as (p' & Hp' & Heq); [congruence|].
      exists p'. split; [exact Hp' | congruence].
Qed.

(** C1: for each of the fields address, website, phone and photoUrl, a
    value that is non-empty before a pass is the value after the pass: in
    the Zurich merge loop, for every place already stored and every
    further stream of objects; in the Wikidata enrichment of one place and
    of the whole list; and in the passes that attach embeddings and
    generated descriptions. *)
Theorem scalar_fields_fill_only (f : scalar_field) :
  (forall float_repr html_unescape objects (st : gmap string Place.t) k p,
      st !! k = Some p ->
      Py.truthy (get_field f p) = true ->
      exists p',
        Zurich.main_loop float_repr html_unescape st objects !! k = Some p'
        /\ get_field f p' = get_field f p)
  /\ (forall haversine_km search_wikidata get_entity get_image_url place max_km,
        Py.truthy (get_field f place) = true ->
        get_field f
          (Wikidata.enrich_place haversine_km search_wikidata get_entity
             get_image_url place max_km).1
        = get_field f place)
  /\ (forall haversine_km search_wikidata get_entity get_image_url max_km limit places,
        Forall2 (fun p p' => Py.truthy (get_field f p) = true ->
                             get_field f p' = get_field f p)
          places
          (Wikidata.enrich_loop haversine_km search_wikidata get_entity
             get_image_url max_km limit 0 places).1)
  /\ (forall places results,
        map (get_field f) (Attach.embedding_merge_results places results)
        = map (get_field f) places)
  /\ (forall places results,
        map (get_field f) (Attach.description_merge_results places results)
        = map (get_field f) places)
  /\ (forall embed_text places,
        map (get_field f) (Attach.qwen_main embed_text places)
        = map (get_field f) places)
  /\ (forall generate_description places,
        map (get_field f) (Attach.generate_main generate_description places)
        = map (get_field f) places).
Proof.
  repeat split.
  - intros. eapply main_loop_fill_only; eassumption.
  - intros. apply enrich_place_fill_only. assumption.
  - intros. apply enrich_loop_fill_only.
  - intros. apply embedding_merge_results_view. intros p v. destruct f; reflexivity.
  - intros. apply description_merge_results_view. intros p v. destruct f; reflexivity.
  - intros. unfold Attach.qwen_main. rewrite map_map. apply map_ext.
    intros p. destruct f; reflexivity.
  - intros. unfold Attach.generate_main. rewrite map_map. apply map_ext.
    intros p. destruct f; reflexivity.
Qed.

(** ** Records without coordinates or without a name *)

Lemma element_center_none (r : OsmJson.element) :
  osm_no_key_pair r -> OsmJson.element_center r = None.
Proof.
  intros [Hdirect Hcenter]. unfold OsmJson.element_center.
  assert (Hkeys : OsmJson.present (OsmJson.r_lat r)
                  && OsmJson.present (OsmJson.r_lon r) = false).
  { destruct Hdirect as [-> | ->]; [reflexivity | apply andb_false_r]. }
  rewrite Hkeys.
  destruct (OsmJson.r_center r) as [| |center]; [reflexivity|reflexivity|].
  destruct (bool_decide (center ≠ ∅)); [|reflexivity].
  destruct (Hcenter center eq_refl) as [-> | ->]; [reflexivity|].
  destruct (center !! "lat"); reflexivity.
Qed.


Lemma build_place_rejected (float_repr : Q -> string) (r : OsmJson.element)
    (c : Osm.category) :
  OsmJson.r_tags r <> OsmJson.Null ->
  osm_no_key_pair r \/ osm_no_name r ->
  OsmJson.build_place float_repr r c = OsmJson.Returns None.
Proof.
  intros Htags [H|H]; unfold OsmJson.build_place.
  - rewrite (element_center_none r H). reflexivity.
  - destruct (OsmJson.element_center r) as [[la lo]|]; [|reflexivity].
    unfold osm_no_name in H.
    destruct (OsmJson.tags_of r) as [tags|] eqn:E.
    + specialize (H tags eq_refl).
      destruct (tags !! "name") as [[|a n]|]; [reflexivity|discriminate|reflexivity].
    + exfalso. apply Htags. unfold OsmJson.tags_of in E.
      destruct (OsmJson.r_tags r); [discriminate|reflexivity|discriminate].
Qed.

Lemma build_step_rejected (float_repr : Q -> string) (limit : Z)
    (st : OsmJson.build_state) (r : OsmJson.element) :
  OsmJson.r_tags r <> OsmJson.Null ->
  osm_no_key_pair r \/ osm_no_name r ->
  OsmJson.build_step float_repr limit st r = OsmJson.Returns st.
Proof.
  intros Htags H. unfold OsmJson.build_step.
  destruct (OsmJson.tags_of r) as [tags|] eqn:E.
  - destruct (OsmJson.classify tags) as [c|]; [|reflexivity].
    destruct (limit <=? OsmJson.per_category st c)%Z; [reflexivity|].
    rewrite (build_place_rejected float_repr r c Htags H). reflexivity.
  - exfalso. apply Htags. unfold OsmJson.tags_of in E.
    destruct (OsmJson.r_tags r); [discriminate|reflexivity|discriminate].
Qed.

Lemma build_loop_app (float_repr : Q -> string) (limit : Z)
    (before after : list OsmJson.element) (st : OsmJson.build_state) :
  OsmJson.build_loop float_repr limit st (before ++ after)
  = match OsmJson.build_loop float_repr limit st before with
    | OsmJson.Raises => OsmJson.Raises
    | OsmJson.Returns st' => OsmJson.build_loop float_repr limit st' after
    end.
Proof.
  revert st. induction before as [|r rest IH]; intros st; simpl; [reflexivity|].
  destruct (OsmJson.build_step float_repr limit st r); [reflexivity|apply IH].
Qed.

(** The typed functions of the OSM script are the functions on elements
    with [null], restricted to the elements in which no key holds
    [null]: there nothing is raised, and the dictionaries built are those
    of the places. *)
Lemma of_typed_element_center (e : Osm.element) :
  OsmJson.element_center (OsmJson.of_typed e)
  = (fun c => (Some c.1, Some c.2)) <$> Osm.element_center e.
Proof.
  unfold OsmJson.element_center, Osm.element_center, OsmJson.of_typed.
  cbn [OsmJson.r_lat OsmJson.r_lon OsmJson.r_center].
  assert (Hc : forall center : gmap string Q,
             (if bool_decide ((Some <$> center : gmap string (option Q)) ≠ ∅)
              then match (Some <$> center : gmap string (option Q)) !! "lat",
                         (Some <$> center : gmap string (option Q)) !! "lon" with
                   | Some la, Some lo => Some (la, lo)
                   | _, _ => None
                   end
              else None)
             = (fun c : Q * Q => (Some c.1, Some c.2))
               <$> (if bool_decide (center ≠ ∅)
                    then match center !! "lat", center !! "lon" with
                         | Some la, Some lo => Some (la, lo)
                         | _, _ => None
                         end
                    else None)).
  { intros center. rewrite !lookup_fmap.
    destruct (decide (center = ∅)) as [->|Hne].
    - rewrite fmap_empty.
      rewrite !bool_decide_eq_false_2 by (intros H; apply H; reflexivity).
      reflexivity.
    - rewrite !bool_decide_eq_true_2; [|exact Hne|].
      + destruct (center !! "lat"), (center !! "lon"); reflexivity.
      + intros H. apply fmap_empty_inv in H. contradiction. }
  destruct (Osm.e_lat e) as [la|], (Osm.e_lon e) as [lo|];
    cbn [OsmJson.of_option OsmJson.present OsmJson.item andb];
    try reflexivity;
    (destruct (Osm.e_center e) as [center|];
     [cbn [fmap option_fmap option_map OsmJson.of_option]; apply Hc | reflexivity]).
Qed.

Lemma of_typed_tags (e : Osm.element) :
  OsmJson.tags_of (OsmJson.of_typed e) = Some (Osm.tags_of e).
Proof.
  unfold OsmJson.tags_of, Osm.tags_of, OsmJson.of_typed. simpl.
  destruct (Osm.e_tags e); reflexivity.
Qed.

Lemma of_typed_build_place (float_repr : Q -> string) (e : Osm.element)
    (c : Osm.category) :
  OsmJson.build_place float_repr (OsmJson.of_typed e) c
  = OsmJson.Returns (OsmJson.place_dict <$> Osm.build_place float_repr e c).
Proof.
  unfold OsmJson.build_place, Osm.build_place.
  rewrite of_typed_element_center, of_typed_tags.
  destruct (Osm.element_center e) as [[la lo]|]; [|reflexivity].
  cbn [fmap option_fmap option_map fst snd].
  destruct (Osm.tags_of e !! "name") as [[|a n]|]; reflexivity.
Qed.

Lemma place_dict_id (p : Place.t) :
  OsmJson.place_dict p !! "id" = Some (OsmJson.JStr (Place.id p)).
Proof. reflexivity. Qed.

Lemma of_typed_build_step (float_repr : Q -> string) (limit : Z)
    (st : Osm.build_state) (e : Osm.element) :
  OsmJson.build_step float_repr limit (state_dicts st) (OsmJson.of_typed e)
  = OsmJson.Returns (state_dicts (Osm.build_step float_repr limit st e)).
Proof.
  unfold OsmJson.build_step, Osm.build_step, Osm.build_step_with.
  rewrite of_typed_tags.
  change (OsmJson.classify (Osm.tags_of e)) with (Osm.classify e).
  destruct (Osm.classify e) as [c|]; [|reflexivity].
  cbn [state_dicts OsmJson.per_category OsmJson.seen OsmJson.places].
  destruct (limit <=? Osm.per_category st c)%Z; [reflexivity|].
  rewrite of_typed_build_place.
  destruct (Osm.build_place float_repr e c) as [place|]; [|reflexivity].
  cbn [fmap option_fmap option_map]. rewrite place_dict_id.
  destruct (bool_decide (Place.id place ∈ Osm.seen st)); [reflexivity|].
  unfold state_dicts. cbn [Osm.places Osm.seen Osm.per_category].
  rewrite map_app. reflexivity.
Qed.

Lemma of_typed_build_places (float_repr : Q -> string)
    (elements : list Osm.element) (limit : Z) :
  OsmJson.build_places float_repr (map OsmJson.of_typed elements) limit
  = OsmJson.Returns
      (map OsmJson.place_dict (Osm.build_places float_repr elements limit)).
Proof.
  unfold OsmJson.build_places, Osm.build_places, Osm.build_loop.
  change OsmJson.initial with (state_dicts Osm.initial).
  generalize Osm.initial.
  induction elements as [|e rest IH]; intros st; simpl; [reflexivity|].
  rewrite of_typed_build_step. apply IH.
Qed.

Lemma geo_of_incomplete (o : Zurich.obj) :
  zurich_no_coordinates o ->
  Zurich.geo_of o !! "latitude" = None \/ Zurich.geo_of o !! "longitude" = None.
Proof.
  intros [H1 H2]. unfold Zurich.geo_of.
  assert (Hgeo : default ∅ (Zurich.o_geo o) !! "latitude" = None
                 \/ default ∅ (Zurich.o_geo o) !! "longitude" = None).
  { destruct (Zurich.o_geo o) as [g|]; [apply H2; reflexivity | left; apply lookup_empty]. }
  destruct (Zurich.o_geoCoordinates o) as [g|]; [|exact Hgeo].
  destruct (bool_decide (g ≠ ∅)); [apply H1; reflexivity | exact Hgeo].
Qed.

Lemma name_of_falsy (o : Zurich.obj) :
  zurich_no_name o -> Py.truthy (Zurich.name_of o) = false.
Proof.
  intros (H1 & H2 & H3). unfold Zurich.name_of, Py.or_.
  rewrite H1, H2. exact H3.
Qed.

Lemma main_step_rejected (float_repr : Q -> string) (html_unescape : string -> string)
    (st : gmap string Place.t) (o : Zurich.obj) :
  zurich_no_coordinates o \/ zurich_no_name o ->
  Zurich.main_step float_repr html_unescape st o = st.
Proof.
  intros H. unfold Zurich.main_step.
  destruct (Zurich.identifier_of o) as [[|a identifier]|]; try reflexivity.
  destruct H as [H|H].
  - destruct (geo_of_incomplete o H) as [-> | ->]; [reflexivity|].
    destruct (Zurich.geo_of o !! "latitude"); reflexivity.
  - apply name_of_falsy in H.
    destruct (Zurich.geo_of o !! "latitude"); [|reflexivity].
    destruct (Zurich.geo_of o !! "longitude"); [|reflexivity].
    destruct (Zurich.name_of o) as [[|b name]|]; [reflexivity|discriminate|reflexivity].
Qed.

(** C4, counterexample: two elements from which no coordinate pair can be
    read. The cafe whose keys "lat" and "lon" hold [null] is not dropped:
    [element_center] finds both keys and returns the pair of their values,
    [build_place] returns a dictionary with [null] coordinates, and the
    list built from the element holds that dictionary. The element whose
    key "tags" holds [null] makes the loop raise, and the cafes before and
    after it are lost with it. *)
Lemma null_records_are_not_dropped :
  osm_no_number_pair null_coordinates_cafe
  /\ OsmJson.build_place (fun _ => "") null_coordinates_cafe Osm.cafe
     = OsmJson.Returns (Some null_coordinates_place)
  /\ OsmJson.build_places (fun _ => "") [null_coordinates_cafe] 5
     = OsmJson.Returns [null_coordinates_place]
  /\ osm_no_number_pair null_tags_element
  /\ OsmJson.build_places (fun _ => "")
       [OsmJson.of_typed coffee_cafe; null_tags_element;
        OsmJson.of_typed second_cafe] 5
     = OsmJson.Raises.
Proof.
  split; [|split; [|split; [|split]]].
  - split; [left; reflexivity|]. intros center H. discriminate H.
  - vm_compute. reflexivity.
  - vm_compute. reflexivity.
  - split; [left; reflexivity|]. intros center H. discriminate H.
  - vm_compute. reflexivity.
Qed.

(** C4, as amended: an OSM element whose "tags" is missing or a
    dictionary of strings, and that has not both keys "lat" and "lon" and
    no non-empty "center" dictionary with both keys, or that has no
    non-empty name, is normalised to no place for every category, and
    nothing is raised: [build_place] returns [None], the iteration of the
    loop returns with the loop state as it was, and the outcome of
    [build_places] on a stream that contains the element is its outcome on
    the stream without it. An object of the Zurich answer, of the shape
    [main] reads (a dictionary of numbers, [null] or nothing under
    "geoCoordinates" and "geo"), that has no latitude/longitude pair or no
    non-empty name, headline or title leaves the collection as it was, and
    the collection built from a stream that contains it is the one built
    without it. An element whose coordinate keys hold [null] is outside
    this statement. *)
Theorem rejected_records_are_dropped :
  (forall float_repr r,
      OsmJson.r_tags r <> OsmJson.Null ->
      osm_no_key_pair r \/ osm_no_name r ->
      (forall c, OsmJson.build_place float_repr r c = OsmJson.Returns None)
      /\ (forall limit st,
            OsmJson.build_step float_repr limit st r = OsmJson.Returns st)
      /\ (forall limit before after,
            OsmJson.build_places float_repr (before ++ r :: after) limit
            = OsmJson.build_places float_repr (before ++ after) limit))
  /\ (forall float_repr html_unescape o,
        zurich_no_coordinates o \/ zurich_no_name o ->
        (forall st, Zurich.main_step float_repr html_unescape st o = st)
        /\ (forall st before after,
              Zurich.main_loop float_repr html_unescape st (before ++ o :: after)
              = Zurich.main_loop float_repr html_unescape st (before ++ after))).
Proof.
  split.
  - intros float_repr r Htags H. split; [|split].
    + intros c. apply build_place_rejected; assumption.
    + intros. apply build_step_rejected; assumption.
    + intros. unfold OsmJson.build_places. rewrite !build_loop_app.
      destruct (OsmJson.build_loop float_repr limit OsmJson.initial before)
        as [|st]; [reflexivity|].
      cbn [OsmJson.build_loop]. rewrite build_step_rejected by assumption.
      reflexivity.
  - intros float_repr html_unescape o H. split.
    + intros. apply main_step_rejected, H.
    + intros. unfold Zurich.main_loop.
      rewrite !fold_left_app. simpl. rewrite main_step_rejected by exact H.
      reflexivity.
Qed.

(** ** Candidates beyond the radius *)

Section Radius.

Variable haversine_km : Q -> Q -> Q -> Q -> Q.
Variable search_wikidata : string -> list string.
Variable get_entity : string -> Wikidata.claims.
Variable get_image_url : string -> option string.

Lemma best_entity_beyond_radius (place : Place.t) (candidates : list string)
    (max_km : Q) :
  (forall c la lo,
      c ∈ candidates ->
      Wikidata.get_coords (get_entity c) = Some (Some la, Some lo) ->
      (max_km < haversine_km (Place.lat place) (Place.lon place) la lo)%Q) ->
  Wikidata.best_entity haversine_km get_entity place candidates max_km = None.
Proof.
  unfold Wikidata.best_entity.
  induction candidates as [|c rest IH]; intros H; simpl; [reflexivity|].
  assert (Hstep : Wikidata.best_step haversine_km get_entity place max_km None c = None).
  { unfold Wikidata.best_step.
    destruct (Wikidata.get_coords (get_entity c)) as [[[la|] [lo|]]|] eqn:E;
      try reflexivity.
    specialize (H c la lo (list_elem_of_here _ _) E).
    destruct (Qle_bool _ max_km) eqn:Hle; [|reflexivity].
    apply Qle_bool_iff in Hle. exfalso. exact (Qlt_not_le _ _ H Hle). }
  rewrite Hstep. apply IH. intros c' la lo Hin. apply H. right. exact Hin.
Qed.

End Radius.

(** C9: if every candidate the search returns for the place, whose entity
    has coordinates, lies farther than [max_km] from the place under the
    great-circle distance, the enrichment returns the place as it was and
    reports no update. *)
Theorem out_of_radius_no_update
    (haversine_km : Q -> Q -> Q -> Q -> Q) (search_wikidata : string -> list string)
    (get_entity : string -> Wikidata.claims) (get_image_url : string -> option string)
    (place : Place.t) (max_km : Q) :
  (forall c la lo,
      c ∈ search_wikidata (Place.name place) ->
      Wikidata.get_coords (get_entity c) = Some (Some la, Some lo) ->
      (max_km < haversine_km (Place.lat place) (Place.lon place) la lo)%Q) ->
  Wikidata.enrich_place haversine_km search_wikidata get_entity get_image_url
    place max_km
  = (place, false).
Proof.
  intros H. unfold Wikidata.enrich_place.
  destruct (negb (Wikidata.needs place)); [reflexivity|].
  destruct (search_wikidata (Place.name place)) as [|c cs] eqn:E; [reflexivity|].
  rewrite best_entity_beyond_radius; [reflexivity|exact H].
Qed.

(** The scenario of the specification: one candidate, 5.0 km away, with
    [max_km = 2.0]; the entity offers a website the place lacks. *)
Lemma out_of_radius_no_update_witness :
  Wikidata.enrich_place (fun _ _ _ _ => 5 # 1) (fun _ => ["Q72"])
    (fun _ => far_entity) (fun _ => None) bare_place (2 # 1)
  = (bare_place, false).
Proof.
  apply (out_of_radius_no_update (fun _ _ _ _ => 5 # 1) (fun _ => ["Q72"])
           (fun _ => far_entity) (fun _ => None) bare_place (2 # 1)).
  intros c la lo _ _. reflexivity.
Defined.

(** ** The per-category cap of the first pass *)

Lemma category_name_inj (c c' : Osm.category) :
  Osm.category_name c = Osm.category_name c' -> c = c'.
Proof. destruct c, c'; simpl; intros H; solve [reflexivity | discriminate H]. Qed.

Lemma count_category_snoc (c c0 : Osm.category) (places : list Place.t)
    (place : Place.t) :
  Place.category place = Osm.category_name c0 ->
  count_category c (places ++ [place])
  = (count_category c places + if decide (c = c0) then 1 else 0)%Z.
Proof.
  intros Hcat. unfold count_category.
  rewrite List.filter_app, length_app. simpl. rewrite Hcat.
  destruct (decide (c = c0)) as [->|Hne].
  - rewrite bool_decide_eq_true_2 by reflexivity. simpl. lia.
  - rewrite bool_decide_eq_false_2; [simpl; lia|].
    intros H. apply Hne. symmetry. apply category_name_inj, H.
Qed.

Lemma build_step_counted (float_repr : Q -> string) (limit : Z)
    (st : Osm.build_state) (e : Osm.element) :
  counted limit st -> counted limit (Osm.build_step float_repr limit st e).
Proof.
  intros Hst. unfold Osm.build_step, Osm.build_step_with.
  destruct (Osm.classify e) as [c0|]; [|exact Hst].
  destruct (limit <=? Osm.per_category st c0)%Z eqn:Hcap; [exact Hst|].
  destruct (Osm.build_place float_repr e c0) as [place|] eqn:E; [|exact Hst].
  destruct (bool_decide (Place.id place ∈ Osm.seen st)); [exact Hst|].
  apply build_place_fields in E as (Hcat & _).
  apply Z.leb_gt in Hcap.
  intros c. simpl. rewrite (count_category_snoc c c0 _ _ Hcat).
  destruct (Hst c) as [Hc Hle]. destruct (Hst c0) as [Hc0 _].
  unfold Osm.bump. destruct (decide (c = c0)) as [->|Hne]; lia.
Qed.

Lemma build_loop_counted (float_repr : Q -> string) (limit : Z)
    (elements : list Osm.element) (st : Osm.build_state) :
  counted limit st -> counted limit (Osm.build_loop float_repr limit st elements).
Proof.
  revert st. unfold Osm.build_loop.
  induction elements as [|e rest IH]; intros st Hst; simpl; [exact Hst|].
  apply IH, build_step_counted, Hst.
Qed.

Lemma initial_counted (limit : Z) : (0 <= limit)%Z -> counted limit Osm.initial.
Proof. intros H c. split; [reflexivity | exact H]. Qed.

(** C10: for a limit [N >= 0], the first pass emits at most [N] places of
    each category; and once the list built so far holds [N] places of a
    category, a further element of that category leaves the loop state as
    it is, whatever the normaliser would do with it: the cap is tested
    before the normaliser is called. *)
Theorem per_category_cap (float_repr : Q -> string) (limit : Z) :
  (0 <= limit)%Z ->
  (forall elements c,
      (count_category c (Osm.build_places float_repr elements limit) <= limit)%Z)
  /\ (forall normalise before e c,
        let st := Osm.build_loop float_repr limit Osm.initial before in
        Osm.classify e = Some c ->
        (limit <= count_category c (Osm.places st))%Z ->
        Osm.build_step_with normalise limit st e = st).
Proof.
  intros Hlimit. split.
  - intros elements c. unfold Osm.build_places.
    apply (build_loop_counted float_repr limit elements Osm.initial
             (initial_counted limit Hlimit) c).
  - intros normalise before e c st Hclass Hfull.
    destruct (build_loop_counted float_repr limit before Osm.initial
                (initial_counted limit Hlimit) c) as [Hc _].
    fold st in Hc. unfold Osm.build_step_with. rewrite Hclass.
    rewrite <- Hc in Hfull. apply Z.leb_le in Hfull. rewrite Hfull. reflexivity.
Qed.

(** ** Which pass writes which field *)

(** C6, counterexample: the offline embedding pass (embed_places_qwen.py)
    writes aiDescription: a place without one leaves the pass with the
    text that was embedded. *)
Lemma qwen_pass_writes_aiDescription :
  map Place.aiDescription (Attach.qwen_main (fun _ => []) [bare_place])
    = [Some "Kafi | cafe | coffee"]
  /\ map Place.aiDescription (Attach.qwen_main (fun _ => []) [bare_place])
     <> map Place.aiDescription [bare_place].
Proof. split; [vm_compute; reflexivity | vm_compute; discriminate]. Qed.

(** C6, as amended: aiDescription is written by the description attach
    steps (the merge of batch results and the local generation loop),
    which change no other field, and also by the offline Qwen embedding
    pass, which stores the text it embeds as aiDescription together with
    the embedding and changes no other field; the batch embedding attach
    pass (merge_results of embed_places_openai_batch.py) writes only the
    embedding field and leaves aiDescription and every other field of
    every place unchanged; the Zurich merge and the Wikidata enrichment
    write neither aiDescription nor embedding. *)
Theorem attach_passes_frame :
  (forall places results,
      map (fun p => set_embedding p None)
        (Attach.embedding_merge_results places results)
      = map (fun p => set_embedding p None) places)
  /\ (forall embed_text places,
        map Place.aiDescription (Attach.qwen_main embed_text places)
        = map (fun p => Some (Attach.build_description p)) places
        /\ map Place.embedding (Attach.qwen_main embed_text places)
           = map (fun p => Some (embed_text (Attach.build_description p))) places
        /\ map (fun p => set_embedding (set_aiDescription p None) None)
             (Attach.qwen_main embed_text places)
           = map (fun p => set_embedding (set_aiDescription p None) None) places)
  /\ (forall places results,
        map (fun p => set_aiDescription p None)
          (Attach.description_merge_results places results)
        = map (fun p => set_aiDescription p None) places)
  /\ (forall generate_description places,
        map (fun p => set_aiDescription p None)
          (Attach.generate_main generate_description places)
        = map (fun p => set_aiDescription p None) places)
  /\ (forall existing tags photo_url address website phone,
        let merged :=
          Zurich.merge_existing existing tags photo_url address website phone in
        Place.aiDescription merged = Place.aiDescription existing
        /\ Place.embedding merged = Place.embedding existing)
  /\ (forall haversine_km search_wikidata get_entity get_image_url place max_km,
        let enriched :=
          (Wikidata.enrich_place haversine_km search_wikidata get_entity
             get_image_url place max_km).1 in
        Place.aiDescription enriched = Place.aiDescription place
        /\ Place.embedding enriched = Place.embedding place).
Proof.
  split; [|split; [|split; [|split; [|split]]]].
  - intros. apply embedding_merge_results_view. reflexivity.
  - intros. unfold Attach.qwen_main. rewrite !map_map. auto.
  - intros. apply description_merge_results_view. reflexivity.
  - intros. unfold Attach.generate_main. rewrite map_map. reflexivity.
  - intros. subst merged.
    split; apply merge_existing_view; reflexivity.
  - intros. subst enriched.
    split.
    + apply (enrich_place_kept haversine_km search_wikidata get_entity get_image_url
               Place.aiDescription); reflexivity.
    + apply (enrich_place_kept haversine_km search_wikidata get_entity get_image_url
               Place.embedding); reflexivity.
Qed.

(** ** Instances *)

(** Scenario 3 of the specification: a second record with the same id and
    another website leaves the stored website "http://old" in place. *)
Lemma scalar_fields_fill_only_witness :
  exists p',
    Zurich.main_loop (fun _ => "") (fun s => s) {["x1" := old_place]}
      [kronenhalle_again] !! "x1" = Some p'
    /\ get_field Website p' = get_field Website old_place.
Proof.
  apply (proj1 (scalar_fields_fill_only Website) (fun _ => "") (fun s => s)
           [kronenhalle_again] {["x1" := old_place]} "x1" old_place).
  - vm_compute. reflexivity.
  - reflexivity.
Defined.

(** An element without a name between two cafes is not in the list. *)
Lemma rejected_records_are_dropped_witness :
  OsmJson.r_tags (OsmJson.of_typed nameless_cafe) <> OsmJson.Null
  /\ osm_no_name (OsmJson.of_typed nameless_cafe)
  /\ OsmJson.build_places (fun _ => "")
       ([OsmJson.of_typed coffee_cafe]
        ++ OsmJson.of_typed nameless_cafe :: [OsmJson.of_typed second_cafe]) 5
     = OsmJson.build_places (fun _ => "")
         ([OsmJson.of_typed coffee_cafe] ++ [OsmJson.of_typed second_cafe]) 5.
Proof.
  assert (Htags : OsmJson.r_tags (OsmJson.of_typed nameless_cafe) <> OsmJson.Null)
    by discriminate.
  assert (H : osm_no_name (OsmJson.of_typed nameless_cafe)).
  { intros tags [= <-]. vm_compute. reflexivity. }
  split; [exact Htags|]. split; [exact H|].
  apply (proj2 (proj2 (proj1 rejected_records_are_dropped (fun _ => "")
                         (OsmJson.of_typed nameless_cafe) Htags (or_intror H)))).
Defined.

(** With a limit of one, two cafes in the stream give one cafe. *)
Lemma per_category_cap_witness :
  (0 <= 1)%Z
  /\ (count_category Osm.cafe
        (Osm.build_places (fun _ => "") [coffee_cafe; second_cafe] 1) <= 1)%Z.
Proof.
  assert (H : (0 <= 1)%Z) by lia.
  split; [exact H|].
  apply (proj1 (per_category_cap (fun _ => "") 1 H)).
Defined.

(** ** End-to-end scenarios *)

(** A restaurant with a name and coordinates and no address keys becomes a
    place of category restaurant with the defaults of that category and no
    address. *)
Example scenario_restaurant :
  (fun p => (Place.category p, Place.indoorOutdoor p, Place.durationMins p,
             Place.bestTimeOfDay p, Place.address p, Place.id p))
    <$> Osm.build_places (fun _ => "") [kronenhalle_element] 40
  = [("restaurant", "indoor", 90%Z, "night", None, "osm-node-240-kronenhalle")].
Proof. vm_compute. reflexivity. Qed.

(** The cuisine "vegetarian;thai" maps to the tags vegan and asian. *)
Example scenario_cuisine :
  Osm.extract_cuisine_tags (list_to_map [("cuisine", "vegetarian;thai")])
  = ["vegan"; "asian"].
Proof. vm_compute. reflexivity. Qed.

(** Category labels are matched in priority order: a label that names both
    a hotel and a restaurant is an accommodation, and type codes decide
    only when no label matches. *)
Example scenario_classifier :
  Zurich.category_from_type ["restaurant"] ["Hotel Restaurant"] = Zurich.accommodation
  /\ Zurich.category_from_type ["museum"] ["Culture"] = Zurich.museum
  /\ Zurich.category_from_type ["thing"] ["Culture"] = Zurich.activity.
Proof. repeat split; vm_compute; reflexivity. Qed.

(** * Further properties of the scripts *)

(** ** The first pass over OSM elements *)

Lemma build_step_cases (float_repr : Q -> string) (limit : Z)
    (st : Osm.build_state) (e : Osm.element) :
  Osm.build_step float_repr limit st e = st
  \/ exists c place,
       Osm.classify e = Some c
       /\ Osm.build_place float_repr e c = Some place
       /\ (Place.id place ∉ Osm.seen st)
       /\ (Osm.per_category st c < limit)%Z
       /\ Osm.build_step float_repr limit st e
          = Osm.mk_state (Osm.places st ++ [place])
              ({[Place.id place]} ∪ Osm.seen st)
              (Osm.bump (Osm.per_category st) c).
Proof.
  unfold Osm.build_step, Osm.build_step_with.
  destruct (Osm.classify e) as [c|]; [|left; reflexivity].
  destruct (limit <=? Osm.per_category st c)%Z eqn:Hcap; [left; reflexivity|].
  destruct (Osm.build_place float_repr e c) as [place|] eqn:E; [|left; reflexivity].
  destruct (bool_decide (Place.id place ∈ Osm.seen st)) eqn:Hseen; [left; reflexivity|].
  right. exists c, place. apply bool_decide_eq_false in Hseen. apply Z.leb_gt in Hcap.
  auto.
Qed.

(** The ids of the list are pairwise distinct and all recorded in [seen]. *)
Lemma build_loop_ids (float_repr : Q -> string) (limit : Z)
    (elements : list Osm.element) (st : Osm.build_state) :
  NoDup (map Place.id (Osm.places st)) ->
  (forall p, p ∈ Osm.places st -> Place.id p ∈ Osm.seen st) ->
  NoDup (map Place.id (Osm.places (Osm.build_loop float_repr limit st elements))).
Proof.
  unfold Osm.build_loop. revert st.
  induction elements as [|e rest IH]; intros st Hnd Hseen; simpl; [exact Hnd|].
  destruct (build_step_cases float_repr limit st e) as [-> | (c & place & _ & _ & Hnew & _ & ->)].
  - apply IH; assumption.
  - apply IH; simpl.
    + rewrite map_app. simpl. apply NoDup_app. split; [exact Hnd|]. split.
      * intros i Hi [Heq|[]]%list_elem_of_In. subst i.
        apply list_elem_of_fmap in Hi as (q & Hq & Hin).
        apply Hnew. rewrite Hq. apply Hseen, Hin.
      * apply NoDup_singleton.
    + intros p [Hp|Hp]%elem_of_app.
      * apply elem_of_union_r, Hseen, Hp.
      * apply list_elem_of_singleton in Hp as ->. apply elem_of_union_l, elem_of_singleton.
        reflexivity.
Qed.

(** X1: no two places of the list the first pass returns share an id. *)
Theorem build_places_ids_distinct (float_repr : Q -> string)
    (elements : list Osm.element) (limit : Z) :
  NoDup (map Place.id (Osm.build_places float_repr elements limit)).
Proof.
  unfold Osm.build_places. apply build_loop_ids; simpl.
  - constructor.
  - intros p Hp. apply elem_of_nil in Hp. destruct Hp.
Qed.

Lemma build_loop_sublist (float_repr : Q -> string) (limit : Z)
    (elements : list Osm.element) (st : Osm.build_state) :
  exists added,
    Osm.places (Osm.build_loop float_repr limit st elements)
    = (Osm.places st ++ added)%list
    /\ added `sublist_of` omap (normalised float_repr) elements.
Proof.
  unfold Osm.build_loop. revert st.
  induction elements as [|e rest IH]; intros st; simpl.
  - exists []. rewrite app_nil_r. split; [reflexivity | constructor].
  - destruct (build_step_cases float_repr limit st e)
      as [-> | (c & place & Hc & Hp & _ & _ & ->)].
    + destruct (IH st) as (added & -> & Hsub). exists added. split; [reflexivity|].
      destruct (normalised float_repr e); [apply sublist_cons|]; exact Hsub.
    + destruct (IH (Osm.mk_state (Osm.places st ++ [place])
                      ({[Place.id place]} ∪ Osm.seen st)
                      (Osm.bump (Osm.per_category st) c)))
        as (added & -> & Hsub).
      exists (place :: added). simpl. rewrite <- app_assoc. split; [reflexivity|].
      unfold normalised at 1. rewrite Hc, Hp. apply sublist_skip, Hsub.
Qed.

(** X2: the list the first pass returns is a sublist of the places that
    [build_place] gives for the classified elements, in stream order:
    every emitted place is the normalisation of an input element and the
    order of the stream is kept. *)
Theorem build_places_sublist (float_repr : Q -> string)
    (elements : list Osm.element) (limit : Z) :
  Osm.build_places float_repr elements limit
    `sublist_of` omap (normalised float_repr) elements.
Proof.
  unfold Osm.build_places.
  destruct (build_loop_sublist float_repr limit elements Osm.initial)
    as (added & -> & Hsub).
  exact Hsub.
Qed.

(** X3: with a limit of zero or less the first pass emits nothing,
    whatever the stream. *)
Theorem build_places_no_quota (float_repr : Q -> string)
    (elements : list Osm.element) (limit : Z) :
  (limit <= 0)%Z -> Osm.build_places float_repr elements limit = [].
Proof.
  intros Hlimit. unfold Osm.build_places, Osm.build_loop.
  assert (H : fold_left (Osm.build_step float_repr limit) elements Osm.initial
              = Osm.initial).
  { induction elements as [|e rest IH]; simpl; [reflexivity|].
    destruct (build_step_cases float_repr limit Osm.initial e)
      as [-> | (c & place & _ & _ & _ & Hlt & _)]; [exact IH|].
    simpl in Hlt. lia. }
  rewrite H. reflexivity.
Qed.

Lemma build_places_no_quota_witness :
  Osm.build_places (fun _ => "") [coffee_cafe; second_cafe] 0 = [].
Proof.
  apply (build_places_no_quota (fun _ => "") [coffee_cafe; second_cafe] 0). lia.
Defined.


(** ** Slugs *)

Lemma slug_char_facts (c : ascii) :
  slug_char c = true ->
  Py.is_upper c = false /\ Py.is_space c = false
  /\ (Py.is_alnum c = false -> c = "-"%char).
Proof.
  destruct c as [[] [] [] [] [] [] [] []]; vm_compute; intros H;
    repeat split; congruence.
Qed.

Lemma all_chars_first (q : ascii -> bool) (s : string) (c : ascii) :
  Py.all_chars q s = true -> first_char s = Some c -> q c = true.
Proof.
  destruct s as [|a r]; simpl; [discriminate|].
  intros [H _]%andb_prop [= <-]. exact H.
Qed.

Lemma all_chars_last (q : ascii -> bool) (s : string) (c : ascii) :
  Py.all_chars q s = true -> last_char s = Some c -> q c = true.
Proof.
  induction s as [|a r IH]; simpl; [discriminate|].
  intros [Ha Hr]%andb_prop. destruct r as [|b r'].
  - intros [= <-]. exact Ha.
  - apply IH, Hr.
Qed.

Lemma lstrip_unchanged (p : ascii -> bool) (s : string) :
  (forall c, first_char s = Some c -> p c = false) -> Py.lstrip_with p s = s.
Proof.
  destruct s as [|a r]; simpl; [reflexivity|].
  intros H. rewrite (H a eq_refl). reflexivity.
Qed.

Lemma rstrip_unchanged (p : ascii -> bool) (s : string) :
  (forall c, last_char s = Some c -> p c = false) -> Py.rstrip_with p s = s.
Proof.
  induction s as [|a r IH]; simpl; [reflexivity|].
  intros H. destruct r as [|b r'].
  - simpl. rewrite (H a eq_refl). reflexivity.
  - rewrite IH by exact H. reflexivity.
Qed.

Lemma lower_unchanged (s : string) :
  Py.all_chars slug_char s = true -> Py.lower s = s.
Proof.
  induction s as [|a r IH]; simpl; [reflexivity|].
  intros [Ha Hr]%andb_prop. rewrite (IH Hr). unfold Py.lower_char.
  destruct (slug_char_facts a Ha) as (-> & _). reflexivity.
Qed.

Lemma sub_unchanged (s : string) :
  Py.all_chars slug_char s = true ->
  adjacent "-" s = false ->
  Py.sub_non_alnum_from false "-" s = s
  /\ (first_char s <> Some "-"%char -> Py.sub_non_alnum_from true "-" s = s).
Proof.
  induction s as [|a r IH]; [intros; split; reflexivity|].
  intros [Ha Hr]%andb_prop Hadj.
  assert (Hadj' : adjacent "-" r = false).
  { simpl in Hadj. destruct r; [reflexivity|].
    apply orb_false_elim in Hadj as [_ H]. exact H. }
  destruct (IH Hr Hadj') as [IH1 IH2]. cbn [Py.sub_non_alnum_from].
  destruct (Py.is_alnum a) eqn:E.
  - rewrite IH1. split; reflexivity.
  - destruct (slug_char_facts a Ha) as (_ & _ & Hh).
    pose proof (Hh E) as Heq. clear Hh. subst a. split.
    + rewrite IH2; [reflexivity|].
      destruct r as [|b r']; [discriminate|]. simpl. intros [= ->].
      simpl in Hadj. discriminate.
    + intros H. exfalso. apply H. reflexivity.
Qed.

Lemma slugify_shape (text : string) : slug_shaped (Osm.slugify text).
Proof.
  unfold Osm.slugify, slug_shaped.
  set (u := Py.sub_non_alnum "-" (Py.lower (Py.strip text))).
  assert (Hall : Py.all_chars slug_char (Py.strip_char "-" u) = true).
  { apply rstrip_all_chars, lstrip_all_chars, sub_lower_slug_chars. }
  assert (Hadj : adjacent "-" (Py.strip_char "-" u) = false).
  { apply rstrip_adjacent, lstrip_adjacent, sub_no_adjacent. }
  assert (Hfirst : first_char (Py.strip_char "-" u) <> Some "-"%char).
  { intros H. apply rstrip_first, lstrip_first in H. vm_compute in H. discriminate. }
  assert (Hlast : last_char (Py.strip_char "-" u) <> Some "-"%char).
  { intros H. apply rstrip_last in H. vm_compute in H. discriminate. }
  destruct (Py.strip_char "-" u) eqn:E; [|auto].
  repeat split; vm_compute; congruence.
Qed.

Lemma slug_shaped_fixed (s : string) :
  slug_shaped s ->
  Py.strip_char "-" (Py.sub_non_alnum "-" (Py.lower (Py.strip s))) = s.
Proof.
  intros (Hall & Hadj & Hfirst & Hlast).
  assert (Hstrip : Py.strip s = s).
  { unfold Py.strip, Py.strip_with. rewrite lstrip_unchanged.
    - apply rstrip_unchanged. intros c Hc.
      apply (slug_char_facts c (all_chars_last _ _ _ Hall Hc)).
    - intros c Hc. apply (slug_char_facts c (all_chars_first _ _ _ Hall Hc)). }
  rewrite Hstrip, (lower_unchanged s Hall).
  unfold Py.sub_non_alnum. rewrite (proj1 (sub_unchanged s Hall Hadj)).
  unfold Py.strip_char, Py.strip_with. rewrite lstrip_unchanged.
  - apply rstrip_unchanged. intros c Hc.
    destruct (Ascii.eqb_spec "-" c) as [<-|]; [contradiction | reflexivity].
  - intros c Hc.
    destruct (Ascii.eqb_spec "-" c) as [<-|]; [contradiction | reflexivity].
Qed.

(** X5: slugifying a slug gives the slug back. *)
Theorem slugify_idempotent (text : string) :
  Osm.slugify (Osm.slugify text) = Osm.slugify text.
Proof.
  pose proof (slugify_shape text) as Hshape.
  assert (Hne : Osm.slugify text <> "").
  { unfold Osm.slugify. destruct (Py.strip_char _ _); discriminate. }
  unfold Osm.slugify at 1. rewrite (slug_shaped_fixed _ Hshape).
  destruct (Osm.slugify text); [contradiction | reflexivity].
Qed.

Lemma lower_non_alnum (s : string) :
  Py.all_chars non_alnum s = true -> Py.all_chars non_alnum (Py.lower s) = true.
Proof.
  induction s as [|a r IH]; simpl; [reflexivity|].
  intros [Ha Hr]%andb_prop. rewrite (IH Hr), andb_true_r.
  revert Ha. clear. destruct a as [[] [] [] [] [] [] [] []]; vm_compute; congruence.
Qed.

Lemma strip_non_alnum (s : string) :
  Py.all_chars non_alnum s = true -> Py.all_chars non_alnum (Py.strip s) = true.
Proof.
  intros H. unfold Py.strip, Py.strip_with.
  apply rstrip_all_chars, lstrip_all_chars, H.
Qed.

Lemma sub_non_alnum_only (s : string) (b : bool) :
  Py.all_chars non_alnum s = true ->
  Py.strip_char "-" (Py.sub_non_alnum_from b "-" s) = "".
Proof.
  revert b. induction s as [|a r IH]; intros b; [reflexivity|].
  simpl. intros [Ha Hr]%andb_prop.
  unfold non_alnum in Ha. apply andb_prop in Ha as [_ Ha].
  apply negb_true_iff in Ha. rewrite Ha.
  destruct b; [apply IH, Hr|].
  specialize (IH true Hr). unfold Py.strip_char, Py.strip_with in *.
  simpl. exact IH.
Qed.

(** X6: a name of ASCII characters none of which is a letter or a digit
    (the empty name included) is given the placeholder slug. *)
Theorem slugify_placeholder (text : string) :
  Py.all_chars non_alnum text = true -> Osm.slugify text = "place".
Proof.
  intros H. unfold Osm.slugify, Py.sub_non_alnum.
  rewrite sub_non_alnum_only; [reflexivity|].
  apply lower_non_alnum, strip_non_alnum, H.
Qed.

Lemma slugify_placeholder_witness : Osm.slugify " -- !? " = "place".
Proof. apply (slugify_placeholder " -- !? "). reflexivity. Defined.

(** ** Address, cuisine and clamp of the OSM script *)

(** X7: the OSM [build_address] gives no address exactly when none of the
    four parts is present and non-empty, and an address it gives is never
    the empty string. *)
Theorem osm_build_address_present (tags : gmap string string) :
  (Osm.build_address tags = None
   <-> Forall (fun part => Py.truthy part = false) (osm_address_parts tags))
  /\ Osm.build_address tags <> Some "".
Proof.
  unfold Osm.build_address, osm_address_parts.
  generalize (tags !! "addr:street"), (tags !! "addr:housenumber"),
    (tags !! "addr:postcode"), (tags !! "addr:city").
  intros a b c d.
  destruct a as [[|a0 a]|], b as [[|b0 b]|], c as [[|c0 c]|], d as [[|d0 d]|];
    cbn [omap list_omap Py.truthy mbind option_bind];
    repeat match goal with
           | |- context [if ?x then _ else _] => destruct x
           end;
    (split;
     [ split;
       [ intros H; try discriminate H; repeat constructor
       | intros H; try reflexivity;
         repeat match goal with
                | H : Forall _ (_ :: _) |- _ =>
                    apply Forall_cons in H as [? H]
                end; simpl in *; discriminate ]
     | simpl; discriminate ]).
Qed.

Lemma lower_char_idempotent (c : ascii) :
  Py.lower_char (Py.lower_char c) = Py.lower_char c.
Proof. destruct c as [[] [] [] [] [] [] [] []]; vm_compute; reflexivity. Qed.

Lemma lower_idempotent (s : string) : Py.lower (Py.lower s) = Py.lower s.
Proof.
  induction s as [|a r IH]; simpl; [reflexivity|].
  rewrite lower_char_idempotent, IH. reflexivity.
Qed.

(** X8: the cuisine value is read without regard to the case of its
    ASCII letters: a value and its lower-case form give the same tags. *)
Theorem extract_cuisine_tags_ignores_case (tags : gmap string string)
    (cuisine : string) :
  Osm.extract_cuisine_tags (<["cuisine" := cuisine]> tags)
  = Osm.extract_cuisine_tags (<["cuisine" := Py.lower cuisine]> tags).
Proof.
  unfold Osm.extract_cuisine_tags. rewrite !lookup_insert_eq.
  cbn [default from_option id]. rewrite lower_idempotent.
  destruct cuisine; reflexivity.
Qed.

Lemma clamp_tags_fixed (tags : list string) :
  tags_allowed tags -> Osm.clamp_tags tags = tags.
Proof.
  unfold tags_allowed, Osm.clamp_tags.
  induction 1 as [|t r Ht _ IH]; simpl; [reflexivity|].
  apply allowed_elem_of in Ht. rewrite Ht, IH. reflexivity.
Qed.

(** X9: clamping is idempotent and keeps the order of the tags it keeps;
    the tags of the keyword scan and the tags of every place of the first
    pass are left as they are by a further clamp. *)
Theorem clamp_tags_idempotent :
  (forall tags : list string,
      Osm.clamp_tags (Osm.clamp_tags tags) = Osm.clamp_tags tags
      /\ Osm.clamp_tags tags `sublist_of` tags)
  /\ (forall categories : list string,
        Osm.clamp_tags (Zurich.tags_from_categories categories)
        = Zurich.tags_from_categories categories)
  /\ (forall float_repr elements limit,
        Forall (fun p => Osm.clamp_tags (Place.tags p) = Place.tags p)
          (Osm.build_places float_repr elements limit)).
Proof.
  split; [|split].
  - intros tags. split; [apply clamp_tags_fixed, clamp_tags_allowed|].
    unfold Osm.clamp_tags. induction tags as [|t r IH]; simpl; [constructor|].
    destruct (allowed t); [apply sublist_skip | apply sublist_cons]; exact IH.
  - intros. apply clamp_tags_fixed, tags_from_categories_allowed.
  - intros. unfold Osm.build_places. apply build_loop_Forall; [|constructor].
    intros e c place H. apply build_place_fields in H as (_ & -> & _).
    apply clamp_tags_fixed, clamp_tags_allowed.
Qed.

(** ** The Zurich merge loop *)

Section ZurichLoop.

Variable float_repr : Q -> string.
Variable html_unescape : string -> string.

Local Abbreviation main_step := (Zurich.main_step float_repr html_unescape).
Local Abbreviation main_loop := (Zurich.main_loop float_repr html_unescape).

Lemma main_step_skipped (st : gmap string Place.t) (o : Zurich.obj) :
  accepted_key o = None -> main_step st o = st.
Proof.
  unfold accepted_key, Zurich.main_step.
  destruct (Zurich.identifier_of o) as [[|a identifier]|]; try reflexivity.
  destruct (Zurich.geo_of o !! "latitude"); [|reflexivity].
  destruct (Zurich.geo_of o !! "longitude"); [|reflexivity].
  destruct (Zurich.name_of o) as [[|b name]|]; try reflexivity.
  discriminate.
Qed.

Lemma main_step_accepted (st : gmap string Place.t) (o : Zurich.obj) (i : string) :
  accepted_key o = Some i ->
  exists place,
    main_step st o = <[i := place]> st
    /\ match st !! i with
       | None =>
           Place.id place = "zurich-" ++ i
           /\ Place.tags place = Zurich.tags_from_categories (Zurich.o_category o)
       | Some existing =>
           place = Zurich.merge_existing existing
                     (Zurich.tags_from_categories (Zurich.o_category o))
                     (Zurich.photo_url_of o)
                     (Zurich.build_address
                        (Zurich.address_or_empty (Zurich.o_address o)))
                     (Zurich.website_of o) (Zurich.phone_of o)
       end.
Proof.
  unfold accepted_key, Zurich.main_step.
  destruct (Zurich.identifier_of o) as [[|a identifier]|]; try discriminate.
  destruct (Zurich.geo_of o !! "latitude"); [|discriminate].
  destruct (Zurich.geo_of o !! "longitude"); [|discriminate].
  destruct (Zurich.name_of o) as [[|b name]|]; try discriminate.
  intros [= <-]. destruct (st !! String a identifier) as [existing|] eqn:E.
  - eexists. split; reflexivity.
  - eexists. split; [reflexivity|]. split; reflexivity.
Qed.

Lemma main_step_ids (st : gmap string Place.t) (o : Zurich.obj) :
  map_Forall (fun k p => Place.id p = "zurich-" ++ k) st ->
  map_Forall (fun k p => Place.id p = "zurich-" ++ k) (main_step st o).
Proof.
  intros Hst. destruct (accepted_key o) as [i|] eqn:E.
  - destruct (main_step_accepted st o i E) as (place & -> & Hplace).
    apply map_Forall_insert_2; [|exact Hst].
    destruct (st !! i) as [existing|] eqn:Ei.
    + subst place. rewrite (merge_existing_view Place.id) by reflexivity.
      apply (Hst _ _ Ei).
    + apply Hplace.
  - rewrite main_step_skipped by exact E. exact Hst.
Qed.

Lemma main_loop_ids (objects : list Zurich.obj) (st : gmap string Place.t) :
  map_Forall (fun k p => Place.id p = "zurich-" ++ k) st ->
  map_Forall (fun k p => Place.id p = "zurich-" ++ k) (main_loop st objects).
Proof.
  unfold Zurich.main_loop. revert st.
  induction objects as [|o rest IH]; intros st Hst; simpl; [exact Hst|].
  apply IH, main_step_ids, Hst.
Qed.

Lemma main_loop_dom (objects : list Zurich.obj) (st : gmap string Place.t) :
  dom (main_loop st objects)
  = dom st ∪ (list_to_set (omap accepted_key objects) : gset string).
Proof.
  unfold Zurich.main_loop. revert st.
  induction objects as [|o rest IH]; intros st; simpl.
  - symmetry. apply union_empty_r_L.
  - rewrite IH. destruct (accepted_key o) as [i|] eqn:E.
    + destruct (main_step_accepted st o i E) as (place & -> & _).
      rewrite dom_insert_L.
      apply set_eq. intros x.
      rewrite !elem_of_union, !elem_of_list_to_set, elem_of_cons, elem_of_singleton.
      tauto.
    + rewrite main_step_skipped by exact E. reflexivity.
Qed.

Lemma main_step_frozen (st : gmap string Place.t) (o : Zurich.obj)
    (k : string) (p : Place.t) :
  st !! k = Some p ->
  exists p', main_step st o !! k = Some p'
             /\ frozen p' = frozen p
             /\ Place.tags p ⊆ Place.tags p'.
Proof.
  intros Hk.
  destruct (main_step_entry float_repr html_unescape st o k p Hk) as [H|H];
    rewrite H.
  - exists p. split; [reflexivity|]. split; [reflexivity|]. set_solver.
  - eexists. split; [reflexivity|]. split.
    + apply (merge_existing_view frozen); intros []; reflexivity.
    + rewrite merge_existing_tags. intros t Ht.
      apply union_tags_elem_of. left. exact Ht.
Qed.

Lemma main_loop_frozen (objects : list Zurich.obj) (st : gmap string Place.t)
    (k : string) (p : Place.t) :
  st !! k = Some p ->
  exists p', main_loop st objects !! k = Some p'
             /\ frozen p' = frozen p
             /\ Place.tags p ⊆ Place.tags p'.
Proof.
  unfold Zurich.main_loop. revert st p.
  induction objects as [|o rest IH]; intros st p Hk; simpl.
  - exists p. split; [exact Hk|]. split; [reflexivity|]. set_solver.
  - destruct (main_step_frozen st o k p Hk) as (p1 & H1 & Hf1 & Ht1).
    destruct (IH _ _ H1) as (p' & H' & Hf' & Ht').
    exists p'. split; [exact H'|]. split; [congruence|]. set_solver.
Qed.

End ZurichLoop.

(** X10: in the collection the Zurich loop builds from the empty
    dictionary, the place filed under an identifier has the id "zurich-"
    followed by that identifier, so the ids of the places written out are
    pairwise distinct. *)
Theorem zurich_ids_distinct (float_repr : Q -> string)
    (html_unescape : string -> string) (batches : list (list Zurich.obj)) :
  NoDup (map (fun kp => Place.id kp.2)
           (map_to_list (Zurich.main float_repr html_unescape batches)))
  /\ map (fun kp => Place.id kp.2)
       (map_to_list (Zurich.main float_repr html_unescape batches))
     = map (fun kp => "zurich-" ++ kp.1)
         (map_to_list (Zurich.main float_repr html_unescape batches)).
Proof.
  assert (Hids : map_Forall (fun k p => Place.id p = "zurich-" ++ k)
                   (Zurich.main float_repr html_unescape batches)).
  { unfold Zurich.main. apply main_loop_ids, map_Forall_empty. }
  assert (Heq : map (fun kp => Place.id kp.2)
                  (map_to_list (Zurich.main float_repr html_unescape batches))
                = map (fun kp => "zurich-" ++ kp.1)
                    (map_to_list (Zurich.main float_repr html_unescape batches))).
  { apply map_ext_in. intros [k p] Hin. simpl.
    apply Hids, elem_of_map_to_list, list_elem_of_In, Hin. }
  split; [|exact Heq]. rewrite Heq.
  replace (map (fun kp : string * Place.t => "zurich-" ++ kp.1)
             (map_to_list (Zurich.main float_repr html_unescape batches)))
    with ((fun k : string => "zurich-" ++ k)
            <$> (map_to_list (Zurich.main float_repr html_unescape batches)).*1)
    by (rewrite <- list_fmap_compose; reflexivity).
  assert (Hinj : Inj (=) (=) (fun k : string => "zurich-" ++ k)).
  { intros k1 k2 [=]. assumption. }
  apply (NoDup_fmap_2 (fun k : string => "zurich-" ++ k)).
  apply NoDup_fst_map_to_list.
Qed.

(** X11: the identifiers under which the Zurich loop holds a place after
    a stream are those it held before together with the identifiers of
    the objects of the stream that pass the three tests (identifier,
    coordinates, name); no identifier is ever dropped. *)
Theorem zurich_keys (float_repr : Q -> string) (html_unescape : string -> string)
    (objects : list Zurich.obj) (st : gmap string Place.t) :
  dom (Zurich.main_loop float_repr html_unescape st objects)
  = dom st ∪ (list_to_set (omap accepted_key objects) : gset string).
Proof. apply main_loop_dom. Qed.

(** X12: a place the Zurich loop already holds keeps, through any further
    stream, every key other than tags, photoUrl, address, website and
    phone (id, name, category, coordinates, map link, the category
    defaults, description), and its tags are only added to. *)
Theorem zurich_first_writer_wins (float_repr : Q -> string)
    (html_unescape : string -> string) (objects : list Zurich.obj)
    (st : gmap string Place.t) (k : string) (p : Place.t) :
  st !! k = Some p ->
  exists p',
    Zurich.main_loop float_repr html_unescape st objects !! k = Some p'
    /\ frozen p' = frozen p
    /\ Place.tags p ⊆ Place.tags p'.
Proof. apply main_loop_frozen. Qed.

Lemma zurich_first_writer_wins_witness :
  exists p',
    Zurich.main_loop (fun _ => "") (fun s => s) {["x1" := old_place]}
      [kronenhalle_again] !! "x1" = Some p'
    /\ frozen p' = frozen old_place
    /\ Place.tags old_place ⊆ Place.tags p'.
Proof.
  apply (zurich_first_writer_wins (fun _ => "") (fun s => s) [kronenhalle_again]
           {["x1" := old_place]} "x1" old_place).
  vm_compute. reflexivity.
Defined.

(** X13: the value a merge leaves in a scalar field is the stored value
    when that is non-empty, else the incoming value when that is
    non-empty, else the stored value. *)
Theorem merge_existing_rule (f : scalar_field) (existing : Place.t)
    (tags : list string) (photo_url address website phone : option string) :
  get_field f (Zurich.merge_existing existing tags photo_url address website phone)
  = if Py.truthy (get_field f existing) then get_field f existing
    else if Py.truthy (incoming_field f photo_url address website phone)
         then incoming_field f photo_url address website phone
         else get_field f existing.
Proof.
  unfold Zurich.merge_existing. destruct existing, f; simpl.
  all: repeat (match goal with
               | |- context [Py.truthy ?x] => is_var x; destruct (Py.truthy x)
               end; simpl).
  all: reflexivity.
Qed.

(** ** Labels in any order *)

Lemma existsb_Permutation {A : Type} (f : A -> bool) (l l' : list A) :
  Permutation l l' -> existsb f l = existsb f l'.
Proof.
  induction 1 as [|x l l' _ IH|x y l|l l' l'' _ IH1 _ IH2]; simpl.
  - reflexivity.
  - rewrite IH. reflexivity.
  - destruct (f x), (f y); reflexivity.
  - congruence.
Qed.

Lemma mem_Permutation (x : string) (l l' : list string) :
  Permutation l l' -> Zurich.mem x l = Zurich.mem x l'.
Proof.
  intros H. unfold Zurich.mem. apply bool_decide_ext. rewrite H. reflexivity.
Qed.

Lemma filter_Permutation {A : Type} (f : A -> bool) (l l' : list A) :
  Permutation l l' -> Permutation (List.filter f l) (List.filter f l').
Proof.
  induction 1 as [|x l l' _ IH|x y l|l l' l'' _ IH1 _ IH2]; simpl.
  - constructor.
  - destruct (f x); [constructor|]; exact IH.
  - destruct (f x), (f y); try reflexivity. apply perm_swap.
  - etransitivity; eassumption.
Qed.

Lemma flat_map_Permutation {A B : Type} (f : A -> list B) (l l' : list A) :
  Permutation l l' -> Permutation (flat_map f l) (flat_map f l').
Proof.
  induction 1 as [|x l l' _ IH|x y l|l l' l'' _ IH1 _ IH2]; simpl.
  - constructor.
  - apply Permutation_app_head, IH.
  - rewrite !app_assoc. apply Permutation_app_tail, Permutation_app_comm.
  - etransitivity; eassumption.
Qed.

(** X14: the category and the tags of an object do not depend on the
    order of its category labels or of its type codes: reordered labels
    and codes give the same category, and reordered labels give the same
    tags up to order. *)
Theorem labels_in_any_order (types types' categories categories' : list string) :
  Permutation types types' ->
  Permutation categories categories' ->
  Zurich.category_from_type types categories
  = Zurich.category_from_type types' categories'
  /\ Permutation (Zurich.tags_from_categories categories)
       (Zurich.tags_from_categories categories').
Proof.
  intros Ht Hc. split.
  - unfold Zurich.category_from_type.
    assert (Hany : forall values,
               Zurich.has_any (map Py.lower categories) values
               = Zurich.has_any (map Py.lower categories') values).
    { intros values. apply existsb_Permutation, Permutation_map, Hc. }
    assert (Hmem : forall code, Zurich.mem code types = Zurich.mem code types').
    { intros code. apply mem_Permutation, Ht. }
    cbv zeta. rewrite !Hany, !Hmem. reflexivity.
  - unfold Zurich.tags_from_categories.
    apply filter_Permutation, flat_map_Permutation, Hc.
Qed.

Lemma labels_in_any_order_witness :
  Zurich.category_from_type ["place"; "museum"] ["Old Town"; "Lake view"]
  = Zurich.category_from_type ["museum"; "place"] ["Lake view"; "Old Town"]
  /\ Permutation (Zurich.tags_from_categories ["Old Town"; "Lake view"])
       (Zurich.tags_from_categories ["Lake view"; "Old Town"]).
Proof.
  apply (labels_in_any_order ["place"; "museum"] ["museum"; "place"]
           ["Old Town"; "Lake view"] ["Lake view"; "Old Town"]);
    apply perm_swap.
Defined.

(** ** Removal of markup *)

Lemma close_index_removed (s : string) (k : nat) :
  Zurich.close_index s = None ->
  Zurich.close_index (Zurich.remove_tags_from k s) = None.
Proof.
  revert k. induction s as [|c r IH]; intros k; simpl; [reflexivity|].
  destruct (Ascii.eqb c ">") eqn:Ec; [discriminate|].
  destruct (Zurich.close_index r) eqn:Er; [discriminate|]. intros _.
  destruct k; [|apply IH; reflexivity].
  destruct (Ascii.eqb c "<"); simpl; rewrite Ec, IH; reflexivity.
Qed.

Lemma remove_tags_from_tag_free (s : string) (k : nat) :
  tag_free (Zurich.remove_tags_from k s) = true.
Proof.
  revert k. induction s as [|c r IH]; intros k; simpl; [reflexivity|].
  destruct k; [|apply IH].
  destruct (Ascii.eqb c "<") eqn:Ec.
  - destruct (Zurich.close_index r) as [[|j]|] eqn:Er.
    + simpl. rewrite Ec, IH, andb_true_r.
      destruct r as [|d r']; [discriminate|]. simpl in Er.
      destruct (Ascii.eqb d ">") eqn:Ed.
      * apply Ascii.eqb_eq in Ed. subst d. simpl. reflexivity.
      * destruct (Zurich.close_index r'); discriminate.
    + apply IH.
    + simpl. rewrite Ec, IH, andb_true_r.
      rewrite (close_index_removed r 0 Er). reflexivity.
  - simpl. rewrite Ec, IH. reflexivity.
Qed.

Lemma tag_free_unchanged (s : string) :
  tag_free s = true -> Zurich.remove_tags_from 0 s = s.
Proof.
  induction s as [|c r IH]; simpl; [reflexivity|].
  intros [Hc Hr]%andb_prop. rewrite (IH Hr).
  destruct (Ascii.eqb c "<"); [|reflexivity].
  destruct (Zurich.close_index r) as [[|j]|]; try reflexivity. discriminate.
Qed.

Lemma remove_tags_from_length (s : string) (k : nat) :
  String.length (Zurich.remove_tags_from k s) <= String.length s.
Proof.
  revert k. induction s as [|c r IH]; intros k; simpl; [lia|].
  destruct k; [|specialize (IH k); lia].
  destruct (Ascii.eqb c "<").
  - destruct (Zurich.close_index r) as [[|j]|]; simpl.
    + specialize (IH 0). lia.
    + specialize (IH (S (S j))). lia.
    + specialize (IH 0). lia.
  - simpl. specialize (IH 0). lia.
Qed.

(** X15: after the removal of markup no tag is left, so a second removal
    changes nothing; and the removal never makes a text longer. *)
Theorem remove_tags_idempotent (s : string) :
  tag_free (Zurich.remove_tags s) = true
  /\ Zurich.remove_tags (Zurich.remove_tags s) = Zurich.remove_tags s
  /\ String.length (Zurich.remove_tags s) <= String.length s.
Proof.
  unfold Zurich.remove_tags. split; [apply remove_tags_from_tag_free|].
  split; [apply tag_free_unchanged, remove_tags_from_tag_free|].
  apply remove_tags_from_length.
Qed.

(** ** The choice of the entity *)

Section Nearest.

Variable haversine_km : Q -> Q -> Q -> Q -> Q.
Variable get_entity : string -> Wikidata.claims.
Variable place : Place.t.
Variable max_km : Q.

Local Abbreviation distance := (candidate_distance haversine_km place).

Local Abbreviation nearest_so_far :=
  (nearest_within haversine_km get_entity place max_km).

Lemma best_step_distance (acc : option (Wikidata.claims * Q)) (c : string) :
  Wikidata.best_step haversine_km get_entity place max_km acc c
  = match distance (get_entity c) with
    | Some d =>
        if negb (Qle_bool d max_km) then acc
        else match acc with
             | None => Some (get_entity c, d)
             | Some (_, best) =>
                 if negb (Qle_bool best d) then Some (get_entity c, d) else acc
             end
    | None => acc
    end.
Proof.
  unfold Wikidata.best_step, candidate_distance.
  destruct (Wikidata.get_coords (get_entity c)) as [[[la|] [lo|]]|]; reflexivity.
Qed.

Lemma best_step_nearest (seen : list string) (acc : option (Wikidata.claims * Q))
    (c : string) :
  nearest_so_far seen acc ->
  nearest_so_far (seen ++ [c])
    (Wikidata.best_step haversine_km get_entity place max_km acc c).
Proof.
  intros Hacc. rewrite best_step_distance.
  destruct (distance (get_entity c)) as [d|] eqn:Ed.
  - destruct (Qle_bool d max_km) eqn:Hin; simpl.
    + apply Qle_bool_iff in Hin. destruct acc as [[cl best]|].
      * destruct Hacc as ((c0 & Hc0 & Hcl) & Hd & Hle & Hmin).
        destruct (Qle_bool best d) eqn:Hcmp; simpl.
        -- apply Qle_bool_iff in Hcmp. split; [|split; [|split]]; auto.
           ++ exists c0. split; [apply elem_of_app; left; exact Hc0 | exact Hcl].
           ++ intros c' d' [Hc'|Hc']%elem_of_app Hd' Hle'.
              ** eapply Hmin; eassumption.
              ** apply list_elem_of_singleton in Hc'. subst c'.
                 rewrite Ed in Hd'. injection Hd' as <-. exact Hcmp.
        -- assert (Hlt : (d < best)%Q).
           { apply Qnot_le_lt. intros H. apply Qle_bool_iff in H. congruence. }
           split; [|split; [|split]]; auto.
           ++ exists c. split; [apply elem_of_app; right; left | reflexivity].
           ++ intros c' d' [Hc'|Hc']%elem_of_app Hd' Hle'.
              ** apply Qle_trans with best; [apply Qlt_le_weak, Hlt|].
                 eapply Hmin; eassumption.
              ** apply list_elem_of_singleton in Hc'. subst c'.
                 rewrite Ed in Hd'. injection Hd' as <-. apply Qle_refl.
      * simpl in Hacc. split; [|split; [|split]]; auto.
        -- exists c. split; [apply elem_of_app; right; left | reflexivity].
        -- intros c' d' [Hc'|Hc']%elem_of_app Hd' Hle'.
           ++ exfalso. apply (Qlt_not_le _ _ (Hacc c' d' Hc' Hd')), Hle'.
           ++ apply list_elem_of_singleton in Hc'. subst c'.
              rewrite Ed in Hd'. injection Hd' as <-. apply Qle_refl.
    + assert (Hout : (max_km < d)%Q).
      { apply Qnot_le_lt. intros H. apply Qle_bool_iff in H. congruence. }
      destruct acc as [[cl best]|].
      * destruct Hacc as ((c0 & Hc0 & Hcl) & Hd & Hle & Hmin).
        split; [|split; [|split]]; auto.
        -- exists c0. split; [apply elem_of_app; left; exact Hc0 | exact Hcl].
        -- intros c' d' [Hc'|Hc']%elem_of_app Hd' Hle'.
           ++ eapply Hmin; eassumption.
           ++ apply list_elem_of_singleton in Hc'. subst c'.
              rewrite Ed in Hd'. injection Hd' as <-.
              exfalso. apply (Qlt_not_le _ _ Hout), Hle'.
      * simpl in *. intros c' d' [Hc'|Hc']%elem_of_app Hd'.
        -- eapply Hacc; eassumption.
        -- apply list_elem_of_singleton in Hc'. subst c'.
           rewrite Ed in Hd'. injection Hd' as <-. exact Hout.
  - destruct acc as [[cl best]|].
    + destruct Hacc as ((c0 & Hc0 & Hcl) & Hd & Hle & Hmin).
      split; [|split; [|split]]; auto.
      * exists c0. split; [apply elem_of_app; left; exact Hc0 | exact Hcl].
      * intros c' d' [Hc'|Hc']%elem_of_app Hd' Hle'.
        -- eapply Hmin; eassumption.
        -- apply list_elem_of_singleton in Hc'. subst c'. congruence.
    + simpl in *. intros c' d' [Hc'|Hc']%elem_of_app Hd'.
      * eapply Hacc; eassumption.
      * apply list_elem_of_singleton in Hc'. subst c'. congruence.
Qed.

Lemma best_loop_nearest (candidates seen : list string)
    (acc : option (Wikidata.claims * Q)) :
  nearest_so_far seen acc ->
  nearest_so_far (seen ++ candidates)
    (fold_left (Wikidata.best_step haversine_km get_entity place max_km)
       candidates acc).
Proof.
  revert seen acc. induction candidates as [|c rest IH]; intros seen acc Hacc; simpl.
  - rewrite app_nil_r. exact Hacc.
  - replace (seen ++ c :: rest)%list with ((seen ++ [c]) ++ rest)%list
      by (rewrite <- app_assoc; reflexivity).
    apply IH, best_step_nearest, Hacc.
Qed.

Lemma best_entity_spec (candidates : list string) :
  nearest_so_far candidates
    (fold_left (Wikidata.best_step haversine_km get_entity place max_km)
       candidates None).
Proof.
  apply (best_loop_nearest candidates [] None).
  simpl. intros c d Hc. apply elem_of_nil in Hc. destruct Hc.
Qed.

End Nearest.

(** X16: the entity [best_entity] returns belongs to a candidate of the
    list, has coordinates, lies within [max_km] of the place, and no
    candidate within [max_km] is nearer to the place. *)
Theorem best_entity_nearest (haversine_km : Q -> Q -> Q -> Q -> Q)
    (get_entity : string -> Wikidata.claims) (place : Place.t)
    (candidates : list string) (max_km : Q) (cl : Wikidata.claims) :
  Wikidata.best_entity haversine_km get_entity place candidates max_km = Some cl ->
  exists c d,
    c ∈ candidates /\ get_entity c = cl
    /\ candidate_distance haversine_km place cl = Some d
    /\ (d <= max_km)%Q
    /\ forall c' d',
         c' ∈ candidates ->
         candidate_distance haversine_km place (get_entity c') = Some d' ->
         (d' <= max_km)%Q -> (d <= d')%Q.
Proof.
  unfold Wikidata.best_entity. intros H.
  pose proof (best_entity_spec haversine_km get_entity place max_km candidates) as Hspec.
  destruct (fold_left _ candidates None) as [[cl' best]|]; [|discriminate].
  simpl in H. injection H as ->.
  destruct Hspec as ((c & Hc & Hcl) & Hd & Hle & Hmin).
  exists c, best. auto.
Qed.

Lemma best_entity_nearest_witness :
  exists c d,
    c ∈ ["Q1"; "Q2"; "Q3"] /\ three_entities c = three_entities "Q3"
    /\ candidate_distance latitude_as_km bare_place (three_entities "Q3") = Some d
    /\ (d <= 2 # 1)%Q
    /\ forall c' d',
         c' ∈ ["Q1"; "Q2"; "Q3"] ->
         candidate_distance latitude_as_km bare_place (three_entities c') = Some d' ->
         (d' <= 2 # 1)%Q -> (d <= d')%Q.
Proof.
  apply (best_entity_nearest latitude_as_km three_entities bare_place
           ["Q1"; "Q2"; "Q3"] (2 # 1) (three_entities "Q3")).
  vm_compute. reflexivity.
Defined.

(** X17: [best_entity] returns no entity exactly when no candidate with
    coordinates lies within [max_km] of the place. *)
Theorem best_entity_none_iff (haversine_km : Q -> Q -> Q -> Q -> Q)
    (get_entity : string -> Wikidata.claims) (place : Place.t)
    (candidates : list string) (max_km : Q) :
  Wikidata.best_entity haversine_km get_entity place candidates max_km = None
  <-> forall c d,
        c ∈ candidates ->
        candidate_distance haversine_km place (get_entity c) = Some d ->
        (max_km < d)%Q.
Proof.
  unfold Wikidata.best_entity.
  pose proof (best_entity_spec haversine_km get_entity place max_km candidates) as Hspec.
  destruct (fold_left _ candidates None) as [[cl best]|]; simpl.
  - split; [discriminate|]. intros H.
    destruct Hspec as ((c & Hc & Hcl) & Hd & Hle & _). subst cl.
    exfalso. apply (Qlt_not_le _ _ (H c best Hc Hd)), Hle.
  - split; [intros _; exact Hspec | reflexivity].
Qed.

(** ** The enrichment of one place *)

Lemma get_set_field (f g : scalar_field) (p : Place.t) (v : option string) :
  get_field g (set_field f p v) = if decide (f = g) then v else get_field g p.
Proof. destruct f, g, p; reflexivity. Qed.

Lemma offered_truthy (get_image_url : string -> option string) (f : scalar_field)
    (cl : Wikidata.claims) (v : string) :
  offered get_image_url f cl = Some v -> Py.truthy (Some v) = true.
Proof.
  unfold offered. destruct f.
  all: repeat match goal with
         | |- context [match ?x with _ => _ end] => destruct x as [[|? ?]|]
         end; try discriminate; intros [= <-]; reflexivity.
Qed.

Section Chain.

Variable haversine_km : Q -> Q -> Q -> Q -> Q.
Variable search_wikidata : string -> list string.
Variable get_entity : string -> Wikidata.claims.
Variable get_image_url : string -> option string.

Local Abbreviation enrich_place :=
  (Wikidata.enrich_place haversine_km search_wikidata get_entity get_image_url).
Local Abbreviation chosen :=
  (chosen_entity haversine_km search_wikidata get_entity).
Local Abbreviation fill := (fill_field get_image_url).
Local Abbreviation gains := (gain get_image_url).

Lemma fill_website_field cl st : Wikidata.fill_website cl st = fill cl st Website.
Proof.
  unfold Wikidata.fill_website, fill_field, offered. simpl.
  destruct (Py.truthy (Place.website st.1)); simpl; [reflexivity|].
  destruct (Wikidata.get_claim_value cl "P856") as [[|a v]|]; reflexivity.
Qed.

Lemma fill_phone_field cl st : Wikidata.fill_phone cl st = fill cl st Phone.
Proof.
  unfold Wikidata.fill_phone, fill_field, offered. simpl.
  destruct (Py.truthy (Place.phone st.1)); simpl; [reflexivity|].
  destruct (Wikidata.get_claim_value cl "P1329") as [[|a v]|]; reflexivity.
Qed.

Lemma fill_address_field cl st : Wikidata.fill_address cl st = fill cl st Address.
Proof.
  unfold Wikidata.fill_address, fill_field, offered. simpl.
  destruct (Py.truthy (Place.address st.1)); simpl; [reflexivity|].
  destruct (Py.or_ _ _) as [[|a v]|]; reflexivity.
Qed.

Lemma fill_photoUrl_field cl st :
  Wikidata.fill_photoUrl get_image_url cl st = fill cl st PhotoUrl.
Proof.
  unfold Wikidata.fill_photoUrl, fill_field, offered. simpl.
  destruct (Py.truthy (Place.photoUrl st.1)); simpl; [reflexivity|].
  destruct (Wikidata.get_claim_value cl "P18") as [[|a v]|]; try reflexivity.
  destruct (get_image_url (String a v)) as [[|b u]|]; reflexivity.
Qed.

Lemma enrich_place_chain (place : Place.t) (max_km : Q) :
  enrich_place place max_km
  = match chosen place max_km with
    | Some cl => fold_left (fill cl) enrich_fields (place, false)
    | None => (place, false)
    end.
Proof.
  unfold Wikidata.enrich_place, chosen_entity.
  destruct (Wikidata.needs place); simpl; [|reflexivity].
  destruct (search_wikidata (Place.name place)) as [|c cs]; [reflexivity|].
  destruct (Wikidata.best_entity _ _ _ _ _) as [cl|]; [|reflexivity].
  rewrite fill_website_field, fill_phone_field, fill_address_field,
    fill_photoUrl_field. reflexivity.
Qed.

Lemma fill_no_gain cl st f : gains cl st.1 f = false -> fill cl st f = st.
Proof.
  unfold gain, fill_field.
  destruct (Py.truthy (get_field f st.1)); simpl; [reflexivity|].
  destruct (offered get_image_url f cl) as [v|]; [|reflexivity].
  intros H. apply bool_decide_eq_false in H. exfalso. apply H. eexists. reflexivity.
Qed.

Lemma fill_gain cl st f :
  gains cl st.1 f = true ->
  exists v, offered get_image_url f cl = Some v
            /\ fill cl st f = (set_field f st.1 (Some v), true).
Proof.
  unfold gain, fill_field.
  destruct (Py.truthy (get_field f st.1)); simpl; [discriminate|].
  intros [v Hv]%bool_decide_eq_true. exists v. rewrite Hv. auto.
Qed.

Lemma gain_elsewhere cl p f g v :
  f <> g -> gains cl (set_field f p v) g = gains cl p g.
Proof.
  intros Hne. unfold gain. rewrite get_set_field.
  destruct (decide (f = g)); [contradiction | reflexivity].
Qed.

(** The result of the [if] blocks for a list of distinct fields. *)
Lemma fill_chain cl (fs : list scalar_field) (st : Place.t * bool) :
  NoDup fs ->
  (fold_left (fill cl) fs st).2 = st.2 || existsb (gains cl st.1) fs
  /\ (forall g,
        get_field g (fold_left (fill cl) fs st).1
        = if bool_decide (g ∈ fs) && gains cl st.1 g
          then offered get_image_url g cl else get_field g st.1)
  /\ (existsb (gains cl st.1) fs = false -> fold_left (fill cl) fs st = st)
  /\ (forall (A : Type) (view : Place.t -> A),
        (forall f p v, view (set_field f p v) = view p) ->
        view (fold_left (fill cl) fs st).1 = view st.1).
Proof.
  revert st. induction fs as [|f rest IH]; intros st Hnd.
  - simpl. rewrite orb_false_r. repeat split; auto.
  - apply NoDup_cons in Hnd as [Hf Hrest]. simpl.
    destruct (gains cl st.1 f) eqn:Hg.
    + destruct (fill_gain cl st f Hg) as (v & Hv & ->).
      destruct (IH (set_field f st.1 (Some v), true) Hrest) as (I1 & I2 & _ & I4).
      cbn [fst snd existsb orb] in *.
      split; [rewrite I1, orb_true_r; reflexivity|]. split; [|split].
      * intros g. rewrite I2, get_set_field.
        destruct (decide (f = g)) as [Heq|Hne]; [subst g|].
        -- destruct (bool_decide (f ∈ rest)) eqn:E1;
             [apply bool_decide_eq_true in E1; contradiction|].
           destruct (bool_decide (f ∈ f :: rest)) eqn:E2;
             [|apply bool_decide_eq_false in E2; exfalso; apply E2; left].
           simpl. rewrite Hg. symmetry. exact Hv.
        -- rewrite gain_elsewhere by exact Hne.
           assert (Hb : bool_decide (g ∈ f :: rest) = bool_decide (g ∈ rest)).
           { apply bool_decide_ext. rewrite elem_of_cons. split; [|auto].
             intros [->|H]; [contradiction | exact H]. }
           rewrite Hb. reflexivity.
      * discriminate.
      * intros A view Hview. rewrite (I4 A view Hview). apply Hview.
    + rewrite (fill_no_gain cl st f Hg).
      destruct (IH st Hrest) as (I1 & I2 & I3 & I4).
      cbn [existsb orb].
      split; [exact I1|]. split; [|split; [exact I3 | exact I4]].
      intros g. rewrite I2. destruct (decide (f = g)) as [Heq|Hne]; [subst g|].
      * destruct (bool_decide (f ∈ rest)) eqn:E1;
          [apply bool_decide_eq_true in E1; contradiction|].
        rewrite Hg, !andb_false_r. reflexivity.
      * assert (Hb : bool_decide (g ∈ f :: rest) = bool_decide (g ∈ rest)).
        { apply bool_decide_ext. rewrite elem_of_cons. split; [|auto].
          intros [->|H]; [contradiction | exact H]. }
        rewrite Hb. reflexivity.
Qed.

Lemma enrich_fields_NoDup : NoDup enrich_fields.
Proof. apply (bool_decide_unpack (NoDup enrich_fields)). vm_compute. exact I. Qed.

Lemma enrich_fields_all (g : scalar_field) : bool_decide (g ∈ enrich_fields) = true.
Proof. destruct g; vm_compute; reflexivity. Qed.

Lemma best_entity_same_coordinates (p q : Place.t) (candidates : list string)
    (max_km : Q) :
  Place.lat p = Place.lat q -> Place.lon p = Place.lon q ->
  Wikidata.best_entity haversine_km get_entity p candidates max_km
  = Wikidata.best_entity haversine_km get_entity q candidates max_km.
Proof.
  intros Hlat Hlon. unfold Wikidata.best_entity. f_equal. generalize (@None (Wikidata.claims * Q)).
  induction candidates as [|c rest IH]; intros acc; simpl; [reflexivity|].
  rewrite IH. f_equal. unfold Wikidata.best_step. rewrite Hlat, Hlon. reflexivity.
Qed.

End Chain.

(** X18: when an entity is chosen for a place, every field among website,
    phone, address and photoUrl that is empty in the place and for which
    the entity offers a value holds that value afterwards, every other of
    the four fields is as before, and the flag returned says whether some
    field was filled; when no entity is chosen the place is returned as it
    was with the flag false. *)
Theorem enrich_place_rule (haversine_km : Q -> Q -> Q -> Q -> Q)
    (search_wikidata : string -> list string) (get_entity : string -> Wikidata.claims)
    (get_image_url : string -> option string) (place : Place.t) (max_km : Q) :
  match chosen_entity haversine_km search_wikidata get_entity place max_km with
  | Some cl =>
      (Wikidata.enrich_place haversine_km search_wikidata get_entity get_image_url
         place max_km).2
      = existsb (gain get_image_url cl place) enrich_fields
      /\ forall g,
           get_field g
             (Wikidata.enrich_place haversine_km search_wikidata get_entity
                get_image_url place max_km).1
           = if gain get_image_url cl place g
             then offered get_image_url g cl else get_field g place
  | None =>
      Wikidata.enrich_place haversine_km search_wikidata get_entity get_image_url
        place max_km
      = (place, false)
  end.
Proof.
  rewrite enrich_place_chain.
  destruct (chosen_entity _ _ _ place max_km) as [cl|]; [|reflexivity].
  destruct (fill_chain get_image_url cl enrich_fields (place, false)
              enrich_fields_NoDup) as (H1 & H2 & _).
  split; [exact H1|]. intros g. rewrite H2, enrich_fields_all. reflexivity.
Qed.

(** X19: the flag [enrich_place] returns is false exactly when the place
    it returns is the place it was given. *)
Theorem enrich_place_flag (haversine_km : Q -> Q -> Q -> Q -> Q)
    (search_wikidata : string -> list string) (get_entity : string -> Wikidata.claims)
    (get_image_url : string -> option string) (place : Place.t) (max_km : Q) :
  (Wikidata.enrich_place haversine_km search_wikidata get_entity get_image_url
     place max_km).2 = false
  <-> (Wikidata.enrich_place haversine_km search_wikidata get_entity get_image_url
         place max_km).1 = place.
Proof.
  rewrite enrich_place_chain.
  destruct (chosen_entity _ _ _ place max_km) as [cl|]; [|split; reflexivity].
  destruct (fill_chain get_image_url cl enrich_fields (place, false)
              enrich_fields_NoDup) as (H1 & H2 & H3 & _).
  cbn [fst snd orb] in *. split.
  - intros H. rewrite H1 in H. rewrite (H3 H). reflexivity.
  - intros H. rewrite H1.
    destruct (existsb (gain get_image_url cl place) enrich_fields) eqn:E;
      [|reflexivity].
    apply existsb_exists in E as (g & _ & Hg).
    specialize (H2 g). rewrite enrich_fields_all, Hg, H in H2. simpl in H2.
    unfold gain in Hg. apply andb_prop in Hg as [Hempty [v Hv]%bool_decide_eq_true].
    rewrite H2, Hv, (offered_truthy _ _ _ _ Hv) in Hempty. discriminate.
Qed.

(** X20: enriching an enriched place again, with the same answers from
    the lookups, changes nothing and reports no update. *)
Theorem enrich_place_idempotent (haversine_km : Q -> Q -> Q -> Q -> Q)
    (search_wikidata : string -> list string) (get_entity : string -> Wikidata.claims)
    (get_image_url : string -> option string) (place : Place.t) (max_km : Q) :
  Wikidata.enrich_place haversine_km search_wikidata get_entity get_image_url
    (Wikidata.enrich_place haversine_km search_wikidata get_entity get_image_url
       place max_km).1 max_km
  = ((Wikidata.enrich_place haversine_km search_wikidata get_entity get_image_url
        place max_km).1, false).
Proof.
  rewrite (enrich_place_chain _ _ _ _ place).
  destruct (chosen_entity _ _ _ place max_km) as [cl|] eqn:Hcl.
  - destruct (fill_chain get_image_url cl enrich_fields (place, false)
                enrich_fields_NoDup) as (_ & H2 & _ & H4).
    set (r := fold_left (fill_field get_image_url cl) enrich_fields (place, false)) in *.
    cbn [fst snd] in *.
    assert (Hview : forall (A : Type) (view : Place.t -> A),
               (forall f p v, view (set_field f p v) = view p) ->
               view r.1 = view place) by exact H4.
    rewrite enrich_place_chain. unfold chosen_entity in *.
    destruct (Wikidata.needs r.1); [|reflexivity].
    destruct (Wikidata.needs place); [|discriminate].
    rewrite (Hview _ Place.name) by (intros [] [] ?; reflexivity).
    rewrite (best_entity_same_coordinates haversine_km get_entity r.1 place)
      by (apply Hview; intros [] [] ?; reflexivity).
    rewrite Hcl.
    destruct (fill_chain get_image_url cl enrich_fields (r.1, false)
                enrich_fields_NoDup) as (_ & _ & H3 & _).
    apply H3. cbn [fst snd]. apply not_true_is_false. intros E.
    apply existsb_exists in E as (g & _ & Hg).
    unfold gain in Hg. apply andb_prop in Hg as [Hempty [v Hv]%bool_decide_eq_true].
    rewrite H2, enrich_fields_all in Hempty. cbn [andb] in Hempty.
    unfold gain in Hempty. rewrite Hv in Hempty.
    destruct (Py.truthy (get_field g place)) eqn:Hp; cbn [negb andb] in Hempty.
    + rewrite Hp in Hempty. discriminate.
    + rewrite bool_decide_eq_true_2 in Hempty by (eexists; reflexivity).
      rewrite (offered_truthy _ _ _ _ Hv) in Hempty. discriminate.
  - cbn [fst]. rewrite enrich_place_chain, Hcl. reflexivity.
Qed.

(** ** The loop of the enrichment script *)

(** X21: the enrichment loop enriches the first [limit - scanned] places
    of the list (none when that is not positive), leaves the others as
    they are, keeps the order, and counts the places for which
    [enrich_place] reported an update. *)
Theorem enrich_loop_prefix (haversine_km : Q -> Q -> Q -> Q -> Q)
    (search_wikidata : string -> list string) (get_entity : string -> Wikidata.claims)
    (get_image_url : string -> option string)
    (max_km : Q) (limit : Z) (places : list Place.t) (scanned : Z) :
  Wikidata.enrich_loop haversine_km search_wikidata get_entity get_image_url
    max_km limit scanned places
  = ((map (fun p => (Wikidata.enrich_place haversine_km search_wikidata get_entity
                       get_image_url p max_km).1)
        (take (Z.to_nat (limit - scanned)) places)
      ++ drop (Z.to_nat (limit - scanned)) places)%list,
     Z.of_nat
       (length
          (List.filter
             (fun p => (Wikidata.enrich_place haversine_km search_wikidata
                          get_entity get_image_url p max_km).2)
             (take (Z.to_nat (limit - scanned)) places)))).
Proof.
  revert scanned. induction places as [|p rest IH]; intros scanned.
  - simpl. rewrite take_nil, drop_nil. reflexivity.
  - cbn [Wikidata.enrich_loop]. destruct (limit <=? scanned)%Z eqn:Hcap.
    + apply Z.leb_le in Hcap.
      replace (Z.to_nat (limit - scanned)) with 0%nat by lia. reflexivity.
    + apply Z.leb_gt in Hcap.
      replace (Z.to_nat (limit - scanned))
        with (S (Z.to_nat (limit - (scanned + 1)))) by lia.
      rewrite (IH (scanned + 1)%Z). cbn [take drop map List.filter app].
      destruct (Wikidata.enrich_place _ _ _ _ p max_km) as [p' u]. cbn [fst snd].
      destruct u; cbn [length]; f_equal; lia.
Qed.

(** ** Writing through the id map *)

Lemma existsb_has_id_app (cid : string) (l1 l2 : list Place.t) :
  existsb (Attach.has_id cid) (l1 ++ l2)
  = existsb (Attach.has_id cid) l1 || existsb (Attach.has_id cid) l2.
Proof. apply existsb_app. Qed.

Lemma has_id_true (cid : string) (p : Place.t) :
  Attach.has_id cid p = true <-> Place.id p = cid.
Proof. unfold Attach.has_id. apply bool_decide_eq_true. Qed.

Lemma has_id_absent (cid : string) (l : list Place.t) :
  Forall (fun q => Place.id q <> cid) l -> existsb (Attach.has_id cid) l = false.
Proof.
  induction 1 as [|q l Hq _ IH]; simpl; [reflexivity|].
  rewrite IH, orb_false_r. apply not_true_is_false. rewrite has_id_true. exact Hq.
Qed.

(** X22: an assignment through the id map changes the last place of the
    list that carries the id and nothing else: earlier places with the
    same id are left as they are. *)
Theorem assign_by_id_last (cid : string) (write : Place.t -> Place.t)
    (before after : list Place.t) (p : Place.t) :
  Place.id p = cid ->
  Forall (fun q => Place.id q <> cid) after ->
  Attach.assign_by_id cid write (before ++ p :: after) = (before ++ write p :: after)%list.
Proof.
  intros Hp Hafter. induction before as [|b rest IH]; simpl.
  - rewrite (has_id_absent cid after Hafter).
    apply has_id_true in Hp. rewrite Hp. reflexivity.
  - rewrite existsb_has_id_app. simpl.
    apply has_id_true in Hp. rewrite Hp, orb_true_r. simpl.
    rewrite IH. reflexivity.
Qed.

Lemma assign_by_id_last_witness :
  Attach.assign_by_id "osm-node-1-kafi" (fun q => set_embedding q (Some [1 # 2]))
    ([bare_place] ++ bare_twin :: [old_place])
  = ([bare_place] ++ set_embedding bare_twin (Some [1 # 2]) :: [old_place])%list.
Proof.
  apply (assign_by_id_last "osm-node-1-kafi"
           (fun q => set_embedding q (Some [1 # 2])) [bare_place] [old_place] bare_twin).
  - reflexivity.
  - repeat constructor. discriminate.
Defined.

Lemma assign_by_id_absent (cid : string) (write : Place.t -> Place.t)
    (places : list Place.t) :
  Attach.in_place_map cid places = false ->
  Attach.assign_by_id cid write places = places.
Proof.
  unfold Attach.in_place_map. induction places as [|p rest IH]; simpl; [reflexivity|].
  intros [Hp Hrest]%orb_false_elim. rewrite Hrest, Hp. reflexivity.
Qed.

Lemma embedding_step_record (places : list Place.t) (r : Attach.embedding_record) :
  Attach.embedding_step places r
  = match record_embedding r with
    | Some (cid, embedding) =>
        Attach.assign_by_id cid (fun p => set_embedding p (Some embedding)) places
    | None => places
    end.
Proof.
  unfold Attach.embedding_step, record_embedding.
  destruct (Attach.er_custom_id r) as [[|a cid]|]; try reflexivity.
  destruct (Attach.er_body r) as [body|]; [|reflexivity].
  destruct (Attach.extract_embedding_from_response body) as [[|x e]|]; try reflexivity.
  destruct (Attach.in_place_map (String a cid) places) eqn:E; [reflexivity|].
  symmetry. apply assign_by_id_absent, E.
Qed.

Lemma description_step_record (places : list Place.t) (r : Attach.description_record) :
  Attach.description_step places r
  = match record_description r with
    | Some (cid, text) =>
        Attach.assign_by_id cid (fun p => set_aiDescription p (Some text)) places
    | None => places
    end.
Proof.
  unfold Attach.description_step, record_description.
  destruct (Attach.dr_custom_id r) as [[|a cid]|]; try reflexivity.
  destruct (Attach.dr_body r) as [b|]; [|reflexivity].
  destruct (Attach.extract_text_from_response b) as [[|x t]|]; try reflexivity.
  destruct (Attach.in_place_map (String a cid) places) eqn:E; [reflexivity|].
  symmetry. apply assign_by_id_absent, E.
Qed.

(** X23: a results line that names no id, has no body, carries no
    non-empty vector, or names an id that no place has, leaves the places
    as they are; the whole merge of such lines returns the places
    unchanged. *)
Theorem embedding_merge_ignores (places : list Place.t)
    (results : list Attach.embedding_record) :
  Forall (fun r => match record_embedding r with
                   | Some (cid, _) => Attach.in_place_map cid places = false
                   | None => True
                   end) results ->
  Attach.embedding_merge_results places results = places.
Proof.
  unfold Attach.embedding_merge_results.
  induction 1 as [|r rest Hr _ IH]; simpl; [reflexivity|].
  rewrite embedding_step_record.
  destruct (record_embedding r) as [[cid e]|]; [|exact IH].
  rewrite assign_by_id_absent by exact Hr. exact IH.
Qed.

Lemma embedding_merge_ignores_witness :
  Attach.embedding_merge_results [bare_place; old_place]
    [Attach.mk_embedding_record (Some "osm-node-9-nowhere") (Some [Some [1 # 2]]);
     Attach.mk_embedding_record (Some "zurich-x1") (Some [Some []]);
     Attach.mk_embedding_record None (Some [Some [1 # 2]]);
     Attach.mk_embedding_record (Some "zurich-x1") None]
  = [bare_place; old_place].
Proof.
  apply (embedding_merge_ignores [bare_place; old_place]).
  repeat constructor.
Defined.

Lemma assign_by_id_ids (cid : string) (write : Place.t -> Place.t)
    (places : list Place.t) :
  (forall p, Place.id (write p) = Place.id p) ->
  map Place.id (Attach.assign_by_id cid write places) = map Place.id places.
Proof. intros H. apply assign_by_id_view, H. Qed.

Lemma existsb_has_id_ids (cid : string) (l l' : list Place.t) :
  map Place.id l = map Place.id l' ->
  existsb (Attach.has_id cid) l = existsb (Attach.has_id cid) l'.
Proof.
  revert l'. induction l as [|p rest IH]; intros [|p' rest']; simpl;
    try discriminate; [reflexivity|].
  intros [= Hp Hrest]. rewrite (IH rest' Hrest). unfold Attach.has_id.
  rewrite Hp. reflexivity.
Qed.

Lemma assign_by_id_twice (cid : string) (first second : Place.t -> Place.t)
    (places : list Place.t) :
  (forall p, Place.id (first p) = Place.id p) ->
  Attach.assign_by_id cid second (Attach.assign_by_id cid first places)
  = Attach.assign_by_id cid (fun p => second (first p)) places.
Proof.
  intros Hid. induction places as [|p rest IH]; simpl; [reflexivity|].
  destruct (existsb (Attach.has_id cid) rest) eqn:E; simpl.
  - rewrite (existsb_has_id_ids cid _ rest (assign_by_id_ids cid first rest Hid)), E, IH.
    reflexivity.
  - destruct (Attach.has_id cid p) eqn:Hp; simpl; rewrite E.
    + unfold Attach.has_id in *. rewrite Hid, Hp. reflexivity.
    + rewrite Hp. reflexivity.
Qed.

(** X24: of two results lines that carry a vector for the same id, the
    later one decides: merging both gives what merging the later one alone
    gives. *)
Theorem embedding_later_line_wins (places : list Place.t)
    (r1 r2 : Attach.embedding_record) (cid : string) (e1 e2 : list Q) :
  record_embedding r1 = Some (cid, e1) ->
  record_embedding r2 = Some (cid, e2) ->
  Attach.embedding_merge_results places [r1; r2]
  = Attach.embedding_merge_results places [r2].
Proof.
  intros H1 H2. unfold Attach.embedding_merge_results. simpl.
  rewrite !embedding_step_record, H1, H2.
  rewrite assign_by_id_twice by reflexivity. reflexivity.
Qed.

Lemma embedding_later_line_wins_witness :
  Attach.embedding_merge_results [bare_place; old_place]
    [Attach.mk_embedding_record (Some "zurich-x1") (Some [Some [1 # 2]]);
     Attach.mk_embedding_record (Some "zurich-x1") (Some [Some [3 # 4; 1 # 4]])]
  = Attach.embedding_merge_results [bare_place; old_place]
      [Attach.mk_embedding_record (Some "zurich-x1") (Some [Some [3 # 4; 1 # 4]])].
Proof.
  apply (embedding_later_line_wins [bare_place; old_place]
           (Attach.mk_embedding_record (Some "zurich-x1") (Some [Some [1 # 2]]))
           (Attach.mk_embedding_record (Some "zurich-x1")
              (Some [Some [3 # 4; 1 # 4]]))
           "zurich-x1" [1 # 2] [3 # 4; 1 # 4]); vm_compute; reflexivity.
Defined.

(** Writing to every place of a list through its own id, when the ids are
    pairwise distinct, writes every place. *)
Lemma assign_each (W : Place.t -> Place.t -> Place.t)
    (todo written : list Place.t) :
  (forall o p, Place.id (W o p) = Place.id p) ->
  NoDup (map Place.id (written ++ todo)) ->
  fold_left (fun acc o => Attach.assign_by_id (Place.id o) (W o) acc) todo
    (written ++ todo)%list
  = (written ++ map (fun p => W p p) todo)%list.
Proof.
  intros HW. revert written. induction todo as [|p rest IH]; intros written Hnd; simpl.
  - reflexivity.
  - rewrite assign_by_id_last; [|reflexivity|].
    + replace (written ++ W p p :: rest)%list with ((written ++ [W p p]) ++ rest)%list
        by (rewrite <- app_assoc; reflexivity).
      rewrite IH.
      * rewrite <- app_assoc. reflexivity.
      * rewrite <- app_assoc. simpl. rewrite map_app in *. simpl in *.
        rewrite HW. exact Hnd.
    + rewrite map_app in Hnd. simpl in Hnd.
      apply NoDup_app in Hnd as (_ & _ & Hnd). apply NoDup_cons in Hnd as [Hp _].
      apply Forall_forall. intros q Hq Heq. apply Hp.
      rewrite <- Heq. apply list_elem_of_fmap. exists q. auto.
Qed.

(** X25: the batch pipeline of the embedding script composes: for places
    with pairwise distinct, non-empty ids, merging the results that answer
    each line of [build_jsonl] with a non-empty vector for its input gives
    every place the vector of its own text, and changes nothing else. *)
Theorem embedding_batch_round_trip (embed : string -> list Q)
    (places : list Place.t) :
  NoDup (map Place.id places) ->
  Forall (fun p => Place.id p <> "" /\ embed (Attach.build_description p) <> [])
    places ->
  Attach.embedding_merge_results places
    (map (answer embed) (Batch.embedding_build_jsonl places))
  = map (fun p => set_embedding p (Some (embed (Attach.build_description p)))) places.
Proof.
  intros Hnd Hok. unfold Attach.embedding_merge_results, Batch.embedding_build_jsonl.
  rewrite map_map.
  assert (Hfold : forall todo,
             Forall (fun p => Place.id p <> ""
                              /\ embed (Attach.build_description p) <> []) todo ->
             forall acc,
             fold_left Attach.embedding_step
               (map (fun p =>
                       answer embed
                         (Batch.mk_embedding_request (Place.id p) "POST"
                            "/v1/embeddings" "text-embedding-3-small"
                            (Attach.build_description p))) todo) acc
             = fold_left
                 (fun acc o =>
                    Attach.assign_by_id (Place.id o)
                      (fun p => set_embedding p
                                  (Some (embed (Attach.build_description o)))) acc)
                 todo acc).
  { induction 1 as [|o rest [Hid Hemb] _ IH]; intros acc; simpl; [reflexivity|].
    rewrite embedding_step_record. unfold record_embedding, answer. simpl.
    destruct (Place.id o) as [|a i] eqn:Ei; [contradiction|].
    destruct (embed (Attach.build_description o)) as [|x e] eqn:Ee; [contradiction|].
    apply IH. }
  rewrite (Hfold places Hok places).
  apply (assign_each
           (fun o p => set_embedding p (Some (embed (Attach.build_description o))))
           places []); [reflexivity | exact Hnd].
Qed.

Lemma embedding_batch_round_trip_witness :
  Attach.embedding_merge_results [bare_place; old_place]
    (map (answer (fun s => [Z.of_nat (String.length s) # 1]))
       (Batch.embedding_build_jsonl [bare_place; old_place]))
  = map (fun p =>
           set_embedding p
             (Some [Z.of_nat (String.length (Attach.build_description p)) # 1]))
      [bare_place; old_place].
Proof.
  apply (embedding_batch_round_trip (fun s => [Z.of_nat (String.length s) # 1])
           [bare_place; old_place]).
  - repeat constructor; [|intros H; apply elem_of_nil in H; exact H].
    intros H. apply list_elem_of_singleton in H. discriminate H.
  - repeat constructor; discriminate.
Defined.

(** X26: the batch pipeline of the description script composes: for
    places with pairwise distinct, non-empty ids, merging results that
    answer each line of [build_jsonl], under its custom id, with a
    non-empty "output_text" of ASCII characters gives every place the text
    for its id, stripped of the white space at both ends, as
    aiDescription, and changes nothing else. *)
Theorem description_batch_round_trip (reply : string -> string)
    (places : list Place.t) :
  NoDup (map Place.id places) ->
  Forall (fun p => Place.id p <> ""
                   /\ reply (Place.id p) <> ""
                   /\ ascii_only (reply (Place.id p)) = true)
    places ->
  Attach.description_merge_results places
    (map (reply_line reply) (Batch.description_build_jsonl places))
  = map (fun p => set_aiDescription p (Some (Py.strip (reply (Place.id p)))))
      places.
Proof.
  intros Hnd Hok.
  unfold Attach.description_merge_results, Batch.description_build_jsonl.
  rewrite map_map.
  assert (Hfold : forall todo,
             Forall (fun p => Place.id p <> ""
                              /\ reply (Place.id p) <> ""
                              /\ ascii_only (reply (Place.id p)) = true) todo ->
             forall acc,
             fold_left Attach.description_step
               (map (fun p =>
                       reply_line reply
                         (Batch.mk_description_request (Place.id p) "POST"
                            "/v1/responses" "gpt-5.2" Batch.SYSTEM_INSTRUCTIONS
                            (Batch.build_input_text p) 50)) todo) acc
             = fold_left
                 (fun acc o =>
                    Attach.assign_by_id (Place.id o)
                      (fun p =>
                         set_aiDescription p
                           (Some (Py.strip (reply (Place.id o)))))
                      acc)
                 todo acc).
  { induction 1 as [|o rest (Hid & Htext & _) _ IH]; intros acc; simpl;
      [reflexivity|].
    rewrite description_step_record.
    unfold record_description, reply_line, Attach.extract_text_from_response.
    cbn [Attach.dr_custom_id Attach.dr_body Attach.b_output_text
           Batch.dq_custom_id Batch.dq_input].
    destruct (Place.id o) as [|a i] eqn:Ei; [contradiction|].
    destruct (reply (String a i)) as [|x t] eqn:Et; [contradiction|].
    cbn [Py.truthy]. apply IH. }
  rewrite (Hfold places Hok places).
  apply (assign_each
           (fun o p =>
              set_aiDescription p (Some (Py.strip (reply (Place.id o)))))
           places []); [reflexivity | exact Hnd].
Qed.

Lemma description_batch_round_trip_witness :
  Attach.description_merge_results [bare_place; old_place]
    (map (reply_line (fun _ => " A fine place. "))
       (Batch.description_build_jsonl [bare_place; old_place]))
  = map (fun p => set_aiDescription p (Some (Py.strip " A fine place. ")))
      [bare_place; old_place].
Proof.
  apply (description_batch_round_trip (fun _ => " A fine place. ")
           [bare_place; old_place]).
  - repeat constructor; [|intros H; apply elem_of_nil in H; exact H].
    intros H. apply list_elem_of_singleton in H. discriminate H.
  - repeat constructor; discriminate.
Defined.

(** ** Running the offline embedding pass again *)

Lemma string_length_app (s t : string) :
  String.length (s ++ t) = String.length s + String.length t.
Proof. induction s as [|a s IH]; simpl; [reflexivity | rewrite IH; reflexivity]. Qed.

(** X27: the text the offline embedding pass builds contains the
    aiDescription it stored on the previous run: for a place with a
    non-empty name, the text built on a second run is strictly longer than
    the text built on the first, so the pass is not idempotent. *)
Theorem qwen_text_grows (embed_text : string -> list Q) (place : Place.t) :
  Place.name place <> "" ->
  String.length (Attach.build_description place)
  < String.length (Attach.build_description (Attach.qwen_step embed_text place)).
Proof.
  destruct place as [id name category lat lon tags address website phone photoUrl
                       mapsUrl indoorOutdoor durationMins bestTimeOfDay description
                       area aiDescription embedding].
  cbn [Place.name]. intros Hname.
  destruct name as [|n0 name]; [contradiction|].
  unfold Attach.qwen_step, Attach.build_description.
  cbn [Place.name Place.category Place.tags Place.aiDescription Place.description
         set_embedding set_aiDescription].
  generalize (Py.join ", " tags). intros joined.
  destruct category as [|c0 category], joined as [|t0 joined],
    aiDescription as [[|a0 ai]|], description as [[|d0 descr]|];
    simpl; rewrite ?string_length_app; simpl; rewrite ?string_length_app;
    simpl; lia.
Qed.

Lemma qwen_text_grows_witness :
  String.length (Attach.build_description bare_place)
  < String.length (Attach.build_description (Attach.qwen_step (fun _ => []) bare_place)).
Proof. apply (qwen_text_grows (fun _ => []) bare_place). discriminate. Defined.

(** ** Labels in any case *)

Lemma map_lower_idempotent (l : list string) :
  map Py.lower (map Py.lower l) = map Py.lower l.
Proof.
  rewrite map_map. apply map_ext. intros s. apply lower_idempotent.
Qed.

(** X28: category labels are read without regard to the case of their
    ASCII letters: the labels and their lower-case forms give the same
    category and the same tags. *)
Theorem labels_ignore_case (types categories : list string) :
  Zurich.category_from_type types (map Py.lower categories)
  = Zurich.category_from_type types categories
  /\ Zurich.tags_from_categories (map Py.lower categories)
     = Zurich.tags_from_categories categories.
Proof.
  split.
  - unfold Zurich.category_from_type. rewrite map_lower_idempotent. reflexivity.
  - unfold Zurich.tags_from_categories. f_equal.
    induction categories as [|c rest IH]; simpl; [reflexivity|].
    rewrite lower_idempotent, IH. reflexivity.
Qed.

(** ** Derived fields *)

Lemma build_place_consistent (float_repr : Q -> string) (e : Osm.element)
    (c : Osm.category) (place : Place.t) :
  Osm.build_place float_repr e c = Some place -> osm_consistent float_repr place.
Proof.
  unfold Osm.build_place.
  destruct (Osm.element_center e) as [[la lo]|]; [|discriminate].
  destruct (Osm.tags_of e !! "name") as [[|a r]|]; try discriminate.
  intros [= <-]. split; [discriminate|]. split; [reflexivity|].
  exists c. auto.
Qed.

(** X29: every place the first pass emits has a non-empty name, one of
    the eight OSM categories together with the indoorOutdoor, durationMins
    and bestTimeOfDay defaults of that category, and the map link of its
    own coordinates. *)
Theorem osm_places_consistent (float_repr : Q -> string)
    (elements : list Osm.element) (limit : Z) :
  Forall (osm_consistent float_repr) (Osm.build_places float_repr elements limit).
Proof.
  unfold Osm.build_places. apply build_loop_Forall; [|constructor].
  apply build_place_consistent.
Qed.

Lemma main_step_consistent (float_repr : Q -> string)
    (html_unescape : string -> string) (st : gmap string Place.t) (o : Zurich.obj) :
  map_Forall (fun _ p => zurich_consistent float_repr p) st ->
  map_Forall (fun _ p => zurich_consistent float_repr p)
    (Zurich.main_step float_repr html_unescape st o).
Proof.
  intros Hst. unfold Zurich.main_step.
  destruct (Zurich.identifier_of o) as [[|a identifier]|]; auto.
  destruct (Zurich.geo_of o !! "latitude"); auto.
  destruct (Zurich.geo_of o !! "longitude"); auto.
  destruct (Zurich.name_of o) as [[|b name]|]; auto.
  destruct (st !! String a identifier) as [existing|] eqn:E.
  - apply map_Forall_insert_2; [|exact Hst].
    pose proof (Hst _ _ E) as Hexisting. unfold zurich_consistent in *.
    rewrite !(merge_existing_view Place.name), !(merge_existing_view Place.mapsUrl),
      !(merge_existing_view Place.lat), !(merge_existing_view Place.lon),
      !(merge_existing_view Place.category),
      !(merge_existing_view Place.indoorOutdoor),
      !(merge_existing_view Place.durationMins),
      !(merge_existing_view Place.bestTimeOfDay) by reflexivity.
    exact Hexisting.
  - apply map_Forall_insert_2; [|exact Hst].
    split; [discriminate|]. split; [reflexivity|]. eexists. simpl. auto.
Qed.

(** X30: every place of the collection the Zurich loop writes out has a
    non-empty name, a category of the taxonomy together with the
    indoorOutdoor, durationMins and bestTimeOfDay defaults of that
    category, and the map link of its own coordinates, however many
    objects were merged into it. *)
Theorem zurich_places_consistent (float_repr : Q -> string)
    (html_unescape : string -> string) (batches : list (list Zurich.obj)) :
  Forall (zurich_consistent float_repr)
    (map snd (map_to_list (Zurich.main float_repr html_unescape batches))).
Proof.
  assert (H : map_Forall (fun _ p => zurich_consistent float_repr p)
                (Zurich.main float_repr html_unescape batches)).
  { unfold Zurich.main, Zurich.main_loop. generalize (concat batches).
    intros objects.
    assert (Hloop : forall st,
               map_Forall (fun _ p => zurich_consistent float_repr p) st ->
               map_Forall (fun _ p => zurich_consistent float_repr p)
                 (fold_left (Zurich.main_step float_repr html_unescape) objects st)).
    { induction objects as [|o rest IH]; intros st Hst; simpl; [exact Hst|].
      apply IH, main_step_consistent, Hst. }
    apply Hloop, map_Forall_empty. }
  apply Forall_forall. intros p Hp.
  apply list_elem_of_fmap in Hp as ([k q] & -> & Hin).
  apply elem_of_map_to_list in Hin. exact (H k q Hin).
Qed.
